(** * A shallow embedding of App.py: credential store, appointment and
      reminder ledgers, profile store and assistant gateway.

    The Python functions of [src/App.py] are written as Rocq functions over
    an explicit database value; the library calls they make ([datetime],
    [pytz], [sqlite3], [bcrypt], [re], the text-generation pipeline) are
    modelled next to them, each with a note on what it covers.  The first
    half of the file holds the definitions, module by module, the page
    that calls the functions last; the second half holds the facts about
    them, the theorems about [App.py] and about its page last. *)

From Stdlib Require Import ZArith Lia List Bool Ascii String.
From Stdlib Require Import Permutation Sorted.
Import ListNotations.

Ltac Zify.zify_post_hook ::= Z.to_euclidean_division_equations.

(* ------------------------------------------------------------------ *)
(** ** The proleptic Gregorian calendar of Python's [datetime] module  *)
(* ------------------------------------------------------------------ *)

Module Calendar.
Local Open Scope Z_scope.

(** [datetime.MINYEAR], [datetime.MAXYEAR]. *)
Definition MINYEAR : Z := 1.
Definition MAXYEAR : Z := 9999.

(** [_is_leap]. *)
Definition is_leap (y : Z) : bool :=
  (y mod 4 =? 0) && (negb (y mod 100 =? 0) || (y mod 400 =? 0)).

(** [_days_before_year]: days before January 1st of year [y]. *)
Definition days_before_year (y : Z) : Z :=
  let y := y - 1 in y * 365 + y / 4 - y / 100 + y / 400.

(** [_DAYS_IN_MONTH] with the leap day of [_days_in_month]. *)
Definition days_in_month (y m : Z) : Z :=
  match m with
  | 2 => if is_leap y then 29 else 28
  | 4 | 6 | 9 | 11 => 30
  | _ => 31
  end.

(** [_DAYS_BEFORE_MONTH]. *)
Definition DAYS_BEFORE_MONTH (m : Z) : Z :=
  match m with
  | 1 => 0 | 2 => 31 | 3 => 59 | 4 => 90 | 5 => 120 | 6 => 151
  | 7 => 181 | 8 => 212 | 9 => 243 | 10 => 273 | 11 => 304 | _ => 334
  end.

(** [_days_before_month]. *)
Definition days_before_month (y m : Z) : Z :=
  DAYS_BEFORE_MONTH m + (if (2 <? m) && is_leap y then 1 else 0).

(** [_ymd2ord]: 0001-01-01 is day 1. *)
Definition ymd2ord (y m d : Z) : Z :=
  days_before_year y + days_before_month y m + d.

Definition DI400Y : Z := 146097.
Definition DI100Y : Z := 36524.
Definition DI4Y : Z := 1461.

(** [_ord2ymd], line by line. *)
Definition ord2ymd (n : Z) : Z * Z * Z :=
  let n := n - 1 in
  let n400 := n / DI400Y in
  let n := n mod DI400Y in
  let n100 := n / DI100Y in
  let n := n mod DI100Y in
  let n4 := n / DI4Y in
  let n := n mod DI4Y in
  let n1 := n / 365 in
  let n := n mod 365 in
  let year := n400 * 400 + 1 + n100 * 100 + n4 * 4 + n1 in
  if (n1 =? 4) || (n100 =? 4) then (year - 1, 12, 31)
  else
    let leapyear := (n1 =? 3) && (negb (n4 =? 24) || (n100 =? 3)) in
    let month := (n + 50) / 32 in
    let preceding :=
      DAYS_BEFORE_MONTH month + (if (2 <? month) && leapyear then 1 else 0) in
    if n <? preceding then
      let month := month - 1 in
      let preceding :=
        preceding
        - (days_in_month 1 month
           + (if (month =? 2) && leapyear then 1 else 0)) in
      (year, month, n - preceding + 1)
    else (year, month, n - preceding + 1).

(** [date.max.toordinal()]. *)
Definition MAXORDINAL : Z := 3652059.

Definition valid_date (y m d : Z) : Prop :=
  MINYEAR <= y <= MAXYEAR /\ 1 <= m <= 12 /\ 1 <= d <= days_in_month y m.

Definition valid_dateb (y m d : Z) : bool :=
  (MINYEAR <=? y) && (y <=? MAXYEAR) && (1 <=? m) && (m <=? 12)
  && (1 <=? d) && (d <=? days_in_month y m).

(** Three comparisons in lexicographic order. *)
Definition lex3 (c1 c2 c3 : comparison) : comparison :=
  match c1 with Eq => match c2 with Eq => c3 | c => c end | c => c end.

End Calendar.

(* ------------------------------------------------------------------ *)
(** ** Text: decimal fields, byte order, substring search              *)
(* ------------------------------------------------------------------ *)

(** A Python [str] or SQLite TEXT value is kept as the byte string of its
    UTF-8 encoding.  SQLite's default BINARY collation compares these
    bytes with [memcmp], which is [String.compare]; [String.leb] is its
    [<=]. *)

Module Text.
Local Open Scope string_scope.
Local Open Scope Z_scope.

(** The digit character of [d], for [0 <= d < 10]. *)
Definition digit (d : Z) : ascii := ascii_of_N (Z.to_N (48 + d)).

Definition is_digit (c : ascii) : bool :=
  let n := Z.of_N (N_of_ascii c) in (48 <=? n) && (n <=? 57).

Definition digit_value (c : ascii) : Z := Z.of_N (N_of_ascii c) - 48.

(** ["%02d" % n], for [0 <= n < 100]. *)
Definition pad2 (n : Z) : string :=
  String (digit (n / 10)) (String (digit (n mod 10)) "").

(** ["%04d" % n], for [0 <= n < 10000]. *)
Definition pad4 (n : Z) : string := pad2 (n / 100) ++ pad2 (n mod 100).

(** ["%06d" % n], for [0 <= n < 1000000]. *)
Definition pad6 (n : Z) : string :=
  pad2 (n / 10000) ++ pad2 (n / 100 mod 100) ++ pad2 (n mod 100).

(** Reading back two, four and six digit fields. *)
Definition read2 (s : string) : option (Z * string) :=
  match s with
  | String a (String b rest) =>
      if is_digit a && is_digit b
      then Some (10 * digit_value a + digit_value b, rest)
      else None
  | _ => None
  end.

Definition read4 (s : string) : option (Z * string) :=
  match read2 s with
  | Some (hi, s1) =>
      match read2 s1 with
      | Some (lo, s2) => Some (100 * hi + lo, s2)
      | None => None
      end
  | None => None
  end.

Definition read6 (s : string) : option (Z * string) :=
  match read2 s with
  | Some (a, s1) =>
      match read4 s1 with
      | Some (b, s2) => Some (10000 * a + b, s2)
      | None => None
      end
  | None => None
  end.

(** Consume one expected character. *)
Definition expect (c : ascii) (s : string) : option string :=
  match s with
  | String a rest => if Ascii.eqb a c then Some rest else None
  | EmptyString => None
  end.

(** Drop the leading characters that satisfy [p]. *)
Fixpoint drop_while (p : ascii -> bool) (s : string) : string :=
  match s with
  | String a rest => if p a then drop_while p rest else s
  | EmptyString => EmptyString
  end.

(** Python's [needle in hay] on strings. *)
Fixpoint contains (needle hay : string) : bool :=
  String.prefix needle hay
  || match hay with
     | String _ rest => contains needle rest
     | EmptyString => false
     end.

(** Two comparisons in lexicographic order. *)
Definition lex (c1 c2 : comparison) : comparison :=
  match c1 with Eq => c2 | c => c end.

End Text.

(* ------------------------------------------------------------------ *)
(** ** Python exceptions                                               *)
(* ------------------------------------------------------------------ *)

Module Py.
Local Open Scope string_scope.

(** The exception classes the program can meet; all derive from
    [Exception], so [except Exception] catches each of them. *)
Inductive exn_class : Type :=
| OverflowError
| ValueError
| IndexError
| KeyError
| IntegrityError      (* sqlite3.IntegrityError *)
| RuntimeError.       (* any other fault of an external call *)

(** An exception value: its class and [str(e)]. *)
Record exn : Type := Raise { exn_class_of : exn_class; str : string }.

(** A computation that returns or raises. *)
Definition result (A : Type) : Type := (exn + A)%type.

Definition ret {A} (a : A) : result A := inr a.
Definition raise {A} (c : exn_class) (msg : string) : result A :=
  inl (Raise c msg).

Definition bind {A B} (m : result A) (k : A -> result B) : result B :=
  match m with
  | inl e => inl e
  | inr a => k a
  end.

Definition exn_class_eqb (a b : exn_class) : bool :=
  match a, b with
  | OverflowError, OverflowError | ValueError, ValueError
  | IndexError, IndexError | KeyError, KeyError
  | IntegrityError, IntegrityError | RuntimeError, RuntimeError => true
  | _, _ => false
  end.

End Py.

Declare Scope py_scope.
Delimit Scope py_scope with py.
Notation "x <- m ;; k" := (Py.bind m (fun x => k))
  (at level 61, m at next level, right associativity) : py_scope.

(* ------------------------------------------------------------------ *)
(** ** [datetime.datetime], [timedelta] arithmetic and [pytz] zones    *)
(* ------------------------------------------------------------------ *)

Module Datetime.
Import Calendar Text Py.
Local Open Scope string_scope.
Local Open Scope Z_scope.
Local Open Scope py_scope.

(** A [datetime] object.  [tzinfo] is [None] for a naive value; for an
    aware value it is kept as the offset [utcoffset()] returns, in
    seconds east of UTC. *)
Record datetime : Type := mk_datetime {
  year : Z; month : Z; day : Z;
  hour : Z; minute : Z; second : Z; microsecond : Z;
  tzinfo : option Z
}.

Definition valid_offsetb (tz : option Z) : bool :=
  match tz with
  | None => true
  | Some off => (-86400 <? off) && (off <? 86400)
  end.

(** The values the [datetime] constructor accepts. *)
Definition valid_datetimeb (dt : datetime) : bool :=
  valid_dateb (year dt) (month dt) (day dt)
  && (0 <=? hour dt) && (hour dt <? 24)
  && (0 <=? minute dt) && (minute dt <? 60)
  && (0 <=? second dt) && (second dt <? 60)
  && (0 <=? microsecond dt) && (microsecond dt <? 1000000)
  && valid_offsetb (tzinfo dt).

Definition valid_datetime (dt : datetime) : Prop := valid_datetimeb dt = true.

Definition is_naive (dt : datetime) : bool :=
  match tzinfo dt with None => true | Some _ => false end.

(** [dt.replace(tzinfo=tz)]. *)
Definition replace_tzinfo (dt : datetime) (tz : option Z) : datetime :=
  mk_datetime (year dt) (month dt) (day dt)
              (hour dt) (minute dt) (second dt) (microsecond dt) tz.

(** The wall clock of [dt] in microseconds since 0001-01-01T00:00:00. *)
Definition to_us (dt : datetime) : Z :=
  ((((ymd2ord (year dt) (month dt) (day dt) - 1) * 24 + hour dt) * 60
    + minute dt) * 60 + second dt) * 1000000 + microsecond dt.

(** The wall clock that is [n] microseconds after 0001-01-01T00:00:00. *)
Definition of_us (n : Z) (tz : option Z) : datetime :=
  let '(y, m, d) := ord2ymd (n / 86400000000 + 1) in
  let r := n mod 86400000000 in
  mk_datetime y m d
              (r / 3600000000) (r / 60000000 mod 60) (r / 1000000 mod 60)
              (r mod 1000000) tz.

(** [datetime.max] as a microsecond count. *)
Definition MAX_US : Z := MAXORDINAL * 86400000000 - 1.

(** The instant an aware value denotes: microseconds of UTC wall clock. *)
Definition instant (dt : datetime) : Z :=
  to_us dt - match tzinfo dt with Some off => off | None => 0 end * 1000000.

(** [dt + timedelta(seconds=secs)]; the result keeps [dt.tzinfo].
    [datetime.__add__] raises OverflowError outside 0001..9999. *)
Definition add_seconds (dt : datetime) (secs : Z) : result datetime :=
  let n := to_us dt + secs * 1000000 in
  if (0 <=? n) && (n <=? MAX_US) then ret (of_us n (tzinfo dt))
  else raise OverflowError "date value out of range".

(** The two zones the program names, [timezone('UTC')] and
    [timezone('Asia/Kolkata')]. *)
Inductive zone : Type := UTC | Asia_Kolkata.

(** Modelled from the spec: the zone table that pytz ships for
    Asia/Kolkata is not part of the repository; the spec gives the fixed
    default timezone as UTC+5:30, which is the table's only rule for every
    instant since 1945-10-15. *)
Definition zone_utcoffset (z : zone) : Z :=
  match z with
  | UTC => 0
  | Asia_Kolkata => 5 * 3600 + 30 * 60
  end.

(** [tz.fromutc(dt)]: pytz's [UTC] attaches itself; a [DstTzInfo] computes
    [(dt + inf[0]).replace(tzinfo=self._tzinfos[inf])]. *)
Definition fromutc (z : zone) (dt : datetime) : result datetime :=
  match z with
  | UTC => ret (replace_tzinfo dt (Some 0))
  | Asia_Kolkata =>
      loc <- add_seconds (replace_tzinfo dt None) (zone_utcoffset z) ;;
      ret (replace_tzinfo loc (Some (zone_utcoffset z)))
  end.

(** [tz.normalize(dt)] of a [DstTzInfo]:
    [dt.replace(tzinfo=None) - offset], then [fromutc]. *)
Definition normalize (z : zone) (dt : datetime) : result datetime :=
  match tzinfo dt with
  | None => raise ValueError "Naive time - no tzinfo set"
  | Some offset =>
      utc <- add_seconds (replace_tzinfo dt None) (- offset) ;;
      fromutc z utc
  end.

(** [tz.localize(dt)].  pytz's [UTC] attaches itself.  A [DstTzInfo]
    returns a naive [dt] with the rule of the zone in force at that wall
    clock attached, which it finds with
    [normalize(dt.replace(tzinfo=rule))].  The table has one rule, so
    this is one [normalize], and [localize] raises where it does: where
    the UTC value of [dt] leaves the years 0001..9999. *)
Definition localize (z : zone) (dt : datetime) : result datetime :=
  if is_naive dt then
    match z with
    | UTC => ret (replace_tzinfo dt (Some 0))
    | Asia_Kolkata =>
        normalize z (replace_tzinfo dt (Some (zone_utcoffset z)))
    end
  else raise ValueError "Not naive datetime (tzinfo is already set)".

(** [dt._local_timezone()] of a naive [dt]: the offset of the system
    local zone for the wall clock [dt].  CPython finds it by converting
    whole seconds to local time at [dt] itself and a day before it
    ([local_to_seconds], [fold = 0]); a conversion whose local time
    leaves the years 0001..9999 raises [ValueError].  The zone is taken
    to have the offset [local_utcoffset dt] at both conversions. *)
Definition local_timezone (local_utcoffset : datetime -> Z)
    (dt : datetime) : result Z :=
  let o := local_utcoffset dt in
  if MAX_US <? to_us dt + o * 1000000
  then raise ValueError "year 10000 is out of range"
  else if (to_us dt + o * 1000000 <? 0) || (to_us dt <? 86400 * 1000000)
  then raise ValueError "year 0 is out of range"
  else ret o.

(** [dt.astimezone(tz)].  A naive [dt] is presumed to be in the system
    local zone ([dt._local_timezone()]); then
    [(dt - offset).replace(tzinfo=tz)] and [tz.fromutc]. *)
Definition astimezone (local_utcoffset : datetime -> Z)
    (dt : datetime) (z : zone) : result datetime :=
  myoffset <-
    match tzinfo dt with
    | Some off => ret off
    | None => local_timezone local_utcoffset dt
    end ;;
  utc <- add_seconds dt (- myoffset) ;;
  fromutc z utc.

(** [_format_offset]. *)
Definition format_offset (tz : option Z) : string :=
  match tz with
  | None => ""
  | Some off =>
      let sign := if off <? 0 then "-" else "+" in
      let a := Z.abs off in
      let hh := a / 3600 in
      let mm := a mod 3600 / 60 in
      let ss := a mod 60 in
      sign ++ pad2 hh ++ ":" ++ pad2 mm
      ++ (if ss =? 0 then "" else ":" ++ pad2 ss)
  end.

(** ["%04d-%02d-%02d"] and ["%02d:%02d:%02d"] joined by [sep]. *)
Definition format_date_time (sep : string) (dt : datetime) : string :=
  pad4 (year dt) ++ "-" ++ pad2 (month dt) ++ "-" ++ pad2 (day dt)
  ++ sep
  ++ pad2 (hour dt) ++ ":" ++ pad2 (minute dt) ++ ":" ++ pad2 (second dt).

Definition format_fraction (us : Z) : string :=
  if us =? 0 then "" else "." ++ pad6 us.

(** [dt.isoformat()]: the microseconds are printed when they are not
    zero, the offset when [dt] is aware. *)
Definition isoformat (dt : datetime) : string :=
  format_date_time "T" dt ++ format_fraction (microsecond dt)
  ++ format_offset (tzinfo dt).

(** Reading an offset [+HH:MM] or [+HH:MM:SS]; no offset at the end of
    the text. *)
Definition read_offset (s : string) : option (option Z) :=
  match s with
  | EmptyString => Some None
  | String c rest =>
      let sign :=
        if Ascii.eqb c "+" then Some 1
        else if Ascii.eqb c "-" then Some (-1) else None in
      match sign with
      | None => None
      | Some sg =>
          match read2 rest with
          | Some (hh, r1) =>
              match expect ":" r1 with
              | Some r2 =>
                  match read2 r2 with
                  | Some (mm, EmptyString) =>
                      Some (Some (sg * (hh * 3600 + mm * 60)))
                  | Some (mm, String c3 r3) =>
                      if Ascii.eqb c3 ":" then
                        match read2 r3 with
                        | Some (ss, EmptyString) =>
                            Some (Some (sg * (hh * 3600 + mm * 60 + ss)))
                        | _ => None
                        end
                      else None
                  | None => None
                  end
              | None => None
              end
          | None => None
          end
      end
  end.

(** [datetime.fromisoformat] on the texts [isoformat] writes:
    [YYYY-MM-DD], one separator character, [HH:MM:SS], an optional
    six-digit fraction and an optional offset.  Other shapes, which the
    program never stores, are read as a failure ([ValueError]). *)
Definition fromisoformat (s : string) : option datetime :=
  match read4 s with
  | Some (y, s) =>
  match expect "-" s with
  | Some s =>
  match read2 s with
  | Some (m, s) =>
  match expect "-" s with
  | Some s =>
  match read2 s with
  | Some (d, String _ s) =>
  match read2 s with
  | Some (hh, s) =>
  match expect ":" s with
  | Some s =>
  match read2 s with
  | Some (mi, s) =>
  match expect ":" s with
  | Some s =>
  match read2 s with
  | Some (ss, s) =>
      let frac :=
        match expect "." s with
        | Some s' =>
            match read6 s' with
            | Some (us, s'') => Some (us, s'')
            | None => None
            end
        | None => Some (0, s)
        end in
      match frac with
      | Some (us, s) =>
          match read_offset s with
          | Some tz =>
              let dt := mk_datetime y m d hh mi ss us tz in
              if valid_datetimeb dt then Some dt else None
          | None => None
          end
      | None => None
      end
  | None => None end
  | None => None end
  | None => None end
  | None => None end
  | None => None end
  | _ => None end
  | None => None end
  | None => None end
  | None => None end
  | None => None end.

(** Field by field comparison of two wall clocks. *)
Definition wall_compare (a b : datetime) : comparison :=
  lex (year a ?= year b)
  (lex (month a ?= month b)
  (lex (day a ?= day b)
  (lex (hour a ?= hour b)
  (lex (minute a ?= minute b)
  (lex (second a ?= second b)
       (microsecond a ?= microsecond b)))))).

(** [valid_offsetb] as a proposition. *)
Definition valid_offset (tz : option Z) : Prop :=
  match tz with None => True | Some off => -86400 < off < 86400 end.

(** Field by field comparison of two wall clocks down to the second. *)
Definition wall_compare_seconds (a b : datetime) : comparison :=
  lex (year a ?= year b)
  (lex (month a ?= month b)
  (lex (day a ?= day b)
  (lex (hour a ?= hour b)
  (lex (minute a ?= minute b)
       (second a ?= second b))))).

End Datetime.

(* ------------------------------------------------------------------ *)
(** ** SQLite: tables, [datetime()], [ORDER BY]                        *)
(* ------------------------------------------------------------------ *)

Module Sqlite.
Import Calendar Text Py Datetime.
Local Open Scope string_scope.
Local Open Scope Z_scope.
Local Open Scope py_scope.

(** A table whose key is [id INTEGER PRIMARY KEY AUTOINCREMENT]: its rows
    in rowid order and the largest rowid ever given out, which
    [sqlite_sequence] keeps. *)
Record table (A : Type) : Type := mk_table { rows : list A; seq : Z }.
Arguments mk_table {A} _ _.
Arguments rows {A} _.
Arguments seq {A} _.

Definition empty_table {A} : table A := mk_table [] 0.

(** [INSERT]: the new row gets rowid [seq + 1]. *)
Definition insert_row {A} (t : table A) (mk : Z -> A) : table A :=
  mk_table (rows t ++ [mk (seq t + 1)]) (seq t + 1).

(** [DELETE FROM t WHERE p]. *)
Definition delete_where {A} (p : A -> bool) (t : table A) : table A :=
  mk_table (filter (fun r => negb (p r)) (rows t)) (seq t).

(** Binding a Python [int] to a [?] of a statement: the [sqlite3] module
    raises [OverflowError] for an integer outside the signed 64 bits
    ([-2^63 <= n < 2^63]). *)
Definition bind_integer (n : Z) : result Z :=
  if (-9223372036854775808 <=? n) && (n <? 9223372036854775808)
  then ret n
  else raise OverflowError
         "Python int too large to convert to SQLite INTEGER".

(** [sqlite3Isspace]. *)
Definition is_space (c : ascii) : bool :=
  let n := Z.of_N (N_of_ascii c) in (n =? 32) || ((9 <=? n) && (n <=? 13)).

Definition is_space_or_T (c : ascii) : bool := is_space c || Ascii.eqb c "T".

(** The digits at the head of [s]: the number they spell and its power
    of ten, as [parseHhMmSs] accumulates a fraction ([ms], [rScale]), and
    what follows them. *)
Fixpoint read_digits (s : string) (n scale : Z) : Z * Z * string :=
  match s with
  | String c rest =>
      if is_digit c
      then read_digits rest (n * 10 + digit_value c) (scale * 10)
      else (n, scale, s)
  | EmptyString => (n, scale, s)
  end.

(** [parseHhMmSs] up to the time zone: [HH:MM], [HH:MM:SS] or
    [HH:MM:SS.F...] with a fraction of at most six digits (a longer one is
    outside the fragment below).  The whole seconds are what [datetime]
    prints.  The boolean tells whether the seconds, rounded to the
    millisecond as [computeJD] rounds them ([s*1000 + 0.5], cut to an
    integer), reach the next whole second: for a fraction of at most six
    digits this is so from [.9995] on. *)
Definition parse_hms (s : string) : option (Z * Z * Z * bool * string) :=
  match read2 s with
  | Some (h, s) =>
  match expect ":" s with
  | Some s =>
  match read2 s with
  | Some (m, s) =>
      if (h <=? 24) && (m <=? 59) then
        match expect ":" s with
        | Some s1 =>
            match read2 s1 with
            | Some (sec, s2) =>
                if sec <=? 59 then
                  match s2 with
                  | String dot (String f s3) =>
                      if Ascii.eqb dot "." && is_digit f
                      then
                        let '(n, scale, rest) :=
                          read_digits (String f s3) 0 1 in
                        if scale <=? 1000000
                        then Some (h, m, sec,
                                   9995 * scale <=? 10000 * n, rest)
                        else None
                      else Some (h, m, sec, false, s2)
                  | _ => Some (h, m, sec, false, s2)
                  end
                else None
            | None => None
            end
        | None => Some (h, m, 0, false, s)
        end
      else None
  | None => None end
  | None => None end
  | None => None end.

(** [parseTimezone]: nothing, [Z], or [+HH:MM] / [-HH:MM]; the offset in
    minutes. *)
Definition parse_timezone (s : string) : option Z :=
  match drop_while is_space s with
  | EmptyString => Some 0
  | String c rest =>
      if Ascii.eqb c "Z" || Ascii.eqb c "z" then
        match drop_while is_space rest with
        | EmptyString => Some 0
        | _ => None
        end
      else
        let sign :=
          if Ascii.eqb c "+" then Some 1
          else if Ascii.eqb c "-" then Some (-1) else None in
        match sign, read2 rest with
        | Some sg, Some (hh, r1) =>
            match expect ":" r1 with
            | Some r2 =>
                match read2 r2 with
                | Some (mm, r3) =>
                    if (hh <=? 14) && (mm <=? 59) then
                      match drop_while is_space r3 with
                      | EmptyString => Some (sg * (hh * 60 + mm))
                      | _ => None
                      end
                    else None
                | None => None
                end
            | None => None
            end
        | _, _ => None
        end
  end.

(** [validJulianDay] of the day number [computeJD] gives: the time, with
    its seconds rounded to the millisecond, is not after
    9999-12-31 23:59:59.999.  (A date of the years 0001..9999 is never
    before the start of the range.)  [up] tells that the rounding
    reaches the next whole second. *)
Definition valid_julian_day (Y M D h m sec : Z) (up : bool) : bool :=
  (ymd2ord Y M D - 1) * 86400 + h * 3600 + m * 60 + sec
  + (if up then 1 else 0) <? MAXORDINAL * 86400.

(** The SQL function [datetime(X)] with no modifier, on the fragment of
    SQLite's time values the program stores: a calendar date
    [YYYY-MM-DD] of the years 0001..9999, then nothing or, after blanks
    or [T], a time [HH:MM[:SS[.F...]]] before 24:00, its fraction of at
    most six digits, with no offset, [Z] or an offset of zero.  The
    result is NULL when the day number is not valid, which here is the
    case of the last half millisecond of 9999-12-31; otherwise it is
    [YYYY-MM-DD HH:MM:SS]: the fraction is dropped.  Every other text (a
    bare time, ['now'], a Julian day number, a non-zero offset, which
    SQLite would convert) is left outside the fragment and read as NULL
    here; nothing below calls [datetime] on such a text. *)
Definition sqlite_datetime (s : string) : option string :=
  match read4 s with
  | Some (Y, s) =>
  match expect "-" s with
  | Some s =>
  match read2 s with
  | Some (M, s) =>
  match expect "-" s with
  | Some s =>
  match read2 s with
  | Some (D, s) =>
      let s := drop_while is_space_or_T s in
      let time :=
        match parse_hms s with
        | Some (h, m, sec, up, rest) =>
            match parse_timezone rest with
            | Some 0 => Some (h, m, sec, up)
            | _ => None
            end
        | None =>
            match s with
            | EmptyString => Some (0, 0, 0, false)
            | _ => None
            end
        end in
      match time with
      | Some (h, m, sec, up) =>
          if valid_dateb Y M D && (h <? 24)
             && valid_julian_day Y M D h m sec up
          then Some (format_date_time " " (mk_datetime Y M D h m sec 0 None))
          else None
      | None => None
      end
  | None => None end
  | None => None end
  | None => None end
  | None => None end
  | None => None end.

(** The order of [ORDER BY] on a TEXT column that may be NULL: NULL
    sorts first, texts by BINARY collation. *)
Definition key_le (a b : option string) : bool :=
  match a, b with
  | None, _ => true
  | Some _, None => false
  | Some x, Some y => String.leb x y
  end.

(** [ORDER BY]: a sort by the key that keeps rows with equal keys in the
    order the scan met them. *)
Section OrderBy.
Context {A K : Type} (key : A -> K) (le : K -> K -> bool).

Fixpoint insert_by (x : A) (l : list A) : list A :=
  match l with
  | [] => [x]
  | y :: l' =>
      if le (key x) (key y) then x :: l else y :: insert_by x l'
  end.

Fixpoint order_by (l : list A) : list A :=
  match l with
  | [] => []
  | x :: l' => insert_by x (order_by l')
  end.

(** [x] may come before [y]. *)
Definition key_rel (x y : A) : Prop := le (key x) (key y) = true.

End OrderBy.

End Sqlite.

(* ------------------------------------------------------------------ *)
(** ** App.py                                                          *)
(* ------------------------------------------------------------------ *)

Module App.
Import Calendar Text Py Datetime Sqlite.
Local Open Scope string_scope.
Local Open Scope Z_scope.
Local Open Scope py_scope.

(** *** The four tables of [get_db_connection] *)

Record user_row : Type := mk_user {
  user_id : Z;
  user_username : string;          (* TEXT UNIQUE *)
  user_password : string;          (* BLOB: the bcrypt hash *)
  user_email : string
}.

Record appointment_row : Type := mk_appointment {
  appt_id : Z;
  appt_patient_name : string;
  appt_doctor_name : string;
  appt_datetime : string           (* TEXT *)
}.

Record reminder_row : Type := mk_reminder {
  rem_id : Z;
  rem_patient_name : string;
  rem_medication : string;
  rem_time : string;               (* TEXT *)
  rem_sent : Z                     (* INTEGER DEFAULT 0 *)
}.

(** A column no INSERT names is NULL. *)
Record profile_row : Type := mk_profile {
  prof_id : Z;
  prof_username : string;          (* TEXT UNIQUE *)
  prof_full_name : option string;
  prof_age : option Z;
  prof_medical_history : option string;
  prof_allergies : option string;
  prof_medications : option string;
  prof_blood_type : option string;
  prof_height : option Z;
  prof_weight : option Z;
  prof_picture : option string     (* BLOB *)
}.

Record db : Type := mk_db {
  users : table user_row;
  appointments : table appointment_row;
  reminders : table reminder_row;
  profiles : table profile_row
}.

(** The database after the CREATE TABLE IF NOT EXISTS statements on a
    fresh file. *)
Definition empty_db : db :=
  mk_db empty_table empty_table empty_table empty_table.

Definition set_users (d : db) (t : table user_row) : db :=
  mk_db t (appointments d) (reminders d) (profiles d).
Definition set_appointments (d : db) (t : table appointment_row) : db :=
  mk_db (users d) t (reminders d) (profiles d).
Definition set_reminders (d : db) (t : table reminder_row) : db :=
  mk_db (users d) (appointments d) t (profiles d).
Definition set_profiles (d : db) (t : table profile_row) : db :=
  mk_db (users d) (appointments d) (reminders d) t.

(** *** What the program takes from its host

    [bcrypt.hashpw] and [bcrypt.checkpw] (either may raise), the UTC
    offset of the system local zone that [astimezone] gives a naive
    value, the text-generation pipeline [chatbot], whose result is a
    list of dictionaries, and the image decoders of Pillow: [identifies]
    tells whether one of them accepts the bytes. *)
Class Host : Type := {
  hashpw : string -> string -> result string;
  checkpw : string -> string -> result bool;
  local_utcoffset : datetime -> Z;
  chatbot : string -> result (list (list (string * string)));
  identifies : string -> bool
}.

(** [try: body  except Exception as e: handler(e)]. *)
Definition try_except {A} (body : result A) (handler : exn -> A) : A :=
  match body with
  | inr a => a
  | inl e => handler e
  end.

Definition newline : string := String (ascii_of_nat 10) "".

(** *** Credential store *)

Definition is_word_char (c : ascii) : bool :=
  let n := Z.of_N (N_of_ascii c) in
  ((65 <=? n) && (n <=? 90)) || ((97 <=? n) && (n <=? 122))
  || ((48 <=? n) && (n <=? 57)) || (n =? 95).

(** The longest run of [[A-Za-z0-9_]] at the head of [s]: its length and
    what follows it. *)
Fixpoint span_word (s : string) : nat * string :=
  match s with
  | String c rest =>
      if is_word_char c
      then let '(n, tl) := span_word rest in (S n, tl)
      else (O, s)
  | EmptyString => (O, s)
  end.

(** [re.match(r"^[A-Za-z0-9_]{3,20}$", username)].  The repetition can
    only end where the run of class characters ends, and Python's [$]
    matches at the end of the string and also just before a newline that
    ends the string. *)
Definition re_match_username (username : string) : bool :=
  let '(n, rest) := span_word username in
  (3 <=? n)%nat && (n <=? 20)%nat
  && (String.eqb rest "" || String.eqb rest newline).

(** [INSERT INTO users (username, password, email) VALUES (?, ?, ?)]:
    the UNIQUE constraint on [username] raises [IntegrityError]. *)
Definition insert_user (d : db) (username hashed email : string)
  : result db :=
  if existsb (fun r => String.eqb (user_username r) username)
             (rows (users d))
  then raise IntegrityError "UNIQUE constraint failed: users.username"
  else ret (set_users d
              (insert_row (users d)
                 (fun id => mk_user id username hashed email))).

Section Operations.
Context {host : Host}.

(** [signup]; [salt] is the value [bcrypt.gensalt()] draws. *)
Definition signup (d : db) (salt username password email : string)
  : string * db :=
  if negb (re_match_username username) then
    ("❌ Invalid username (3-20 chars, alphanumeric)", d)
  else
    try_except
      (hashed <- hashpw password salt ;;
       d' <- insert_user d username hashed email ;;
       ret ("✅ Signup successful!", d'))
      (fun e =>
         if exn_class_eqb (exn_class_of e) IntegrityError
         then ("❌ Username already exists!", d)
         else ("❌ Signup error: " ++ str e, d)).

(** [login]: [fetchone] gives the first row of the SELECT, if any. *)
Definition login (d : db) (username password : string) : string :=
  try_except
    (match find (fun r => String.eqb (user_username r) username)
                (rows (users d)) with
     | Some row =>
         ok <- checkpw password (user_password row) ;;
         ret (if ok : bool then "✅ Login successful!"
              else "❌ Invalid credentials")
     | None => ret "❌ Invalid credentials"
     end)
    (fun e => "❌ Login error: " ++ str e).

(** *** Assistant gateway *)

Definition disclaimer : string := "⚠️ This is not medical advice.".

(** [xs[0]]. *)
Definition getitem0 {A} (xs : list A) : result A :=
  match xs with
  | x :: _ => ret x
  | [] => raise IndexError "list index out of range"
  end.

(** [d[key]] on a dictionary. *)
Fixpoint getitem (d : list (string * string)) (key : string)
  : result string :=
  match d with
  | (k, v) :: d' => if String.eqb k key then ret v else getitem d' key
  | [] => raise KeyError ("'" ++ key ++ "'")
  end.

(** [healthcare_chatbot], as a computation that could raise, so that
    its not raising is a statement about it. *)
Definition healthcare_chatbot (user_input : string) : result string :=
  match
    (out <- chatbot user_input ;;
     first <- getitem0 out ;;
     response <- getitem first "generated_text" ;;
     ret (response ++ newline ++ newline ++ "⚠️ " ++ disclaimer))
  with
  | inr text => ret text
  | inl e => ret ("Error: " ++ str e)
  end.

(** *** Appointment ledger *)

Definition insert_appointment (d : db) (patient doctor text : string) : db :=
  set_appointments d
    (insert_row (appointments d)
       (fun id => mk_appointment id patient doctor text)).

Definition book_appointment (d : db) (patient_name doctor_name : string)
    (appointment_datetime : datetime) : string * db :=
  try_except
    (appointment_datetime <-
       (if is_naive appointment_datetime
        then localize Asia_Kolkata appointment_datetime
        else ret appointment_datetime) ;;
     utc_time <- astimezone local_utcoffset appointment_datetime UTC ;;
     ret ("✅ Appointment booked!",
          insert_appointment d patient_name doctor_name
            (isoformat utc_time)))
    (fun e => ("❌ Error: " ++ str e, d)).

(** [DELETE FROM appointments WHERE id = ?] is a statement that
    deletes the matching rows, none when there is none; binding the id
    is what can raise. *)
Definition delete_appointment (d : db) (appointment_id : Z) : string * db :=
  try_except
    (id <- bind_integer appointment_id ;;
     ret ("✅ Appointment deleted!",
          set_appointments d
            (delete_where (fun r => appt_id r =? id) (appointments d))))
    (fun e => ("❌ Error: " ++ str e, d)).

(** The appointments query: the rows of the patient in the order
    [ORDER BY datetime(appointment_datetime)] gives them. *)
Definition appointments_in_order (d : db) (patient : string)
  : list appointment_row :=
  order_by (fun r => sqlite_datetime (appt_datetime r)) key_le
    (filter (fun r => String.eqb (appt_patient_name r) patient)
            (rows (appointments d))).

(** [SELECT id, doctor_name, datetime(appointment_datetime) ...]. *)
Definition list_appointments (d : db) (patient : string)
  : list (Z * string * option string) :=
  map (fun r => (appt_id r, appt_doctor_name r,
                 sqlite_datetime (appt_datetime r)))
      (appointments_in_order d patient).

(** *** Reminder ledger *)

Definition insert_reminder (d : db) (patient medication text : string) : db :=
  set_reminders d
    (insert_row (reminders d)
       (fun id => mk_reminder id patient medication text 0)).

Definition set_medicine_reminder (d : db) (patient_name medication : string)
    (reminder_time : datetime) : string * db :=
  try_except
    (india_time <- astimezone local_utcoffset reminder_time Asia_Kolkata ;;
     ret ("✅ Medicine reminder set!",
          insert_reminder d patient_name medication (isoformat india_time)))
    (fun e => ("❌ Error: " ++ str e, d)).

Definition delete_medicine_reminder (d : db) (reminder_id : Z)
  : string * db :=
  try_except
    (id <- bind_integer reminder_id ;;
     ret ("✅ Medicine reminder deleted!",
          set_reminders d
            (delete_where (fun r => rem_id r =? id) (reminders d))))
    (fun e => ("❌ Error: " ++ str e, d)).

(** The reminders query, [ORDER BY reminder_time]. *)
Definition reminders_in_order (d : db) (patient : string)
  : list reminder_row :=
  order_by rem_time String.leb
    (filter (fun r => String.eqb (rem_patient_name r) patient)
            (rows (reminders d))).

(** [SELECT id, medication, reminder_time ...]. *)
Definition list_reminders (d : db) (patient : string)
  : list (Z * string * string) :=
  map (fun r => (rem_id r, rem_medication r, rem_time r))
      (reminders_in_order d patient).

(** *** Profile store *)

(** [INSERT OR REPLACE INTO profiles ...]: a row with the same
    [username] is deleted, then the new row is inserted. *)
Definition replace_profile (d : db) (username : string)
    (mk : Z -> profile_row) : db :=
  set_profiles d
    (insert_row
       (delete_where (fun r => String.eqb (prof_username r) username)
                     (profiles d))
       mk).

(** The picture upload of the profile tab:
    [INSERT OR REPLACE INTO profiles (username, profile_picture)]. *)
Definition upsert_picture (d : db) (username picture : string) : db :=
  replace_profile d username
    (fun id => mk_profile id username None None None None None None None None
                 (Some picture)).

(** The "Save Profile" form: [INSERT OR REPLACE INTO profiles (username,
    full_name, age, medical_history, allergies, medications, blood_type,
    height, weight)]. *)
Definition upsert_profile (d : db) (username full_name : string) (age : Z)
    (medical_history allergies medications blood_type : string)
    (height weight : Z) : db :=
  replace_profile d username
    (fun id => mk_profile id username (Some full_name) (Some age)
                 (Some medical_history) (Some allergies) (Some medications)
                 (Some blood_type) (Some height) (Some weight) None).

(** The profile row of [username], as [fetchone] returns it from a SELECT
    on the UNIQUE column. *)
Definition profile_of (d : db) (username : string) : option profile_row :=
  find (fun r => String.eqb (prof_username r) username) (rows (profiles d)).

(** [get_profile_picture]: [result and result[0]] is false for no row,
    for NULL and for an empty blob. *)
Definition get_profile_picture (d : db) (username : string) : option string :=
  match profile_of d username with
  | Some row =>
      match prof_picture row with
      | Some picture =>
          if String.eqb picture "" then None else Some picture
      | None => None
      end
  | None => None
  end.

(** *** Histories *)

(** The calls that change the database. *)
Inductive op : Type :=
| Signup (salt username password email : string)
| Book (patient doctor : string) (when : datetime)
| DeleteAppointment (id : Z)
| SetReminder (patient medication : string) (when : datetime)
| DeleteReminder (id : Z)
| UpsertPicture (username picture : string)
| UpsertProfile (username full_name : string) (age : Z)
    (medical_history allergies medications blood_type : string)
    (height weight : Z).

Definition run (d : db) (o : op) : db :=
  match o with
  | Signup salt u p e => snd (signup d salt u p e)
  | Book patient doctor when => snd (book_appointment d patient doctor when)
  | DeleteAppointment id => snd (delete_appointment d id)
  | SetReminder patient med when =>
      snd (set_medicine_reminder d patient med when)
  | DeleteReminder id => snd (delete_medicine_reminder d id)
  | UpsertPicture u pic => upsert_picture d u pic
  | UpsertProfile u n a mh al me bt h w =>
      upsert_profile d u n a mh al me bt h w
  end.

(** A [datetime] argument is a value its constructor accepts. *)
Definition well_formed (o : op) : Prop :=
  match o with
  | Book _ _ when | SetReminder _ _ when => valid_datetime when
  | _ => True
  end.

(** The databases the program can be in. *)
Inductive reachable : db -> Prop :=
| reach_empty : reachable empty_db
| reach_run d o : reachable d -> well_formed o -> reachable (run d o).

End Operations.

(** *** Hosts to run the program on *)

(** A server whose local zone is UTC and one whose local zone is
    Asia/Kolkata.  Their password hash is a stand-in that keeps the
    password, their pipeline echoes the prompt, and their one image
    decoder accepts the bytes that start with [PNG]. *)
Definition echo_hashpw (password salt : string) : result string :=
  ret password.
Definition echo_checkpw (password hashed : string) : result bool :=
  ret (String.eqb password hashed).
Definition echo_chatbot (prompt : string)
  : result (list (list (string * string))) :=
  ret [[("generated_text", prompt)]].

Definition png_identifies (data : string) : bool := String.prefix "PNG" data.

Definition utc_host : Host :=
  Build_Host echo_hashpw echo_checkpw (fun _ => 0) echo_chatbot
    png_identifies.
Definition kolkata_host : Host :=
  Build_Host echo_hashpw echo_checkpw (fun _ => 19800) echo_chatbot
    png_identifies.

(** A host whose hash refuses a password of more than 72 bytes. *)
Definition strict_hashpw (password salt : string) : result string :=
  if (72 <? String.length password)%nat
  then raise ValueError "password cannot be longer than 72 bytes"
  else ret password.

Definition strict_host : Host :=
  Build_Host strict_hashpw echo_checkpw (fun _ => 0) echo_chatbot
    png_identifies.

(** A host whose pipeline fails with the given fault. *)
Definition failing_host (description : string) : Host :=
  Build_Host echo_hashpw echo_checkpw (fun _ => 0)
    (fun _ => raise RuntimeError description) png_identifies.

(** *** Vocabulary of the statements *)

(** The wall clock, in zone [z], of the instant that is [utc_us]
    microseconds of UTC after 0001-01-01T00:00. *)
Definition at_zone (utc_us : Z) (z : zone) : datetime :=
  of_us (utc_us + zone_utcoffset z * 1000000) (Some (zone_utcoffset z)).

(** The offset [astimezone] takes [dt] to be in. *)
Definition source_offset (lo : datetime -> Z) (dt : datetime) : Z :=
  match tzinfo dt with
  | Some off => off
  | None => lo dt
  end.

(** The conversions of [local_timezone] for a naive [dt] stay within the
    calendar; nothing is asked of an aware [dt]. *)
Definition local_zone_found (lo : datetime -> Z) (dt : datetime) : Prop :=
  tzinfo dt = None ->
  86400 * 1000000 <= to_us dt /\ 0 <= to_us dt + lo dt * 1000000 <= MAX_US.

(** The instant a stored timestamp denotes, in microseconds of UTC. *)
Definition stored_instant (text : string) : option Z :=
  match fromisoformat text with
  | Some dt => Some (instant dt)
  | None => None
  end.

(** [a] is not later than [b]. *)
Definition chron_le (a b : string) : Prop :=
  match stored_instant a, stored_instant b with
  | Some x, Some y => x <= y
  | _, _ => False
  end.

(** The whole second of [a] is not later than the whole second of [b]. *)
Definition second_le (a b : string) : Prop :=
  match stored_instant a, stored_instant b with
  | Some x, Some y => x / 1000000 <= y / 1000000
  | _, _ => False
  end.

(** The appointments query may list [a] before [b]: [datetime(a)] is
    NULL, which sorts first, or neither is NULL and the whole second of
    [a] is not later than the whole second of [b]. *)
Definition listed_before (a b : string) : Prop :=
  sqlite_datetime a = None
  \/ (sqlite_datetime b <> None /\ second_le a b).

(** Every character of [s] satisfies [p]. *)
Fixpoint all_chars (p : ascii -> bool) (s : string) : bool :=
  match s with
  | String c rest => p c && all_chars p rest
  | EmptyString => true
  end.

(** The character [c] occurs in [s]. *)
Fixpoint occurs (c : ascii) (s : string) : bool :=
  match s with
  | String a rest => Ascii.eqb a c || occurs c rest
  | EmptyString => false
  end.

(** The row [login] fetches for a username. *)
Definition credentials (d : db) (u : string) : option user_row :=
  find (fun r => String.eqb (user_username r) u) (rows (users d)).

(** The pairing of [hashpw] and [checkpw] that the specification
    takes for granted: a hash verifies exactly the password it was made
    from. *)
Definition hash_verifies (host : Host) : Prop :=
  forall password salt hashed candidate,
    hashpw password salt = inr hashed ->
    checkpw candidate hashed = inr (String.eqb candidate password).

(** [hashpw] as a function that does not raise. *)
Definition hash_total (host : Host) : Prop :=
  forall password salt, exists hashed, hashpw password salt = inr hashed.

(** *** What holds of every database the program can be in *)

(** Rowids are distinct and none is above the AUTOINCREMENT counter. *)
Definition ids_ok {A} (idf : A -> Z) (t : table A) : Prop :=
  NoDup (map idf (rows t))
  /\ Forall (fun r => 1 <= idf r <= seq t) (rows t)
  /\ 0 <= seq t.

(** A stored timestamp: the ISO-8601 text of a valid aware value with
    the given offset. *)
Definition stored_with_offset (off : Z) (text : string) : Prop :=
  exists dt, valid_datetime dt /\ tzinfo dt = Some off
             /\ text = isoformat dt.

Record invariant (d : db) : Prop := {
  inv_user_ids : ids_ok user_id (users d);
  inv_usernames : NoDup (map user_username (rows (users d)));
  inv_appointment_ids : ids_ok appt_id (appointments d);
  inv_appointment_utc :
    Forall (fun r => stored_with_offset 0 (appt_datetime r))
           (rows (appointments d));
  inv_reminder_ids : ids_ok rem_id (reminders d);
  inv_reminder_local :
    Forall (fun r => stored_with_offset 19800 (rem_time r))
           (rows (reminders d));
  inv_profile_ids : ids_ok prof_id (profiles d);
  inv_profile_usernames : NoDup (map prof_username (rows (profiles d)))
}.

(** *** Sample data *)

(** The naive timestamp 2025-06-01 10:00 of the specification. *)
Definition june_1_10h : datetime := mk_datetime 2025 6 1 10 0 0 0 None.

(** A password of 73 bytes. *)
Definition long_password : string :=
  "correct horse battery staple correct horse battery staple correct horse b".

(** Two appointments and a reminder of one patient. *)
Definition sample_ops : list op :=
  [Book "asha" "Dr. Smith (Cardiology)" june_1_10h;
   Book "asha" "Dr. Jones (Pediatrics)"
     (mk_datetime 2025 5 20 9 15 0 0 None);
   SetReminder "asha" "Aspirin" (mk_datetime 2025 6 1 8 0 0 0 (Some 19800))].

Definition sample_db : db :=
  fold_left (run (host := utc_host)) sample_ops empty_db.

(** Two appointments within one second, the later fraction booked
    first. *)
Definition same_second_db : db :=
  fold_left (run (host := utc_host))
    [Book "asha" "Dr. Smith (Cardiology)"
       (mk_datetime 2025 6 1 10 0 0 900000 None);
     Book "asha" "Dr. Jones (Pediatrics)"
       (mk_datetime 2025 6 1 10 0 0 100000 None)]
    empty_db.

(** An appointment in June 2025 and, booked with an offset of zero, one
    at the last microsecond of the calendar. *)
Definition last_moment_db : db :=
  fold_left (run (host := utc_host))
    [Book "asha" "Dr. Smith (Cardiology)" june_1_10h;
     Book "asha" "Dr. Jones (Pediatrics)"
       (mk_datetime 9999 12 31 23 59 59 999999 (Some 0))]
    empty_db.

End App.

(* ------------------------------------------------------------------ *)
(** ** App.py: the page                                                *)
(* ------------------------------------------------------------------ *)

(** The part of the script below the function definitions: the
    authentication sidebar and the four tabs.  Streamlit runs the script
    from top to bottom once per interaction; [inputs] is what the widgets
    return during one run.  The calls that only draw ([st.success],
    [st.markdown], [st.dataframe] and the like) are taken to return and
    are left out; [st.image], which opens the bytes it is given, is
    not. *)
Module Page.
Import Calendar Text Py Datetime Sqlite App.
Local Open Scope string_scope.
Local Open Scope Z_scope.
Local Open Scope py_scope.

(** [st.session_state], with the three keys the script sets up. *)
Record session : Type := mk_session {
  logged_in : bool;
  username : string;
  messages : list string
}.

Definition initial_session : session := mk_session false "" [].

(** What a run works on: the session and the database. *)
Definition state : Type := (session * db)%type.

Definition initial_state : state := (initial_session, empty_db).

(** The truth value of a [str]. *)
Definition truthy (s : string) : bool := negb (String.eqb s "").

(** The form of the sidebar that was submitted. *)
Inductive auth_submit : Type :=
| SignUp (salt email username password : string)
| LogIn (username password : string).

(** The "Save Profile" fields. *)
Record profile_fields : Type := mk_profile_fields {
  full_name : string;
  age : Z;
  medical_history : string;
  allergies : string;
  medications : string;
  blood_type : string;
  height : Z;
  weight : Z
}.

(** What the widgets return in one run: [None] for a form or button that
    was not pressed, for no prompt and for an empty uploader.  The
    [datetime] of the appointment form is [datetime.combine(date, time)],
    that of the reminder form
    [datetime.combine(datetime.date.today(), reminder_time)]. *)
Record inputs : Type := mk_inputs {
  auth : option auth_submit;
  prompt : option string;
  appointment : option (string * datetime);
  appointment_id_to_delete : option Z;
  reminder_id_to_delete : option Z;
  reminder : option (string * datetime);
  uploaded_file : option string;
  profile : option profile_fields
}.

(** A run in which nothing is pressed. *)
Definition idle : inputs :=
  mk_inputs None None None None None None None None.

(** [[(id, a, datetime.datetime.fromisoformat(t)) for id, a, t in rows]];
    [None] when [fromisoformat] raises, as it does on a text it cannot
    read and on NULL. *)
Fixpoint parse_rows {A} (read : A -> option string)
    (rows : list (Z * string * A)) : option (list (Z * string * datetime)) :=
  match rows with
  | [] => Some []
  | (id, a, t) :: rows' =>
      match read t with
      | Some text =>
          match fromisoformat text, parse_rows read rows' with
          | Some dt, Some cells => Some ((id, a, dt) :: cells)
          | _, _ => None
          end
      | None => None
      end
  end.

(** The rows of the "Upcoming Appointments" table of a patient. *)
Definition appointments_table (d : db) (patient : string)
  : option (list (Z * string * datetime)) :=
  parse_rows (fun t => t) (list_appointments d patient).

(** The rows of the "Your Medicine Reminders" table of a patient. *)
Definition reminders_table (d : db) (patient : string)
  : option (list (Z * string * datetime)) :=
  parse_rows Some (list_reminders d patient).

(** Blocks of the script run one after the other; an exception nothing
    catches ends the run, and what was written before it stays. *)
Fixpoint run_blocks (blocks : list (state -> option state)) (st : state)
  : state :=
  match blocks with
  | [] => st
  | block :: blocks' =>
      match block st with
      | Some st' => run_blocks blocks' st'
      | None => st
      end
  end.

Section Script.
Context {host : Host}.

(** [st.image(data)] on the bytes of a file: Pillow opens them to tell
    their format and raises [UnidentifiedImageError] when none of its
    decoders accepts them, as none accepts the empty ones.  [None] is
    the exception. *)
Definition st_image (data : string) : option unit :=
  if String.eqb data "" then None
  else if identifies data then Some tt else None.

(** The signup form. *)
Definition signup_form (st : state) (salt email u p : string) : state :=
  let '(s, d) := st in
  if truthy email && truthy u && truthy p then
    let '(msg, d') := signup d salt u p email in
    (if contains "✅" msg then mk_session true u (messages s) else s, d')
  else st.

(** The login form. *)
Definition login_form (st : state) (u p : string) : state :=
  let '(s, d) := st in
  if truthy u && truthy p then
    let msg := login d u p in
    (if contains "✅" msg then mk_session true u (messages s) else s, d)
  else st.

(** The authentication sidebar. *)
Definition sidebar (a : option auth_submit) (st : state) : state :=
  match a with
  | Some (SignUp salt email u p) => signup_form st salt email u p
  | Some (LogIn u p) => login_form st u p
  | None => st
  end.

(** The chat tab. *)
Definition chat_tab (prompt : option string) (st : state) : option state :=
  let '(s, d) := st in
  match prompt with
  | Some prompt =>
      if truthy prompt then
        match healthcare_chatbot prompt with
        | inr response =>
            Some (mk_session (logged_in s) (username s)
                    (messages s ++ ["**You:** " ++ prompt;
                                    "**AI:** " ++ response]), d)
        | inl _ => None
        end
      else Some st
  | None => Some st
  end.

(** The appointment form: [tz_obj.localize(dt)] is outside any [try]. *)
Definition appointment_form (submitted : option (string * datetime))
    (st : state) : option state :=
  let '(s, d) := st in
  match submitted with
  | Some (doc, dt) =>
      match localize Asia_Kolkata dt with
      | inr localized_dt =>
          Some (s, snd (book_appointment d (username s) doc localized_dt))
      | inl _ => None
      end
  | None => Some st
  end.

(** The table of appointments and, under it, the delete button: both are
    inside [if appointments:]. *)
Definition appointments_list (id_to_delete : option Z) (st : state)
  : option state :=
  let '(s, d) := st in
  match list_appointments d (username s) with
  | [] => Some st
  | _ :: _ =>
      match appointments_table d (username s) with
      | Some _ =>
          match id_to_delete with
          | Some id =>
              if id =? 0 then Some st
              else Some (s, snd (delete_appointment d id))
          | None => Some st
          end
      | None => None
      end
  end.

(** The table of reminders. *)
Definition reminders_list (st : state) : option state :=
  let '(s, d) := st in
  match reminders_table d (username s) with
  | Some _ => Some st
  | None => None
  end.

(** The delete button of the reminder tab. *)
Definition delete_reminder_button (id_to_delete : option Z) (st : state)
  : option state :=
  let '(s, d) := st in
  match id_to_delete with
  | Some id =>
      if id =? 0 then Some st
      else Some (s, snd (delete_medicine_reminder d id))
  | None => Some st
  end.

(** The reminder form. *)
Definition reminder_form (submitted : option (string * datetime))
    (st : state) : option state :=
  let '(s, d) := st in
  match submitted with
  | Some (medication, reminder_datetime) =>
      Some (s, snd (set_medicine_reminder d (username s) medication
                      reminder_datetime))
  | None => Some st
  end.

(** The profile picture above the tabs, which the script fetches and
    draws in every run, logged in or not. *)
Definition profile_picture_display (st : state) : option state :=
  let '(s, d) := st in
  match get_profile_picture d (username s) with
  | Some image_data =>
      match st_image image_data with
      | Some _ => Some st
      | None => None
      end
  | None => Some st
  end.

(** The picture upload: the file is drawn, outside any [try], before its
    bytes are stored. *)
Definition picture_upload (uploaded_file : option string) (st : state)
  : option state :=
  let '(s, d) := st in
  match uploaded_file with
  | Some profile_picture =>
      match st_image profile_picture with
      | Some _ => Some (s, upsert_picture d (username s) profile_picture)
      | None => None
      end
  | None => Some st
  end.

(** The profile form. *)
Definition profile_form (submitted : option profile_fields) (st : state)
  : option state :=
  let '(s, d) := st in
  match submitted with
  | Some f =>
      Some (s, upsert_profile d (username s) (full_name f) (age f)
                 (medical_history f) (allergies f) (medications f)
                 (blood_type f) (height f) (weight f))
  | None => Some st
  end.

(** The four tabs, in the order of the script. *)
Definition main_interface (i : inputs) : list (state -> option state) :=
  [chat_tab (prompt i);
   appointment_form (appointment i);
   appointments_list (appointment_id_to_delete i);
   reminders_list;
   delete_reminder_button (reminder_id_to_delete i);
   reminder_form (reminder i);
   picture_upload (uploaded_file i);
   profile_form (profile i)].

(** One run of the script: the sidebar, the profile picture, then the
    tabs. *)
Definition script (st : state) (i : inputs) : state :=
  let st := sidebar (auth i) st in
  match profile_picture_display st with
  | Some st =>
      if logged_in (fst st) then run_blocks (main_interface i) st else st
  | None => st
  end.

(** The state after a sequence of runs of one session on a fresh
    database. *)
Definition after_runs (runs : list inputs) : state :=
  fold_left script runs initial_state.

End Script.

(** *** Vocabulary of the statements *)

(** [username] has a row in [users]. *)
Definition registered (d : db) (username : string) : Prop :=
  credentials d username <> None.

(** [dt.replace(microsecond=0, tzinfo=None)]. *)
Definition wall_seconds (dt : datetime) : datetime :=
  mk_datetime (year dt) (month dt) (day dt) (hour dt) (minute dt)
    (second dt) 0 None.

(** [l'] is [l] with more at its end. *)
Definition extends {A} (l l' : list A) : Prop :=
  exists more, l' = (l ++ more)%list.

(** The exceptions of [hashpw] have no check mark in their text. *)
Definition plain_errors (host : Host) : Prop :=
  forall password salt x,
    hashpw password salt = inl x -> contains "✅" (str x) = false.

(** The [datetime] values of the two forms are values the constructor
    accepts, as [datetime.combine] returns them. *)
Definition valid_inputs (i : inputs) : Prop :=
  match appointment i with
  | Some (_, dt) => valid_datetime dt
  | None => True
  end
  /\ match reminder i with
     | Some (_, dt) => valid_datetime dt
     | None => True
     end.

(** Who is logged in has a row in [users], and so has the patient or
    username of every appointment, reminder and profile. *)
Definition rows_have_owners (st : state) : Prop :=
  let '(s, d) := st in
  (logged_in s = true -> registered d (username s))
  /\ Forall (fun r => registered d (appt_patient_name r))
            (rows (appointments d))
  /\ Forall (fun r => registered d (rem_patient_name r))
            (rows (reminders d))
  /\ Forall (fun r => registered d (prof_username r))
            (rows (profiles d)).

(** The two shapes of a reply of [healthcare_chatbot]. *)
Definition reply_shape (text : string) : Prop :=
  (exists description, text = "Error: " ++ description)
  \/ (exists response,
        text = response ++ newline ++ newline ++ "⚠️ " ++ disclaimer).

(** A chat history: prompts that are not empty, each followed by its
    reply. *)
Fixpoint exchanges (history : list string) : Prop :=
  match history with
  | [] => True
  | you :: ai :: history' =>
      (exists prompt, prompt <> "" /\ you = "**You:** " ++ prompt)
      /\ (exists response, reply_shape response
                           /\ ai = "**AI:** " ++ response)
      /\ exchanges history'
  | _ => False
  end.

(** The blocks run to the end: none of them raises. *)
Fixpoint completes (blocks : list (state -> option state)) (st : state)
  : Prop :=
  match blocks with
  | [] => True
  | block :: blocks' =>
      match block st with
      | Some st' => completes blocks' st'
      | None => False
      end
  end.

(** The date and time of the appointment form, if the form was
    submitted, are a naive value that is not in the first five and a half
    hours of the calendar, where the UTC value would be before the
    year 1. *)
Definition localizable (i : inputs) : Prop :=
  match appointment i with
  | Some (_, dt) => tzinfo dt = None /\ 19800 * 1000000 <= to_us dt
  | None => True
  end.

(** The uploaded file, if there is one, is an image [st.image] draws. *)
Definition drawable {host : Host} (i : inputs) : Prop :=
  match uploaded_file i with
  | Some data => st_image data <> None
  | None => True
  end.

(** What the page keeps true of its database: the store calls can reach
    it, [datetime()] has a text for every stored appointment, and every
    stored picture is one that [st.image] drew. *)
Definition page_invariant {host : Host} (d : db) : Prop :=
  reachable d
  /\ Forall (fun r => sqlite_datetime (appt_datetime r) <> None)
            (rows (appointments d))
  /\ Forall (fun r => match prof_picture r with
                      | Some data => st_image data <> None
                      | None => True
                      end)
            (rows (profiles d)).

(** The run reaches the end of the script: neither the profile picture
    above the tabs nor, when the session is logged in, a block of the
    tabs raises. *)
Definition reaches_the_end {host : Host} (st : state) (i : inputs) : Prop :=
  match profile_picture_display (sidebar (auth i) st) with
  | Some st' =>
      logged_in (fst st') = true -> completes (main_interface i) st'
  | None => False
  end.

End Page.

(* ================================================================== *)
(** * Theorems                                                       *)
(* ================================================================== *)

(* ------------------------------------------------------------------ *)
(** ** Facts about the calendar *)
(* ------------------------------------------------------------------ *)

Module CalendarFacts.
Import Calendar.
Local Open Scope Z_scope.

Lemma valid_dateb_spec y m d : valid_dateb y m d = true <-> valid_date y m d.
Proof.
  unfold valid_dateb, valid_date.
  rewrite !andb_true_iff, !Z.leb_le. tauto.
Qed.

Lemma is_leap_spec y :
  is_leap y = true <-> y mod 4 = 0 /\ (y mod 100 <> 0 \/ y mod 400 = 0).
Proof.
  unfold is_leap.
  rewrite andb_true_iff, orb_true_iff, negb_true_iff, !Z.eqb_eq, Z.eqb_neq.
  tauto.
Qed.

Lemma days_before_year_succ y :
  days_before_year (y + 1) =
  days_before_year y + (if is_leap y then 366 else 365).
Proof.
  unfold days_before_year.
  destruct (is_leap y) eqn:L.
  - apply is_leap_spec in L. cbv zeta. lia.
  - assert (~ (y mod 4 = 0 /\ (y mod 100 <> 0 \/ y mod 400 = 0)))
      by (rewrite <- is_leap_spec; congruence).
    cbv zeta. lia.
Qed.

Lemma days_before_year_mono y1 y2 :
  y1 <= y2 -> days_before_year y1 + 365 * (y2 - y1) <= days_before_year y2.
Proof.
  intros H. unfold days_before_year. cbv zeta. lia.
Qed.

Ltac fold_consts :=
  repeat match goal with
  | |- context [Z.pos ?a - Z.pos ?b] =>
      let v := eval compute in (Z.pos a - Z.pos b) in
      change (Z.pos a - Z.pos b) with v
  | |- context [Z.pos ?a + Z.pos ?b] =>
      let v := eval compute in (Z.pos a + Z.pos b) in
      change (Z.pos a + Z.pos b) with v
  | |- context [Z.pos ?a + 0] =>
      change (Z.pos a + 0) with (Z.pos a)
  end.

Ltac calc := cbn -[Z.add Z.sub Z.mul]; fold_consts; cbn -[Z.add Z.sub Z.mul].

Lemma ord2ymd_spec n :
  1 <= n ->
  let '(y, m, d) := ord2ymd n in
  1 <= y /\ 1 <= m <= 12 /\ 1 <= d <= days_in_month y m /\ ymd2ord y m d = n.
Proof.
  intros Hn. unfold ord2ymd. cbv zeta.
  unfold DI400Y, DI100Y, DI4Y.
  set (n0 := n - 1).
  set (n400 := n0 / 146097). set (r1 := n0 mod 146097).
  set (n100 := r1 / 36524). set (r2 := r1 mod 36524).
  set (n4 := r2 / 1461). set (r3 := r2 mod 1461).
  set (n1 := r3 / 365). set (r4 := r3 mod 365).
  assert (E1 : n0 = 146097 * n400 + r1 /\ 0 <= r1 < 146097)
    by (subst n400 r1; lia).
  assert (E2 : r1 = 36524 * n100 + r2 /\ 0 <= r2 < 36524)
    by (subst n100 r2; lia).
  assert (E3 : r2 = 1461 * n4 + r3 /\ 0 <= r3 < 1461)
    by (subst n4 r3; lia).
  assert (E4 : r3 = 365 * n1 + r4 /\ 0 <= r4 < 365) by (subst n1 r4; lia).
  assert (E0 : n = n0 + 1 /\ 0 <= n0) by (subst n0; lia).
  clearbody n0 n400 r1 n100 r2 n4 r3 n1 r4.
  destruct ((n1 =? 4) || (n100 =? 4)) eqn:Last.
  - rewrite orb_true_iff, !Z.eqb_eq in Last.
    unfold ymd2ord, days_before_month, days_before_year, days_in_month,
      DAYS_BEFORE_MONTH.
    cbv zeta.
    assert (L : is_leap (n400 * 400 + 1 + n100 * 100 + n4 * 4 + n1 - 1) = true).
    { apply is_leap_spec. lia. }
    rewrite L. simpl. lia.
  - rewrite orb_false_iff, !Z.eqb_neq in Last.
    set (year := n400 * 400 + 1 + n100 * 100 + n4 * 4 + n1).
    set (leapyear := (n1 =? 3) && (negb (n4 =? 24) || (n100 =? 3))).
    assert (L : is_leap year = leapyear).
    { subst year leapyear. apply eq_true_iff_eq.
      rewrite is_leap_spec, andb_true_iff, orb_true_iff, negb_true_iff,
        !Z.eqb_eq, Z.eqb_neq. lia. }
    assert (D : days_before_year year
                = 146097 * n400 + 36524 * n100 + 1461 * n4 + 365 * n1).
    { subst year. unfold days_before_year. cbv zeta. lia. }
    assert (M : let m := (r4 + 50) / 32 in
                m = 1 \/ m = 2 \/ m = 3 \/ m = 4 \/ m = 5 \/ m = 6 \/ m = 7
                \/ m = 8 \/ m = 9 \/ m = 10 \/ m = 11 \/ m = 12)
      by (cbv zeta; lia).
    cbv zeta in M.
    assert (Y : 1 <= year) by (subst year; lia).
    assert (R : (r4 + 50) / 32 * 32 <= r4 + 50 < (r4 + 50) / 32 * 32 + 32)
      by lia.
    set (month := (r4 + 50) / 32) in *.
    clearbody year leapyear month.
    destruct leapyear;
      repeat (destruct M as [M | M]); subst month;
      calc;
      match goal with
      | |- context [ ?a <? ?b ] => destruct (Z.ltb_spec a b)
      end;
      unfold ymd2ord, days_before_month; rewrite ?D;
      calc; rewrite ?L; calc; lia.
Qed.

Lemma ord2ymd_year_max n :
  1 <= n <= MAXORDINAL -> let '(y, _, _) := ord2ymd n in y <= MAXYEAR.
Proof.
  intros Hn. pose proof (ord2ymd_spec n (proj1 Hn)) as S.
  destruct (ord2ymd n) as [[y m] d].
  destruct S as (Hy & Hm & Hd & E).
  unfold MAXYEAR, MAXORDINAL in *.
  destruct (Z_le_gt_dec y 9999) as [|G]; [assumption|exfalso].
  pose proof (days_before_year_mono 10000 y ltac:(lia)) as Mono.
  change (days_before_year 10000) with 3652059 in Mono.
  unfold ymd2ord, days_before_month in E.
  assert (0 <= DAYS_BEFORE_MONTH m)
    by (unfold DAYS_BEFORE_MONTH;
        repeat (destruct m as [|[m|m|]|]; try lia)).
  destruct ((2 <? m) && is_leap y); lia.
Qed.

Lemma ord2ymd_valid n :
  1 <= n <= MAXORDINAL ->
  let '(y, m, d) := ord2ymd n in valid_date y m d /\ ymd2ord y m d = n.
Proof.
  intros Hn. pose proof (ord2ymd_spec n (proj1 Hn)) as S.
  pose proof (ord2ymd_year_max n Hn) as Y.
  destruct (ord2ymd n) as [[y m] d].
  unfold valid_date, MINYEAR. intuition lia.
Qed.

Lemma month_cases m :
  1 <= m <= 12 ->
  m = 1 \/ m = 2 \/ m = 3 \/ m = 4 \/ m = 5 \/ m = 6 \/ m = 7
  \/ m = 8 \/ m = 9 \/ m = 10 \/ m = 11 \/ m = 12.
Proof. lia. Qed.

Ltac each_month H :=
  apply month_cases in H;
  repeat (destruct H as [H | H]); subst.

Lemma days_in_month_bounds y m : 1 <= m <= 12 -> 28 <= days_in_month y m <= 31.
Proof.
  intros H. each_month H; unfold days_in_month; try destruct (is_leap y); lia.
Qed.

Lemma days_before_month_next y m :
  1 <= m <= 11 ->
  days_before_month y (m + 1) = days_before_month y m + days_in_month y m.
Proof.
  intros H. assert (H' : 1 <= m <= 12) by lia.
  each_month H'; try lia; unfold days_before_month, days_in_month;
    destruct (is_leap y); reflexivity.
Qed.

Lemma days_before_month_mono y m1 m2 :
  1 <= m1 -> m1 < m2 <= 12 ->
  days_before_month y m1 + days_in_month y m1 <= days_before_month y m2.
Proof.
  intros H1 H2.
  assert (A : 1 <= m1 <= 12) by lia. assert (B : 1 <= m2 <= 12) by lia.
  each_month A; each_month B; try lia;
    unfold days_before_month, days_in_month; destruct (is_leap y); cbn; lia.
Qed.

Lemma days_in_year y m :
  1 <= m <= 12 ->
  0 <= days_before_month y m /\
  days_before_month y m + days_in_month y m
  <= (if is_leap y then 366 else 365).
Proof.
  intros H. each_month H; unfold days_before_month, days_in_month;
    destruct (is_leap y); cbn; lia.
Qed.

(** Calendar order is ordinal order: the lexicographic comparison of two
    valid dates is the comparison of their day numbers. *)
Lemma ymd2ord_compare y1 m1 d1 y2 m2 d2 :
  valid_date y1 m1 d1 -> valid_date y2 m2 d2 ->
  (ymd2ord y1 m1 d1 ?= ymd2ord y2 m2 d2)
  = lex3 (y1 ?= y2) (m1 ?= m2) (d1 ?= d2).
Proof.
  intros (Y1 & M1 & D1) (Y2 & M2 & D2). unfold ymd2ord, lex3.
  pose proof (days_in_year y1 m1 M1) as B1.
  pose proof (days_in_year y2 m2 M2) as B2.
  destruct (Z.compare_spec y1 y2) as [E|L|L].
  - subst y2.
    destruct (Z.compare_spec m1 m2) as [E|L|L].
    + subst m2.
      destruct (Z.compare_spec d1 d2);
        [apply Z.compare_eq_iff
        |apply Z.compare_lt_iff
        |apply Z.compare_gt_iff]; lia.
    + apply Z.compare_lt_iff.
      pose proof (days_before_month_mono y1 m1 m2 ltac:(lia) ltac:(lia)). lia.
    + apply Z.compare_gt_iff.
      pose proof (days_before_month_mono y1 m2 m1 ltac:(lia) ltac:(lia)). lia.
  - apply Z.compare_lt_iff.
    pose proof (days_before_year_succ y1) as S1.
    pose proof (days_before_year_mono (y1 + 1) y2 ltac:(lia)).
    destruct (is_leap y1); lia.
  - apply Z.compare_gt_iff.
    pose proof (days_before_year_succ y2) as S2.
    pose proof (days_before_year_mono (y2 + 1) y1 ltac:(lia)).
    destruct (is_leap y2); lia.
Qed.

Lemma ymd2ord_range y m d :
  valid_date y m d -> 1 <= ymd2ord y m d <= MAXORDINAL.
Proof.
  intros V.
  assert (V1 : valid_date 1 1 1)
    by (unfold valid_date, MINYEAR, MAXYEAR; cbn; lia).
  assert (V2 : valid_date 9999 12 31)
    by (unfold valid_date, MINYEAR, MAXYEAR; cbn; lia).
  pose proof (ymd2ord_compare 1 1 1 y m d V1 V) as C1.
  pose proof (ymd2ord_compare y m d 9999 12 31 V V2) as C2.
  change (ymd2ord 1 1 1) with 1 in C1.
  change (ymd2ord 9999 12 31) with MAXORDINAL in C2.
  destruct V as (Y & M & D). unfold MINYEAR, MAXYEAR in Y.
  assert (D' : d <= 31) by (pose proof (days_in_month_bounds y m M); lia).
  split.
  - apply Z.le_ngt. intros G. apply Z.compare_gt_iff in G. rewrite C1 in G.
    unfold lex3 in G.
    destruct (Z.compare_spec 1 y); try discriminate; try lia.
    destruct (Z.compare_spec 1 m); try discriminate; try lia.
    destruct (Z.compare_spec 1 d); try discriminate; try lia.
  - apply Z.le_ngt. intros G. apply Z.compare_gt_iff in G. rewrite C2 in G.
    unfold lex3 in G.
    destruct (Z.compare_spec y 9999); try discriminate; try lia.
    destruct (Z.compare_spec m 12); try discriminate; try lia.
    destruct (Z.compare_spec d 31); try discriminate; try lia.
Qed.

Lemma ymd2ord_inj y1 m1 d1 y2 m2 d2 :
  valid_date y1 m1 d1 -> valid_date y2 m2 d2 ->
  ymd2ord y1 m1 d1 = ymd2ord y2 m2 d2 -> (y1, m1, d1) = (y2, m2, d2).
Proof.
  intros V1 V2 E. apply Z.compare_eq_iff in E.
  rewrite (ymd2ord_compare _ _ _ _ _ _ V1 V2) in E. unfold lex3 in E.
  destruct (Z.compare_spec y1 y2); try discriminate.
  destruct (Z.compare_spec m1 m2); try discriminate.
  apply Z.compare_eq_iff in E. congruence.
Qed.

Lemma ord2ymd_ymd2ord y m d :
  valid_date y m d -> ord2ymd (ymd2ord y m d) = (y, m, d).
Proof.
  intros V. pose proof (ymd2ord_range y m d V) as R.
  pose proof (ord2ymd_valid _ R) as S.
  destruct (ord2ymd (ymd2ord y m d)) as [[y' m'] d'].
  destruct S as [V' E]. apply ymd2ord_inj; assumption.
Qed.

End CalendarFacts.

(* ------------------------------------------------------------------ *)
(** ** Facts about text *)
(* ------------------------------------------------------------------ *)

Module TextFacts.
Import Text.
Local Open Scope string_scope.
Local Open Scope Z_scope.

(** *** Digits *)

Lemma digit_cases d :
  0 <= d < 10 ->
  d = 0 \/ d = 1 \/ d = 2 \/ d = 3 \/ d = 4 \/ d = 5 \/ d = 6 \/ d = 7
  \/ d = 8 \/ d = 9.
Proof. lia. Qed.

Ltac each_digit H :=
  apply digit_cases in H; repeat (destruct H as [H | H]); subst.

Lemma is_digit_digit d : 0 <= d < 10 -> is_digit (digit d) = true.
Proof. intros H. each_digit H; reflexivity. Qed.

Lemma digit_value_digit d : 0 <= d < 10 -> digit_value (digit d) = d.
Proof. intros H. each_digit H; reflexivity. Qed.

Lemma N_of_digit d : 0 <= d < 10 -> Z.of_N (N_of_ascii (digit d)) = 48 + d.
Proof. intros H. each_digit H; reflexivity. Qed.

Lemma digit_compare a b :
  0 <= a < 10 -> 0 <= b < 10 ->
  Ascii.compare (digit a) (digit b) = (a ?= b).
Proof.
  intros Ha Hb. unfold Ascii.compare.
  rewrite <- N2Z.inj_compare, !N_of_digit by assumption.
  apply Z.add_compare_mono_l.
Qed.

Lemma read2_pad2 n rest :
  0 <= n < 100 -> read2 (pad2 n ++ rest) = Some (n, rest).
Proof.
  intros H. unfold pad2, read2. cbn [append].
  rewrite !is_digit_digit, !digit_value_digit by lia.
  cbn [andb]. f_equal. f_equal. lia.
Qed.

Lemma append_assoc (a b c : string) : (a ++ b) ++ c = a ++ (b ++ c).
Proof. induction a; cbn; congruence. Qed.

Lemma append_nil_r (a : string) : a ++ "" = a.
Proof. induction a; cbn; congruence. Qed.

Lemma read4_pad4 n rest :
  0 <= n < 10000 -> read4 (pad4 n ++ rest) = Some (n, rest).
Proof.
  intros H. unfold pad4, read4.
  rewrite append_assoc, read2_pad2 by lia. rewrite read2_pad2 by lia.
  f_equal. f_equal. lia.
Qed.

Lemma read6_pad6 n rest :
  0 <= n < 1000000 -> read6 (pad6 n ++ rest) = Some (n, rest).
Proof.
  intros H. unfold pad6, read6, read4.
  rewrite !append_assoc, read2_pad2 by lia.
  rewrite read2_pad2 by lia. rewrite read2_pad2 by lia.
  f_equal. f_equal. lia.
Qed.

(** *** Byte order of fixed-width fields *)

Lemma compare_app a b x y :
  String.length a = String.length b ->
  String.compare (a ++ x) (b ++ y)
  = lex (String.compare a b) (String.compare x y).
Proof.
  revert b. induction a as [|c a IH]; intros [|d b] L; try discriminate.
  - reflexivity.
  - cbn. destruct (Ascii.compare c d); try reflexivity.
    apply IH. now injection L.
Qed.

Lemma compare_refl s : String.compare s s = Eq.
Proof.
  induction s as [|c s IH]; cbn; [reflexivity|].
  unfold Ascii.compare. now rewrite N.compare_refl.
Qed.

Lemma length_pad2 n : String.length (pad2 n) = 2%nat.
Proof. reflexivity. Qed.

Lemma length_append (a b : string) :
  String.length (a ++ b) = (String.length a + String.length b)%nat.
Proof. induction a; cbn; congruence. Qed.

Lemma length_pad4 n : String.length (pad4 n) = 4%nat.
Proof. reflexivity. Qed.

Lemma length_pad6 n : String.length (pad6 n) = 6%nat.
Proof. reflexivity. Qed.

Lemma pad2_compare a b :
  0 <= a < 100 -> 0 <= b < 100 ->
  String.compare (pad2 a) (pad2 b) = (a ?= b).
Proof.
  intros Ha Hb. unfold pad2. cbn [String.compare].
  rewrite !digit_compare by lia.
  destruct (Z.compare_spec (a / 10) (b / 10));
    destruct (Z.compare_spec (a mod 10) (b mod 10));
    symmetry;
    first [apply Z.compare_eq_iff
          | apply Z.compare_lt_iff
          | apply Z.compare_gt_iff];
    lia.
Qed.

Lemma pad4_compare a b :
  0 <= a < 10000 -> 0 <= b < 10000 ->
  String.compare (pad4 a) (pad4 b) = (a ?= b).
Proof.
  intros Ha Hb. unfold pad4.
  rewrite compare_app by reflexivity.
  rewrite !pad2_compare by lia. unfold lex.
  destruct (Z.compare_spec (a / 100) (b / 100));
    destruct (Z.compare_spec (a mod 100) (b mod 100));
    symmetry;
    first [apply Z.compare_eq_iff
          | apply Z.compare_lt_iff
          | apply Z.compare_gt_iff];
    lia.
Qed.

Lemma pad6_compare a b :
  0 <= a < 1000000 -> 0 <= b < 1000000 ->
  String.compare (pad6 a) (pad6 b) = (a ?= b).
Proof.
  intros Ha Hb. unfold pad6.
  rewrite !compare_app by reflexivity.
  rewrite !pad2_compare by lia. unfold lex.
  destruct (Z.compare_spec (a / 10000) (b / 10000));
    destruct (Z.compare_spec (a / 100 mod 100) (b / 100 mod 100));
    destruct (Z.compare_spec (a mod 100) (b mod 100));
    symmetry;
    first [apply Z.compare_eq_iff
          | apply Z.compare_lt_iff
          | apply Z.compare_gt_iff];
    lia.
Qed.

(** *** Substrings *)

Lemma prefix_append a b : String.prefix a (a ++ b) = true.
Proof.
  induction a as [|c a IH]; cbn.
  - now destruct b.
  - destruct (ascii_dec c c); [assumption | contradiction].
Qed.

Lemma contains_prefix a b : contains a (a ++ b) = true.
Proof.
  destruct a; cbn.
  - destruct b; reflexivity.
  - destruct (ascii_dec a a); [|contradiction].
    now rewrite prefix_append.
Qed.

Lemma contains_append_l pre needle hay :
  contains needle hay = true -> contains needle (pre ++ hay) = true.
Proof.
  intros H. induction pre as [|c pre IH]; cbn [append]; [assumption|].
  cbn [contains]. rewrite IH. apply orb_true_r.
Qed.

Lemma contains_suffix a b : contains b (a ++ b) = true.
Proof.
  apply contains_append_l.
  rewrite <- (contains_prefix b "") at 1.
  f_equal. induction b; cbn; congruence.
Qed.

End TextFacts.

(* ------------------------------------------------------------------ *)
(** ** Facts about [datetime] values *)
(* ------------------------------------------------------------------ *)

Module DatetimeFacts.
Import Calendar CalendarFacts Text TextFacts Py Datetime.
Local Open Scope string_scope.
Local Open Scope Z_scope.
Local Open Scope py_scope.

(** *** Validity and the two conversions *)

Lemma valid_offsetb_spec tz : valid_offsetb tz = true <-> valid_offset tz.
Proof.
  destruct tz as [off|]; cbn; [|tauto].
  rewrite andb_true_iff, !Z.ltb_lt. tauto.
Qed.

Lemma valid_datetime_iff dt :
  valid_datetime dt <->
  valid_date (year dt) (month dt) (day dt)
  /\ 0 <= hour dt < 24 /\ 0 <= minute dt < 60 /\ 0 <= second dt < 60
  /\ 0 <= microsecond dt < 1000000 /\ valid_offset (tzinfo dt).
Proof.
  unfold valid_datetime, valid_datetimeb.
  rewrite !andb_true_iff, valid_dateb_spec, valid_offsetb_spec,
    !Z.leb_le, !Z.ltb_lt. tauto.
Qed.

Lemma valid_replace_tzinfo dt tz :
  valid_datetime dt -> valid_offset tz -> valid_datetime (replace_tzinfo dt tz).
Proof. rewrite !valid_datetime_iff. cbn. tauto. Qed.

Lemma to_us_replace_tzinfo dt tz : to_us (replace_tzinfo dt tz) = to_us dt.
Proof.
  unfold to_us, replace_tzinfo.
  cbn [year month day hour minute second microsecond]. reflexivity.
Qed.

Lemma ord2ymd_eq n y m d :
  1 <= n <= MAXORDINAL -> ord2ymd n = (y, m, d) ->
  valid_date y m d /\ ymd2ord y m d = n.
Proof.
  intros R E. pose proof (ord2ymd_valid n R) as S. rewrite E in S. exact S.
Qed.

Lemma day_number_range n :
  0 <= n <= MAX_US -> 1 <= n / 86400000000 + 1 <= MAXORDINAL.
Proof. unfold MAX_US, MAXORDINAL in *; lia. Qed.

Lemma to_us_of_parts n y m d tz :
  0 <= n <= MAX_US -> ymd2ord y m d = n / 86400000000 + 1 ->
  to_us (mk_datetime y m d
           (n mod 86400000000 / 3600000000)
           (n mod 86400000000 / 60000000 mod 60)
           (n mod 86400000000 / 1000000 mod 60)
           (n mod 86400000000 mod 1000000) tz) = n.
Proof.
  intros Hn E. unfold to_us.
  cbn [year month day hour minute second microsecond tzinfo].
  rewrite E. unfold MAX_US, MAXORDINAL in Hn. lia.
Qed.

Lemma valid_of_parts n y m d tz :
  0 <= n <= MAX_US -> valid_date y m d -> valid_offset tz ->
  valid_datetime (mk_datetime y m d
           (n mod 86400000000 / 3600000000)
           (n mod 86400000000 / 60000000 mod 60)
           (n mod 86400000000 / 1000000 mod 60)
           (n mod 86400000000 mod 1000000) tz).
Proof.
  intros Hn V T. rewrite valid_datetime_iff.
  cbn [year month day hour minute second microsecond tzinfo].
  repeat split; try apply V; try assumption; lia.
Qed.

Lemma of_us_spec n tz :
  0 <= n <= MAX_US -> valid_offset tz ->
  valid_datetime (of_us n tz) /\ to_us (of_us n tz) = n
  /\ tzinfo (of_us n tz) = tz.
Proof.
  intros Hn Htz. unfold of_us.
  remember (ord2ymd (n / 86400000000 + 1)) as p eqn:E.
  destruct p as [[y m] d]. symmetry in E.
  apply ord2ymd_eq in E; [|now apply day_number_range]. destruct E as [V E].
  split; [now apply valid_of_parts|].
  split; [now apply to_us_of_parts|reflexivity].
Qed.

Lemma to_us_range dt : valid_datetime dt -> 0 <= to_us dt <= MAX_US.
Proof.
  rewrite valid_datetime_iff. intros (V & Hh & Hm & Hs & Hu & _).
  pose proof (ymd2ord_range _ _ _ V) as R.
  unfold to_us, MAX_US, MAXORDINAL in *. lia.
Qed.

Lemma of_us_to_us dt :
  valid_datetime dt -> of_us (to_us dt) (tzinfo dt) = dt.
Proof.
  rewrite valid_datetime_iff. intros (V & Hh & Hm & Hs & Hu & _).
  pose proof (ymd2ord_range _ _ _ V) as R. unfold MAXORDINAL in R.
  unfold of_us, to_us.
  set (o := ymd2ord (year dt) (month dt) (day dt)) in *.
  replace (((((o - 1) * 24 + hour dt) * 60 + minute dt) * 60 + second dt)
           * 1000000 + microsecond dt)
    with ((o - 1) * 86400000000
          + (((hour dt * 60 + minute dt) * 60 + second dt) * 1000000
             + microsecond dt)) by lia.
  set (r := ((hour dt * 60 + minute dt) * 60 + second dt) * 1000000
            + microsecond dt).
  assert (Hr : 0 <= r < 86400000000) by (subst r; lia).
  assert (Q : ((o - 1) * 86400000000 + r) / 86400000000 + 1 = o) by lia.
  assert (M : ((o - 1) * 86400000000 + r) mod 86400000000 = r) by lia.
  rewrite Q, M. subst o. rewrite (ord2ymd_ymd2ord _ _ _ V).
  destruct dt as [y m d hh mi ss us tz]; cbn in *.
  subst r. f_equal; lia.
Qed.

(** *** Wall-clock order *)

Lemma radix_compare B hi1 lo1 hi2 lo2 :
  0 <= lo1 < B -> 0 <= lo2 < B ->
  (hi1 * B + lo1 ?= hi2 * B + lo2) = lex (hi1 ?= hi2) (lo1 ?= lo2).
Proof.
  intros H1 H2. unfold lex.
  destruct (Z.compare_spec hi1 hi2) as [E|L|L].
  - subst. apply Z.add_compare_mono_l.
  - apply Z.compare_lt_iff. nia.
  - apply Z.compare_gt_iff. nia.
Qed.

Lemma compare_pred a b : (a - 1 ?= b - 1) = (a ?= b).
Proof.
  destruct (Z.compare_spec a b);
    [apply Z.compare_eq_iff | apply Z.compare_lt_iff | apply Z.compare_gt_iff];
    lia.
Qed.

Lemma lex_assoc a b c : lex (lex a b) c = lex a (lex b c).
Proof. now destruct a. Qed.

Lemma to_us_compare a b :
  valid_datetime a -> valid_datetime b ->
  (to_us a ?= to_us b) = wall_compare a b.
Proof.
  rewrite !valid_datetime_iff.
  intros (Va & Ha & Ma & Sa & Ua & _) (Vb & Hb & Mb & Sb & Ub & _).
  unfold to_us, wall_compare.
  rewrite !radix_compare by assumption.
  assert (O : (ymd2ord (year a) (month a) (day a) - 1
               ?= ymd2ord (year b) (month b) (day b) - 1)
              = lex3 (year a ?= year b) (month a ?= month b) (day a ?= day b)).
  { rewrite <- (ymd2ord_compare _ _ _ _ _ _ Va Vb). apply compare_pred. }
  rewrite !lex_assoc, O. unfold lex3, lex.
  destruct (year a ?= year b), (month a ?= month b), (day a ?= day b);
    reflexivity.
Qed.

(** *** The text of a timestamp orders as its wall clock *)

Lemma format_offset_head tz :
  format_offset tz = ""
  \/ exists rest, format_offset tz = String "+" rest
                  \/ format_offset tz = String "-" rest.
Proof.
  destruct tz as [off|]; [right|now left]. unfold format_offset.
  destruct (off <? 0); cbn [append]; eauto.
Qed.

Lemma fraction_compare ua ub tz :
  0 <= ua < 1000000 -> 0 <= ub < 1000000 ->
  String.compare (format_fraction ua ++ format_offset tz)
                 (format_fraction ub ++ format_offset tz)
  = (ua ?= ub).
Proof.
  intros Ha Hb. unfold format_fraction.
  destruct (Z.eqb_spec ua 0) as [Ea|Na], (Z.eqb_spec ub 0) as [Eb|Nb];
    subst; cbn [append].
  - apply compare_refl.
  - transitivity Lt; [|symmetry; apply Z.compare_lt_iff; lia].
    destruct (format_offset_head tz) as [E|[rest [E|E]]]; rewrite E;
      reflexivity.
  - transitivity Gt; [|symmetry; apply Z.compare_gt_iff; lia].
    destruct (format_offset_head tz) as [E|[rest [E|E]]]; rewrite E;
      reflexivity.
  - cbn [String.compare]. change (Ascii.compare "." ".") with Eq. cbv iota.
    rewrite compare_app by reflexivity.
    rewrite pad6_compare, compare_refl by assumption.
    unfold lex. now destruct (ua ?= ub).
Qed.

Lemma isoformat_compare a b :
  valid_datetime a -> valid_datetime b -> tzinfo a = tzinfo b ->
  String.compare (isoformat a) (isoformat b) = wall_compare a b.
Proof.
  rewrite !valid_datetime_iff.
  intros (Va & Ha & Ma & Sa & Ua & _) (Vb & Hb & Mb & Sb & Ub & _) T.
  destruct Va as (Ya & Moa & Da), Vb as (Yb & Mob & Db).
  pose proof (days_in_month_bounds (year a) _ Moa).
  pose proof (days_in_month_bounds (year b) _ Mob).
  unfold MINYEAR, MAXYEAR in *.
  unfold isoformat, format_date_time, wall_compare. rewrite T.
  rewrite !append_assoc.
  rewrite !compare_app by reflexivity.
  rewrite fraction_compare by assumption.
  rewrite pad4_compare, !pad2_compare by lia.
  rewrite !compare_refl. reflexivity.
Qed.

(** *** [fromisoformat] reads back what [isoformat] writes *)

Lemma expect_head c rest : expect c (String c rest) = Some rest.
Proof. cbn. now rewrite Ascii.eqb_refl. Qed.

Lemma read_offset_format tz :
  valid_offset tz -> read_offset (format_offset tz) = Some tz.
Proof.
  destruct tz as [off|]; [|reflexivity]. cbn [valid_offset]. intros V.
  unfold format_offset.
  assert (S : forall sg : Z, (sg = 1 \/ sg = -1) -> sg * Z.abs off = off ->
    forall c, (if Ascii.eqb c "+" then Some 1
               else if Ascii.eqb c "-" then Some (-1) else None) = Some sg ->
    read_offset (String c (pad2 (Z.abs off / 3600) ++ ":"
                   ++ pad2 (Z.abs off mod 3600 / 60)
                   ++ (if Z.abs off mod 60 =? 0 then ""
                       else ":" ++ pad2 (Z.abs off mod 60))))
    = Some (Some off)).
  { intros sg Hsg E c Hc. cbn [read_offset]. rewrite Hc.
    rewrite read2_pad2 by lia. cbn [append]. rewrite expect_head.
    rewrite read2_pad2 by lia.
    destruct (Z.eqb_spec (Z.abs off mod 60) 0) as [Z0|NZ].
    - do 3 f_equal. lia.
    - cbn [append]. rewrite Ascii.eqb_refl.
      rewrite <- (append_nil_r (pad2 (Z.abs off mod 60))) at 1.
      rewrite read2_pad2 by lia. do 3 f_equal. lia. }
  destruct (Z.ltb_spec off 0); cbn [append].
  - apply (S (-1)); [auto | lia | reflexivity].
  - apply (S 1); [auto | lia | reflexivity].
Qed.

Lemma expect_dot_offset tz : expect "." (format_offset tz) = None.
Proof.
  destruct (format_offset_head tz) as [E|[rest [E|E]]]; rewrite E; reflexivity.
Qed.

Lemma fromisoformat_isoformat dt :
  valid_datetime dt -> fromisoformat (isoformat dt) = Some dt.
Proof.
  intros V. pose proof V as V'. rewrite valid_datetime_iff in V'.
  destruct V' as ((Y & Mo & D) & H & M & S & U & T).
  pose proof (days_in_month_bounds (year dt) _ Mo).
  unfold MINYEAR, MAXYEAR in *.
  destruct dt as [y m d hh mi ss us tz].
  cbn [year month day hour minute second microsecond tzinfo] in *.
  unfold isoformat, format_date_time, fromisoformat.
  cbn [year month day hour minute second microsecond tzinfo].
  rewrite !append_assoc.
  rewrite read4_pad4 by lia. cbn [append]. rewrite expect_head.
  rewrite read2_pad2 by lia. cbn [append]. rewrite expect_head.
  rewrite read2_pad2 by lia. cbn [append].
  rewrite read2_pad2 by lia. cbn [append]. rewrite expect_head.
  rewrite read2_pad2 by lia. cbn [append]. rewrite expect_head.
  rewrite read2_pad2 by lia.
  unfold format_fraction.
  destruct (Z.eqb_spec us 0) as [E|N].
  - subst us. cbn [append]. rewrite expect_dot_offset.
    rewrite read_offset_format by assumption. now rewrite V.
  - cbn [append]. rewrite expect_head. rewrite read6_pad6 by lia.
    rewrite read_offset_format by assumption. now rewrite V.
Qed.

(** *** Whole seconds *)

Lemma seconds_compare a b :
  valid_datetime a -> valid_datetime b ->
  (to_us a / 1000000 ?= to_us b / 1000000) = wall_compare_seconds a b.
Proof.
  rewrite !valid_datetime_iff.
  intros (Va & Ha & Ma & Sa & Ua & _) (Vb & Hb & Mb & Sb & Ub & _).
  unfold to_us, wall_compare_seconds.
  assert (Q : forall x us,
             0 <= us < 1000000 -> (x * 1000000 + us) / 1000000 = x)
    by (intros; lia).
  rewrite !Q by assumption.
  rewrite !radix_compare by assumption.
  assert (O : (ymd2ord (year a) (month a) (day a) - 1
               ?= ymd2ord (year b) (month b) (day b) - 1)
              = lex3 (year a ?= year b) (month a ?= month b) (day a ?= day b)).
  { rewrite <- (ymd2ord_compare _ _ _ _ _ _ Va Vb). apply compare_pred. }
  rewrite !lex_assoc, O. unfold lex3, lex.
  destruct (year a ?= year b), (month a ?= month b), (day a ?= day b);
    reflexivity.
Qed.

Lemma format_date_time_compare sep a b :
  valid_datetime a -> valid_datetime b ->
  String.compare (format_date_time sep a) (format_date_time sep b)
  = wall_compare_seconds a b.
Proof.
  rewrite !valid_datetime_iff.
  intros (Va & Ha & Ma & Sa & Ua & _) (Vb & Hb & Mb & Sb & Ub & _).
  destruct Va as (Ya & Moa & Da), Vb as (Yb & Mob & Db).
  pose proof (days_in_month_bounds (year a) _ Moa).
  pose proof (days_in_month_bounds (year b) _ Mob).
  unfold MINYEAR, MAXYEAR in *.
  unfold format_date_time, wall_compare_seconds.
  rewrite !compare_app by reflexivity.
  rewrite pad4_compare, !pad2_compare by lia.
  rewrite !compare_refl. reflexivity.
Qed.

End DatetimeFacts.

(* ------------------------------------------------------------------ *)
(** ** Facts about the SQLite model *)
(* ------------------------------------------------------------------ *)

Module SqliteFacts.
Import Calendar CalendarFacts Text TextFacts Datetime DatetimeFacts Sqlite.
Local Open Scope string_scope.
Local Open Scope Z_scope.

Section OrderByFacts.
Context {A K : Type} (key : A -> K) (le : K -> K -> bool).
Hypothesis le_total : forall a b, le a b = true \/ le b a = true.
Hypothesis le_trans : forall a b c,
  le a b = true -> le b c = true -> le a c = true.

Lemma insert_by_perm x l : Permutation (x :: l) (insert_by key le x l).
Proof.
  induction l as [|y l IH]; cbn; [reflexivity|].
  destruct (le (key x) (key y)); [reflexivity|].
  rewrite perm_swap. now constructor.
Qed.

Lemma order_by_perm l : Permutation l (order_by key le l).
Proof.
  induction l as [|x l IH]; cbn; [constructor|].
  rewrite <- insert_by_perm. now constructor.
Qed.

Lemma insert_by_sorted x l :
  StronglySorted (key_rel key le) l ->
  StronglySorted (key_rel key le) (insert_by key le x l).
Proof.
  induction 1 as [|y l S IH F]; cbn.
  - repeat constructor.
  - destruct (le (key x) (key y)) eqn:E.
    + constructor; [now constructor|].
      constructor; [exact E|].
      eapply Forall_impl; [|exact F].
      intros z Hz. unfold key_rel in *. eauto.
    + constructor; [assumption|].
      assert (Hyx : key_rel key le y x).
      { unfold key_rel. destruct (le_total (key x) (key y)); congruence. }
      eapply Permutation_Forall; [apply insert_by_perm|].
      now constructor.
Qed.

Lemma order_by_sorted l :
  StronglySorted (key_rel key le) (order_by key le l).
Proof.
  induction l; cbn; [constructor|now apply insert_by_sorted].
Qed.

End OrderByFacts.

(** *** Facts about the order *)

Lemma leb_trans a b c :
  String.leb a b = true -> String.leb b c = true -> String.leb a c = true.
Proof.
  unfold String.leb. revert b c.
  induction a as [|x a IH]; intros [|y b] [|z c]; cbn; try congruence.
  unfold Ascii.compare.
  destruct (N.compare_spec (N_of_ascii x) (N_of_ascii y)) as [E|L|G];
    try discriminate;
    destruct (N.compare_spec (N_of_ascii y) (N_of_ascii z)) as [E'|L'|G'];
    try discriminate; intros H1 H2.
  - rewrite E, E', N.compare_refl. eauto.
  - rewrite E. now apply N.compare_lt_iff in L'; rewrite L'.
  - rewrite <- E'. now apply N.compare_lt_iff in L; rewrite L.
  - assert (L2 : (N_of_ascii x < N_of_ascii z)%N) by lia.
    now apply N.compare_lt_iff in L2; rewrite L2.
Qed.

Lemma key_le_total a b : key_le a b = true \/ key_le b a = true.
Proof.
  destruct a, b; cbn; auto. apply String.leb_total.
Qed.

Lemma key_le_trans a b c :
  key_le a b = true -> key_le b c = true -> key_le a c = true.
Proof.
  destruct a, b, c; cbn; try congruence. apply leb_trans.
Qed.

(** *** [datetime()] of a stored UTC timestamp *)

Lemma pad2_head n rest :
  pad2 n ++ rest = String (digit (n / 10)) (String (digit (n mod 10)) rest).
Proof. reflexivity. Qed.

Lemma read_digits_pad2 k rest n scale :
  0 <= k < 100 ->
  read_digits (pad2 k ++ rest) n scale
  = read_digits rest (n * 100 + k) (scale * 100).
Proof.
  intros H. rewrite pad2_head. cbn [read_digits].
  rewrite !is_digit_digit, !digit_value_digit by lia.
  f_equal; lia.
Qed.

Lemma drop_while_stop p c s :
  p c = false -> drop_while p (String c s) = String c s.
Proof. intros H. cbn. now rewrite H. Qed.

(** The day number of a stored timestamp is valid unless the timestamp
    lies in the last half millisecond of the calendar. *)
Lemma valid_julian_day_iff dt :
  valid_datetime dt ->
  valid_julian_day (year dt) (month dt) (day dt) (hour dt) (minute dt)
    (second dt) (999500 <=? microsecond dt) = true
  <-> to_us dt + 500 <= MAX_US.
Proof.
  intros V. rewrite valid_datetime_iff in V.
  destruct V as (VD & H & M & S & U & _).
  pose proof (ymd2ord_range _ _ _ VD) as R.
  unfold valid_julian_day, to_us, MAX_US, MAXORDINAL in *.
  rewrite Z.ltb_lt.
  destruct (Z.leb_spec 999500 (microsecond dt)); lia.
Qed.

Lemma sqlite_datetime_stored dt :
  valid_datetime dt -> tzinfo dt = Some 0 ->
  sqlite_datetime (isoformat dt)
  = if valid_julian_day (year dt) (month dt) (day dt) (hour dt) (minute dt)
         (second dt) (999500 <=? microsecond dt)
    then Some (format_date_time " " dt) else None.
Proof.
  intros V T. pose proof V as V'. rewrite valid_datetime_iff in V'.
  destruct V' as (VD & H & M & S & U & _).
  pose proof VD as VD'. apply valid_dateb_spec in VD'.
  destruct VD as (Y & Mo & D).
  pose proof (days_in_month_bounds (year dt) _ Mo).
  unfold MINYEAR, MAXYEAR in *.
  destruct dt as [y m d hh mi ss us tz].
  cbn [year month day hour minute second microsecond tzinfo] in *.
  subst tz.
  unfold isoformat, format_date_time, sqlite_datetime.
  cbn [year month day hour minute second microsecond tzinfo].
  rewrite !append_assoc.
  rewrite read4_pad4 by lia. cbn [append]. rewrite expect_head.
  rewrite read2_pad2 by lia. cbn [append]. rewrite expect_head.
  rewrite read2_pad2 by lia. cbn [append].
  cbn [drop_while]. change (is_space_or_T "T") with true. cbv iota.
  assert (ND : drop_while is_space_or_T
                 (pad2 hh ++ String ":" (pad2 mi ++ String ":"
                    (pad2 ss ++ format_fraction us ++ format_offset (Some 0))))
               = pad2 hh ++ String ":" (pad2 mi ++ String ":"
                    (pad2 ss ++ format_fraction us ++ format_offset (Some 0)))).
  { unfold pad2 at 1 3. cbn [append]. apply drop_while_stop.
    assert (Hd : 0 <= hh / 10 < 10) by lia.
    each_digit Hd; rewrite Hd; reflexivity. }
  rewrite ND. clear ND.
  assert (Z0 : parse_timezone (format_offset (Some 0)) = Some 0)
    by reflexivity.
  assert (HMS : parse_hms
                  (pad2 hh ++ String ":" (pad2 mi ++ String ":"
                     (pad2 ss ++ format_fraction us ++ format_offset (Some 0))))
                = Some (hh, mi, ss, 999500 <=? us, format_offset (Some 0))).
  { unfold parse_hms.
    rewrite read2_pad2 by lia. rewrite expect_head.
    rewrite read2_pad2 by lia. rewrite expect_head.
    rewrite read2_pad2 by lia.
    replace ((hh <=? 24) && (mi <=? 59)) with true
      by (symmetry; apply andb_true_iff; split; apply Z.leb_le; lia).
    replace (ss <=? 59) with true by (symmetry; apply Z.leb_le; lia).
    unfold format_fraction.
    destruct (Z.eqb_spec us 0) as [E|N]; [subst us; reflexivity|].
    cbn [append]. unfold pad6.
    rewrite !append_assoc.
    rewrite (pad2_head (us / 10000)).
    rewrite Ascii.eqb_refl, is_digit_digit by lia. cbn [andb].
    rewrite <- (pad2_head (us / 10000)).
    rewrite !read_digits_pad2 by lia.
    assert (Stop : forall n scale,
              read_digits (format_offset (Some 0)) n scale
              = (n, scale, format_offset (Some 0))) by reflexivity.
    rewrite Stop.
    change (1 * 100 * 100 * 100) with 1000000.
    change (1000000 <=? 1000000) with true. cbv iota.
    replace ((0 * 100 + us / 10000) * 100 + us / 100 mod 100) with (us / 100)
      by lia.
    replace (us / 100 * 100 + us mod 100) with us by lia.
    do 3 f_equal.
    destruct (Z.leb_spec 999500 us), (Z.leb_spec (9995 * 1000000) (10000 * us));
      (reflexivity || lia). }
  rewrite HMS, Z0, VD'.
  replace (hh <? 24) with true by (symmetry; apply Z.ltb_lt; lia).
  reflexivity.
Qed.

Lemma sqlite_datetime_isoformat dt :
  valid_datetime dt -> tzinfo dt = Some 0 -> to_us dt + 500 <= MAX_US ->
  sqlite_datetime (isoformat dt) = Some (format_date_time " " dt).
Proof.
  intros V T R. rewrite (sqlite_datetime_stored dt V T).
  apply (valid_julian_day_iff dt V) in R. now rewrite R.
Qed.

Lemma sqlite_datetime_null dt :
  valid_datetime dt -> tzinfo dt = Some 0 -> MAX_US < to_us dt + 500 ->
  sqlite_datetime (isoformat dt) = None.
Proof.
  intros V T R. rewrite (sqlite_datetime_stored dt V T).
  destruct (valid_julian_day _ _ _ _ _ _ _) eqn:E; [|reflexivity].
  apply (valid_julian_day_iff dt V) in E. lia.
Qed.

End SqliteFacts.

(* ------------------------------------------------------------------ *)
(** ** Theorems about App.py *)
(* ------------------------------------------------------------------ *)

Module AppFacts.
Import Calendar CalendarFacts Text TextFacts Py Datetime DatetimeFacts.
Import Sqlite SqliteFacts App.
Local Open Scope string_scope.
Local Open Scope Z_scope.
Local Open Scope py_scope.

(** *** Time arithmetic of the two ledgers *)

Lemma add_seconds_in_range dt secs :
  0 <= to_us dt + secs * 1000000 <= MAX_US ->
  add_seconds dt secs = ret (of_us (to_us dt + secs * 1000000) (tzinfo dt)).
Proof.
  intros H. unfold add_seconds.
  replace ((0 <=? to_us dt + secs * 1000000)
           && (to_us dt + secs * 1000000 <=? MAX_US)) with true;
    [reflexivity|].
  symmetry. apply andb_true_iff. split; apply Z.leb_le; lia.
Qed.

Lemma add_seconds_overflow dt secs :
  ~ 0 <= to_us dt + secs * 1000000 <= MAX_US ->
  add_seconds dt secs = raise OverflowError "date value out of range".
Proof.
  intros H. unfold add_seconds.
  destruct ((0 <=? to_us dt + secs * 1000000)
            && (to_us dt + secs * 1000000 <=? MAX_US)) eqn:E;
    [|reflexivity].
  apply andb_true_iff in E. rewrite !Z.leb_le in E. contradiction.
Qed.

Lemma replace_tzinfo_of_us n tz tz' :
  replace_tzinfo (of_us n tz) tz' = of_us n tz'.
Proof.
  unfold of_us. now destruct (ord2ymd (n / 86400000000 + 1)) as [[y m] d].
Qed.

Lemma replace_tzinfo_twice dt tz tz' :
  replace_tzinfo (replace_tzinfo dt tz) tz' = replace_tzinfo dt tz'.
Proof. reflexivity. Qed.

Lemma of_us_wall dt tz :
  valid_datetime dt -> of_us (to_us dt) tz = replace_tzinfo dt tz.
Proof.
  intros V. rewrite <- (replace_tzinfo_of_us _ (tzinfo dt)).
  now rewrite of_us_to_us.
Qed.

Lemma bind_ret {A B} (a : A) (k : A -> result B) : bind (ret a) k = k a.
Proof. reflexivity. Qed.

Lemma MAX_US_eq : MAX_US = 3652059 * 86400000000 - 1.
Proof. reflexivity. Qed.

Lemma fromutc_kolkata u :
  0 <= to_us u + 19800 * 1000000 <= MAX_US ->
  fromutc Asia_Kolkata u
  = ret (of_us (to_us u + 19800 * 1000000) (Some 19800)).
Proof.
  intros R. unfold fromutc.
  change (zone_utcoffset Asia_Kolkata) with 19800.
  rewrite add_seconds_in_range by (rewrite to_us_replace_tzinfo; lia).
  rewrite bind_ret, to_us_replace_tzinfo, replace_tzinfo_of_us.
  reflexivity.
Qed.

Lemma normalize_kolkata t :
  valid_datetime t ->
  19800 * 1000000 <= to_us t ->
  normalize Asia_Kolkata (replace_tzinfo t (Some 19800))
  = ret (replace_tzinfo t (Some 19800)).
Proof.
  intros V R. pose proof (to_us_range t V) as B.
  unfold normalize.
  change (tzinfo (replace_tzinfo t (Some 19800))) with (Some 19800).
  rewrite replace_tzinfo_twice.
  rewrite add_seconds_in_range by (rewrite to_us_replace_tzinfo; lia).
  rewrite bind_ret, to_us_replace_tzinfo.
  destruct (of_us_spec (to_us t + - (19800) * 1000000)
              (tzinfo (replace_tzinfo t None)) ltac:(lia) I)
    as (V1 & E1 & T1).
  rewrite fromutc_kolkata by (rewrite E1; lia).
  rewrite E1.
  replace (to_us t + - (19800) * 1000000 + 19800 * 1000000)
    with (to_us t) by lia.
  now rewrite of_us_wall.
Qed.

(** [localize] on a naive value whose UTC value is within the calendar
    attaches the zone's offset. *)
Lemma localize_naive t :
  valid_datetime t -> tzinfo t = None ->
  19800 * 1000000 <= to_us t ->
  localize Asia_Kolkata t = ret (replace_tzinfo t (Some 19800)).
Proof.
  intros V N R. unfold localize, is_naive. rewrite N.
  change (zone_utcoffset Asia_Kolkata) with 19800.
  now apply normalize_kolkata.
Qed.

(** In the first five and a half hours of the calendar the UTC value
    leaves the range of [datetime]. *)
Lemma localize_overflow t :
  valid_datetime t -> tzinfo t = None ->
  to_us t < 19800 * 1000000 ->
  localize Asia_Kolkata t = raise OverflowError "date value out of range".
Proof.
  intros V N R. unfold localize, is_naive. rewrite N.
  change (zone_utcoffset Asia_Kolkata) with 19800.
  unfold normalize.
  change (tzinfo (replace_tzinfo t (Some 19800))) with (Some 19800).
  rewrite replace_tzinfo_twice.
  rewrite add_seconds_overflow by (rewrite to_us_replace_tzinfo; lia).
  reflexivity.
Qed.

Lemma to_us_of_us n tz : 0 <= n <= MAX_US -> to_us (of_us n tz) = n.
Proof.
  intros R. rewrite <- (to_us_replace_tzinfo _ None), replace_tzinfo_of_us.
  now apply of_us_spec.
Qed.

Lemma fromutc_of_us n tz z :
  0 <= n <= MAX_US ->
  0 <= n + zone_utcoffset z * 1000000 <= MAX_US ->
  fromutc z (of_us n tz) = ret (at_zone n z).
Proof.
  intros R1 R2. unfold at_zone. destruct z.
  - unfold fromutc. rewrite replace_tzinfo_of_us.
    change (zone_utcoffset UTC) with 0.
    now replace (n + 0 * 1000000) with n by lia.
  - change (zone_utcoffset Asia_Kolkata) with 19800 in *.
    rewrite fromutc_kolkata by (rewrite to_us_of_us; lia).
    now rewrite to_us_of_us.
Qed.

Lemma local_timezone_found lo dt :
  86400 * 1000000 <= to_us dt ->
  0 <= to_us dt + lo dt * 1000000 <= MAX_US ->
  local_timezone lo dt = ret (lo dt).
Proof.
  intros R1 R2. unfold local_timezone.
  replace (MAX_US <? to_us dt + lo dt * 1000000) with false
    by (symmetry; apply Z.ltb_ge; lia).
  replace (to_us dt + lo dt * 1000000 <? 0) with false
    by (symmetry; apply Z.ltb_ge; lia).
  replace (to_us dt <? 86400 * 1000000) with false
    by (symmetry; apply Z.ltb_ge; lia).
  reflexivity.
Qed.

Lemma my_offset lo dt :
  local_zone_found lo dt ->
  match tzinfo dt with
  | Some off => ret off
  | None => local_timezone lo dt
  end = ret (source_offset lo dt).
Proof.
  unfold local_zone_found, source_offset. intros F.
  destruct (tzinfo dt); [reflexivity|].
  destruct (F eq_refl) as [R1 R2]. now apply local_timezone_found.
Qed.

Lemma aware_zone_found lo dt off :
  tzinfo dt = Some off -> local_zone_found lo dt.
Proof. intros T N. rewrite T in N. discriminate N. Qed.

Lemma astimezone_spec lo dt z :
  local_zone_found lo dt ->
  0 <= to_us dt - source_offset lo dt * 1000000 <= MAX_US ->
  0 <= to_us dt - source_offset lo dt * 1000000
       + zone_utcoffset z * 1000000 <= MAX_US ->
  astimezone lo dt z
  = ret (at_zone (to_us dt - source_offset lo dt * 1000000) z).
Proof.
  intros F R1 R2. unfold astimezone. rewrite (my_offset lo dt F), bind_ret.
  rewrite add_seconds_in_range by lia. rewrite bind_ret.
  replace (to_us dt + - source_offset lo dt * 1000000)
    with (to_us dt - source_offset lo dt * 1000000) by lia.
  now apply fromutc_of_us.
Qed.

Lemma at_zone_spec n z :
  0 <= n + zone_utcoffset z * 1000000 <= MAX_US ->
  valid_datetime (at_zone n z)
  /\ tzinfo (at_zone n z) = Some (zone_utcoffset z)
  /\ instant (at_zone n z) = n.
Proof.
  intros R. unfold at_zone.
  assert (VO : valid_offset (Some (zone_utcoffset z)))
    by (destruct z; cbn; lia).
  destruct (of_us_spec _ _ R VO) as (V & E & T).
  repeat split; try assumption.
  unfold instant. rewrite E, T. lia.
Qed.

(** *** The two list queries *)

Lemma in_order_by {A K} (key : A -> K) (le : K -> K -> bool) x l :
  In x (order_by key le l) <-> In x l.
Proof.
  split; apply Permutation_in;
    [symmetry|]; apply order_by_perm.
Qed.

Section Ledgers.
Context {host : Host}.

Lemma in_appointments_in_order d patient r :
  In r (appointments_in_order d patient)
  <-> In r (rows (appointments d)) /\ appt_patient_name r = patient.
Proof.
  unfold appointments_in_order.
  rewrite in_order_by, filter_In, String.eqb_eq. tauto.
Qed.

Lemma in_reminders_in_order d patient r :
  In r (reminders_in_order d patient)
  <-> In r (rows (reminders d)) /\ rem_patient_name r = patient.
Proof.
  unfold reminders_in_order.
  rewrite in_order_by, filter_In, String.eqb_eq. tauto.
Qed.

(** *** Appointments: a naive timestamp *)

Lemma to_us_at_zone n z :
  0 <= n + zone_utcoffset z * 1000000 <= MAX_US ->
  to_us (at_zone n z) = n + zone_utcoffset z * 1000000.
Proof. intros R. unfold at_zone. now apply to_us_of_us. Qed.

(** A booking whose UTC value is not in the last half millisecond of the
    calendar is listed with its time. *)
Lemma listed_after_book (d : db) (patient doctor : string) (n : Z) :
  0 <= n -> n + 500 <= MAX_US ->
  In (seq (appointments d) + 1, doctor,
      Some (format_date_time " " (at_zone n UTC)))
     (list_appointments
        (insert_appointment d patient doctor (isoformat (at_zone n UTC)))
        patient).
Proof.
  intros R1 R2.
  assert (R : 0 <= n + zone_utcoffset UTC * 1000000 <= MAX_US)
    by (change (zone_utcoffset UTC) with 0; lia).
  destruct (at_zone_spec n UTC R) as (Vu & Tu & _).
  pose proof (to_us_at_zone n UTC R) as Eu.
  change (zone_utcoffset UTC) with 0 in Tu, Eu.
  unfold list_appointments. apply in_map_iff.
  exists (mk_appointment (seq (appointments d) + 1) patient doctor
            (isoformat (at_zone n UTC))).
  cbn [appt_id appt_doctor_name appt_datetime].
  rewrite (sqlite_datetime_isoformat _ Vu Tu) by lia.
  split; [reflexivity|].
  apply in_appointments_in_order. split; [|reflexivity].
  unfold insert_appointment, set_appointments, insert_row.
  cbn [appointments rows]. apply in_or_app. right. now left.
Qed.

Lemma book_naive_in_range (d : db) (patient doctor : string)
    (t : datetime) :
  valid_datetime t -> tzinfo t = None -> 19800 * 1000000 <= to_us t ->
  book_appointment d patient doctor t
  = ("✅ Appointment booked!",
     insert_appointment d patient doctor
       (isoformat (at_zone (to_us t - 19800 * 1000000) UTC))).
Proof.
  intros V N R. pose proof (to_us_range t V) as B.
  unfold book_appointment, is_naive. rewrite N.
  rewrite (localize_naive t V N R), bind_ret.
  rewrite astimezone_spec.
  - unfold source_offset. cbn [tzinfo replace_tzinfo].
    now rewrite to_us_replace_tzinfo.
  - now apply (aware_zone_found _ _ 19800).
  - unfold source_offset. cbn [tzinfo replace_tzinfo].
    rewrite to_us_replace_tzinfo. lia.
  - unfold source_offset. cbn [tzinfo replace_tzinfo].
    rewrite to_us_replace_tzinfo. change (zone_utcoffset UTC) with 0. lia.
Qed.

Lemma book_naive_overflow (d : db) (patient doctor : string)
    (t : datetime) :
  valid_datetime t -> tzinfo t = None -> to_us t < 19800 * 1000000 ->
  book_appointment d patient doctor t
  = ("❌ Error: date value out of range", d).
Proof.
  intros V N R. unfold book_appointment, is_naive. rewrite N.
  now rewrite (localize_overflow t V N R).
Qed.

(** C1 (as amended).  A naive timestamp [t] that is not before
    0001-01-01 05:30 is booked as the Asia/Kolkata wall clock it shows:
    the stored text is the ISO-8601 form of the UTC value five and a half
    hours earlier, and the appointments query returns that UTC value for
    the patient as [YYYY-MM-DD HH:MM:SS], its seconds whole.  Before
    0001-01-01 05:30 the UTC value is outside the calendar: the booking
    answers with the error text and stores nothing. *)
Theorem book_naive_stores_utc (d : db) (patient doctor : string)
    (t : datetime) :
  valid_datetime t -> tzinfo t = None ->
  (19800 * 1000000 <= to_us t ->
   let utc := at_zone (to_us t - 19800 * 1000000) UTC in
   let d' := insert_appointment d patient doctor (isoformat utc) in
   book_appointment d patient doctor t = ("✅ Appointment booked!", d')
   /\ valid_datetime utc /\ tzinfo utc = Some 0
   /\ instant utc = to_us t - 19800 * 1000000
   /\ In (seq (appointments d) + 1, doctor,
          Some (format_date_time " " utc))
         (list_appointments d' patient))
  /\ (to_us t < 19800 * 1000000 ->
      book_appointment d patient doctor t
      = ("❌ Error: date value out of range", d)).
Proof.
  intros V N. split.
  - intros R. cbv zeta. pose proof (to_us_range t V) as B.
    pose proof MAX_US_eq as MU.
    assert (R' : 0 <= to_us t - 19800 * 1000000
                      + zone_utcoffset UTC * 1000000 <= MAX_US)
      by (change (zone_utcoffset UTC) with 0; lia).
    destruct (at_zone_spec _ UTC R') as (Vu & Tu & Iu).
    split; [now apply book_naive_in_range|].
    split; [exact Vu|]. split; [exact Tu|]. split; [exact Iu|].
    apply listed_after_book; lia.
  - intros R. now apply book_naive_overflow.
Qed.

End Ledgers.

Lemma book_naive_stores_utc_witness :
  valid_datetime june_1_10h /\ tzinfo june_1_10h = None
  /\ 19800 * 1000000 <= to_us june_1_10h
  /\ book_appointment (host := utc_host) empty_db "asha"
       "Dr. Smith (Cardiology)" june_1_10h
     = ("✅ Appointment booked!",
        insert_appointment empty_db "asha" "Dr. Smith (Cardiology)"
          "2025-06-01T04:30:00+00:00")
  /\ list_appointments
       (insert_appointment empty_db "asha" "Dr. Smith (Cardiology)"
          "2025-06-01T04:30:00+00:00") "asha"
     = [(1, "Dr. Smith (Cardiology)", Some "2025-06-01 04:30:00")].
Proof.
  assert (V : valid_datetime june_1_10h) by reflexivity.
  assert (N : tzinfo june_1_10h = None) by reflexivity.
  assert (R : 19800 * 1000000 <= to_us june_1_10h)
    by (vm_compute; discriminate).
  split; [exact V|]. split; [exact N|]. split; [exact R|].
  split.
  - exact (proj1 (proj1 (book_naive_stores_utc (host := utc_host) empty_db
                           "asha" "Dr. Smith (Cardiology)" june_1_10h V N)
                    R)).
  - vm_compute. reflexivity.
Defined.

(** C1, counterexample.  Midnight of the first day of the calendar is a
    naive timestamp the booking turns down: five and a half hours
    earlier is outside the range of [datetime], the exception is caught,
    and no row is stored or listed. *)
Lemma book_naive_counterexample :
  let t := mk_datetime 1 1 1 0 0 0 0 None in
  valid_datetime t /\ tzinfo t = None
  /\ book_appointment (host := utc_host) empty_db "asha"
       "Dr. Smith (Cardiology)" t
     = ("❌ Error: date value out of range", empty_db)
  /\ list_appointments
       (snd (book_appointment (host := utc_host) empty_db "asha"
               "Dr. Smith (Cardiology)" t)) "asha" = [].
Proof. vm_compute. repeat split. Qed.

(** The ends of the calendar that are booked: ten in the morning of the
    first day and noon of the last. *)
Example book_naive_at_the_ends :
  fst (book_appointment (host := utc_host) empty_db "asha"
         "Dr. Smith (Cardiology)" (mk_datetime 1 1 1 10 0 0 0 None))
  = "✅ Appointment booked!"
  /\ map appt_datetime
       (rows (appointments
                (snd (book_appointment (host := utc_host) empty_db "asha"
                        "Dr. Smith (Cardiology)"
                        (mk_datetime 9999 12 31 12 0 0 0 None)))))
     = ["9999-12-31T06:30:00+00:00"].
Proof. vm_compute. split; reflexivity. Qed.

(** The fraction of a second is stored but not listed. *)
Example book_microseconds_listed_whole :
  let t := mk_datetime 2025 6 1 10 0 0 250000 None in
  let d := snd (book_appointment (host := utc_host) empty_db "asha"
                  "Dr. Jones (Pediatrics)" t) in
  map appt_datetime (rows (appointments d))
  = ["2025-06-01T04:30:00.250000+00:00"]
  /\ list_appointments d "asha"
     = [(1, "Dr. Jones (Pediatrics)", Some "2025-06-01 04:30:00")].
Proof. vm_compute. split; reflexivity. Qed.

(** *** Reminders: which zone a naive timestamp is read in *)

Section Reminders.
Context {host : Host}.

(** What [set_medicine_reminder] stores: the wall clock in Asia/Kolkata
    of the instant that [reminder_time] denotes when it is aware, and
    that it denotes in the system zone when it is naive. *)
Lemma set_medicine_reminder_stores (d : db) (patient medication : string)
    (t : datetime) :
  let n := to_us t - source_offset local_utcoffset t * 1000000 in
  local_zone_found local_utcoffset t ->
  0 <= n <= MAX_US -> 0 <= n + 19800 * 1000000 <= MAX_US ->
  set_medicine_reminder d patient medication t
  = ("✅ Medicine reminder set!",
     insert_reminder d patient medication
       (isoformat (at_zone n Asia_Kolkata))).
Proof.
  intros n F R1 R2. unfold set_medicine_reminder.
  now rewrite astimezone_spec.
Qed.

(** An aware timestamp is stored as the Asia/Kolkata wall clock of its
    own instant, whatever the system zone. *)
Lemma set_medicine_reminder_aware (d : db) (patient medication : string)
    (t : datetime) (off : Z) :
  tzinfo t = Some off ->
  0 <= instant t <= MAX_US -> 0 <= instant t + 19800 * 1000000 <= MAX_US ->
  set_medicine_reminder d patient medication t
  = ("✅ Medicine reminder set!",
     insert_reminder d patient medication
       (isoformat (at_zone (instant t) Asia_Kolkata))).
Proof.
  intros T R1 R2.
  assert (E : instant t
              = to_us t - source_offset local_utcoffset t * 1000000)
    by (unfold instant, source_offset; now rewrite T).
  rewrite E in *. apply set_medicine_reminder_stores; try assumption.
  now apply (aware_zone_found _ _ off).
Qed.

End Reminders.

(** C2, the code at the failing input.  On a server whose local zone is
    UTC the naive timestamp 2025-06-01 10:00 is stored, and listed, as
    15:30 in Asia/Kolkata; only on a server whose local zone is
    Asia/Kolkata is it stored as 10:00 there.  [book_appointment], given
    the same naive timestamp, reads it as 10:00 in Asia/Kolkata on
    either server. *)
Theorem set_reminder_naive_follows_system_zone :
  set_medicine_reminder (host := utc_host) empty_db "asha" "Aspirin"
    june_1_10h
  = ("✅ Medicine reminder set!",
     insert_reminder empty_db "asha" "Aspirin" "2025-06-01T15:30:00+05:30")
  /\ list_reminders
       (snd (set_medicine_reminder (host := utc_host) empty_db "asha"
               "Aspirin" june_1_10h)) "asha"
     = [(1, "Aspirin", "2025-06-01T15:30:00+05:30")]
  /\ set_medicine_reminder (host := kolkata_host) empty_db "asha" "Aspirin"
       june_1_10h
     = ("✅ Medicine reminder set!",
        insert_reminder empty_db "asha" "Aspirin" "2025-06-01T10:00:00+05:30")
  /\ book_appointment (host := utc_host) empty_db "asha" "Dr. Smith"
       june_1_10h
     = book_appointment (host := kolkata_host) empty_db "asha" "Dr. Smith"
         june_1_10h.
Proof. vm_compute. repeat split. Qed.

(** *** The outcomes of a booking and of a reminder *)

Lemma ret_inj {A} (a b : A) : @ret A a = inr b -> a = b.
Proof. intros H. now injection H. Qed.

Lemma add_seconds_inr dt secs r :
  add_seconds dt secs = inr r ->
  0 <= to_us dt + secs * 1000000 <= MAX_US
  /\ r = of_us (to_us dt + secs * 1000000) (tzinfo dt).
Proof.
  unfold add_seconds.
  destruct ((0 <=? to_us dt + secs * 1000000)
            && (to_us dt + secs * 1000000 <=? MAX_US)) eqn:E;
    [|discriminate].
  apply andb_true_iff in E. rewrite !Z.leb_le in E.
  intros H. apply ret_inj in H. auto.
Qed.

Lemma astimezone_inr lo dt z r :
  astimezone lo dt z = inr r ->
  exists n, 0 <= n + zone_utcoffset z * 1000000 <= MAX_US /\ r = at_zone n z.
Proof.
  unfold astimezone.
  destruct (match tzinfo dt with
            | Some off => ret off
            | None => local_timezone lo dt
            end) as [x|myoffset]; [discriminate|].
  rewrite bind_ret.
  destruct (add_seconds dt (- myoffset)) as [x|u] eqn:A;
    [discriminate|].
  apply add_seconds_inr in A. destruct A as [R ->].
  rewrite bind_ret.
  remember (to_us dt + - myoffset * 1000000) as n eqn:En.
  clear En. destruct z.
  - unfold fromutc. rewrite replace_tzinfo_of_us.
    intros H. apply ret_inj in H. subst r.
    exists n. change (zone_utcoffset UTC) with 0. split; [lia|].
    unfold at_zone. change (zone_utcoffset UTC) with 0.
    now replace (n + 0 * 1000000) with n by lia.
  - unfold fromutc. rewrite replace_tzinfo_of_us.
    destruct (add_seconds (of_us n None) (zone_utcoffset Asia_Kolkata))
      as [x|loc] eqn:B; [discriminate|].
    apply add_seconds_inr in B. rewrite to_us_of_us in B by assumption.
    destruct B as [R' ->]. rewrite bind_ret, replace_tzinfo_of_us.
    intros H. apply ret_inj in H. subst r.
    exists n. split; [assumption|]. unfold at_zone. reflexivity.
Qed.

Section Outcomes.
Context {host : Host}.

Lemma book_appointment_cases d patient doctor t :
  (exists x, book_appointment d patient doctor t
             = ("❌ Error: " ++ str x, d))
  \/ (exists n, 0 <= n <= MAX_US
        /\ book_appointment d patient doctor t
           = ("✅ Appointment booked!",
              insert_appointment d patient doctor
                (isoformat (at_zone n UTC)))).
Proof.
  unfold book_appointment.
  destruct (if is_naive t then localize Asia_Kolkata t else ret t)
    as [x|t1]; [left; now exists x|].
  rewrite bind_ret.
  destruct (astimezone local_utcoffset t1 UTC) as [x|u] eqn:A;
    [left; now exists x|].
  apply astimezone_inr in A. destruct A as (n & R & ->).
  change (zone_utcoffset UTC) with 0 in R.
  right. exists n. split; [lia|reflexivity].
Qed.

Lemma set_medicine_reminder_cases d patient medication t :
  (exists x, set_medicine_reminder d patient medication t
             = ("❌ Error: " ++ str x, d))
  \/ (exists n, 0 <= n + 19800 * 1000000 <= MAX_US
        /\ set_medicine_reminder d patient medication t
           = ("✅ Medicine reminder set!",
              insert_reminder d patient medication
                (isoformat (at_zone n Asia_Kolkata)))).
Proof.
  unfold set_medicine_reminder.
  destruct (astimezone local_utcoffset t Asia_Kolkata) as [x|u] eqn:A;
    [left; now exists x|].
  apply astimezone_inr in A. destruct A as (n & R & ->).
  right. exists n. split; [exact R|reflexivity].
Qed.

End Outcomes.

(** *** Credential store *)

Lemma span_word_spec s :
  let '(n, rest) := span_word s in
  exists body, s = body ++ rest /\ String.length body = n
               /\ all_chars is_word_char body = true
               /\ match rest with
                  | String c _ => is_word_char c = false
                  | EmptyString => True
                  end.
Proof.
  induction s as [|c s IH]; cbn [span_word].
  - exists "". cbn. auto.
  - destruct (is_word_char c) eqn:W.
    + destruct (span_word s) as [n rest].
      destruct IH as (body & E & L & A & R).
      exists (String c body). cbn. rewrite W, L, <- E. auto.
    + exists "". cbn. auto.
Qed.

Lemma span_word_body body rest :
  all_chars is_word_char body = true ->
  match rest with
  | String c _ => is_word_char c = false
  | EmptyString => True
  end ->
  span_word (body ++ rest) = (String.length body, rest).
Proof.
  intros A R. induction body as [|c body IH]; cbn [append].
  - destruct rest as [|c rest]; [reflexivity|]. cbn. now rewrite R.
  - cbn in A. apply andb_true_iff in A. destruct A as [W A].
    cbn [span_word]. rewrite W, (IH A). reflexivity.
Qed.

(** What the regular expression accepts: 3 to 20 characters of
    [[A-Za-z0-9_]], and the same followed by one newline. *)
Lemma re_match_username_iff u :
  re_match_username u = true <->
  exists body,
    (u = body \/ u = body ++ newline)
    /\ (3 <= String.length body <= 20)%nat
    /\ all_chars is_word_char body = true.
Proof.
  unfold re_match_username. split.
  - pose proof (span_word_spec u) as S.
    destruct (span_word u) as [n rest].
    destruct S as (body & E & L & A & _).
    rewrite !andb_true_iff, orb_true_iff, !Nat.leb_le, !String.eqb_eq.
    intros ((H3 & H20) & Hr). exists body. subst n.
    repeat split; try assumption.
    destruct Hr; subst rest; [left; now rewrite append_nil_r in E|now right].
  - intros (body & [E|E] & (H3 & H20) & A); subst u.
    + rewrite <- (append_nil_r body) at 1.
      rewrite span_word_body by (cbn; auto).
      rewrite !andb_true_iff, !Nat.leb_le. repeat split; assumption.
    + rewrite span_word_body by (cbn; auto).
      rewrite !andb_true_iff, !Nat.leb_le. repeat split; assumption.
Qed.

Section Credentials.
Context {host : Host}.

(** C3.  A username the regular expression does not match is turned
    down as an invalid format, and the database is left as it was: no
    row is written. *)
Theorem signup_rejects_bad_username (d : db)
    (salt username password email : string) :
  re_match_username username = false ->
  signup d salt username password email
  = ("❌ Invalid username (3-20 chars, alphanumeric)", d).
Proof. intros H. unfold signup. now rewrite H. Qed.

(** The outcomes of [signup], by case. *)
Lemma signup_cases d salt u p e :
  (re_match_username u = false
   /\ signup d salt u p e
      = ("❌ Invalid username (3-20 chars, alphanumeric)", d))
  \/ (re_match_username u = true
      /\ exists x, hashpw p salt = inl x
         /\ exn_class_of x <> IntegrityError
         /\ signup d salt u p e = ("❌ Signup error: " ++ str x, d))
  \/ (re_match_username u = true
      /\ exists x, hashpw p salt = inl x
         /\ exn_class_of x = IntegrityError
         /\ signup d salt u p e = ("❌ Username already exists!", d))
  \/ (re_match_username u = true
      /\ (exists hashed, hashpw p salt = inr hashed)
      /\ existsb (fun r => String.eqb (user_username r) u)
                 (rows (users d)) = true
      /\ signup d salt u p e = ("❌ Username already exists!", d))
  \/ (re_match_username u = true
      /\ existsb (fun r => String.eqb (user_username r) u)
                 (rows (users d)) = false
      /\ exists hashed, hashpw p salt = inr hashed
         /\ signup d salt u p e
            = ("✅ Signup successful!",
               set_users d
                 (insert_row (users d)
                    (fun id => mk_user id u hashed e)))).
Proof.
  unfold signup.
  destruct (re_match_username u); [|now left]. right. cbn [negb].
  destruct (hashpw p salt) as [x|hashed] eqn:H.
  - cbn [bind try_except].
    destruct (exn_class_of x) eqn:C; cbn [exn_class_eqb];
      [left|left|left|left|right; left|left];
      (split; [reflexivity|]); exists x;
      repeat split; congruence.
  - do 2 right. cbn [bind]. unfold insert_user.
    destruct (existsb _ _) eqn:X.
    + left. repeat split; eauto.
    + right. repeat split; eauto.
Qed.

(** A [signup] that reports success has appended one row. *)
Lemma signup_success d salt u p e d' :
  signup d salt u p e = ("✅ Signup successful!", d') ->
  existsb (fun r => String.eqb (user_username r) u) (rows (users d)) = false
  /\ exists hashed, hashpw p salt = inr hashed
     /\ d' = set_users d
               (insert_row (users d) (fun id => mk_user id u hashed e)).
Proof.
  intros S.
  destruct (signup_cases d salt u p e)
    as [(_ & E)|[(_ & x & _ & _ & E)|[(_ & x & _ & _ & E)
       |[(_ & _ & _ & E)|(_ & X & hashed & H & E)]]]];
    rewrite E in S; try discriminate S.
  split; [assumption|]. exists hashed. split; [assumption|].
  now injection S.
Qed.

Lemma find_app {A} (f : A -> bool) l l' x :
  find f l = Some x -> find f (l ++ l') = Some x.
Proof.
  induction l as [|y l IH]; cbn; [discriminate|].
  destruct (f y); auto.
Qed.

Lemma find_none_existsb {A} (f : A -> bool) l :
  existsb f l = false -> find f l = None.
Proof.
  induction l as [|y l IH]; cbn; [reflexivity|].
  destruct (f y); [discriminate|auto].
Qed.

Lemma find_some_existsb {A} (f : A -> bool) l x :
  find f l = Some x -> existsb f l = true.
Proof.
  induction l as [|y l IH]; cbn; [discriminate|].
  destruct (f y); auto.
Qed.

(** The two outcomes of a deletion: the id is bound and the rows of that
    id are deleted, or the id does not fit 64 bits and nothing changes. *)
Lemma bind_integer_in_range n :
  -9223372036854775808 <= n < 9223372036854775808 -> bind_integer n = ret n.
Proof.
  intros R. unfold bind_integer.
  replace (-9223372036854775808 <=? n) with true
    by (symmetry; apply Z.leb_le; lia).
  replace (n <? 9223372036854775808) with true
    by (symmetry; apply Z.ltb_lt; lia).
  reflexivity.
Qed.

Lemma bind_integer_out_of_range n :
  ~ (-9223372036854775808 <= n < 9223372036854775808) ->
  bind_integer n
  = raise OverflowError "Python int too large to convert to SQLite INTEGER".
Proof.
  intros R. unfold bind_integer.
  destruct (Z.leb_spec (-9223372036854775808) n),
           (Z.ltb_spec n 9223372036854775808); try reflexivity.
  lia.
Qed.

Lemma delete_appointment_in_range d id :
  -9223372036854775808 <= id < 9223372036854775808 ->
  delete_appointment d id
  = ("✅ Appointment deleted!",
     set_appointments d
       (delete_where (fun r => appt_id r =? id) (appointments d))).
Proof.
  intros R. unfold delete_appointment.
  now rewrite (bind_integer_in_range id R).
Qed.

Lemma delete_appointment_out_of_range d id :
  ~ (-9223372036854775808 <= id < 9223372036854775808) ->
  delete_appointment d id
  = ("❌ Error: Python int too large to convert to SQLite INTEGER", d).
Proof.
  intros R. unfold delete_appointment.
  now rewrite (bind_integer_out_of_range id R).
Qed.

Lemma delete_medicine_reminder_in_range d id :
  -9223372036854775808 <= id < 9223372036854775808 ->
  delete_medicine_reminder d id
  = ("✅ Medicine reminder deleted!",
     set_reminders d
       (delete_where (fun r => rem_id r =? id) (reminders d))).
Proof.
  intros R. unfold delete_medicine_reminder.
  now rewrite (bind_integer_in_range id R).
Qed.

Lemma delete_medicine_reminder_out_of_range d id :
  ~ (-9223372036854775808 <= id < 9223372036854775808) ->
  delete_medicine_reminder d id
  = ("❌ Error: Python int too large to convert to SQLite INTEGER", d).
Proof.
  intros R. unfold delete_medicine_reminder.
  now rewrite (bind_integer_out_of_range id R).
Qed.

Lemma delete_appointment_cases d id :
  snd (delete_appointment d id) = d
  \/ snd (delete_appointment d id)
     = set_appointments d
         (delete_where (fun r => appt_id r =? id) (appointments d)).
Proof.
  destruct (Z_le_dec (-9223372036854775808) id);
    [destruct (Z_lt_dec id 9223372036854775808)|].
  - right. rewrite delete_appointment_in_range by lia. reflexivity.
  - left. rewrite delete_appointment_out_of_range by lia. reflexivity.
  - left. rewrite delete_appointment_out_of_range by lia. reflexivity.
Qed.

Lemma delete_medicine_reminder_cases d id :
  snd (delete_medicine_reminder d id) = d
  \/ snd (delete_medicine_reminder d id)
     = set_reminders d
         (delete_where (fun r => rem_id r =? id) (reminders d)).
Proof.
  destruct (Z_le_dec (-9223372036854775808) id);
    [destruct (Z_lt_dec id 9223372036854775808)|].
  - right. rewrite delete_medicine_reminder_in_range by lia. reflexivity.
  - left. rewrite delete_medicine_reminder_out_of_range by lia. reflexivity.
  - left. rewrite delete_medicine_reminder_out_of_range by lia. reflexivity.
Qed.

(** Only [signup] writes to the table of users. *)
Lemma run_users d o :
  match o with
  | Signup _ _ _ _ => True
  | _ => users (run d o) = users d
  end.
Proof.
  destruct o; cbn [run]; try reflexivity; try exact I.
  - destruct (book_appointment_cases d patient doctor when)
      as [(x & E)|(n & _ & E)]; now rewrite E.
  - destruct (delete_appointment_cases d id) as [E|E]; now rewrite E.
  - destruct (set_medicine_reminder_cases d patient medication when)
      as [(x & E)|(n & _ & E)]; now rewrite E.
  - destruct (delete_medicine_reminder_cases d id) as [E|E]; now rewrite E.
Qed.

(** No call removes or replaces a credential row. *)
Lemma run_keeps_credentials d o u row :
  credentials d u = Some row -> credentials (run d o) u = Some row.
Proof.
  intros F. pose proof (run_users d o) as U. unfold credentials in *.
  destruct o; try (now rewrite U).
  cbn [run].
  destruct (signup_cases d salt username password email)
    as [(_ & E)|[(_ & x & _ & _ & E)|[(_ & x & _ & _ & E)
       |[(_ & _ & _ & E)|(_ & X & hashed & H & E)]]]];
    rewrite E; cbn [snd]; try exact F.
  unfold set_users, insert_row. cbn [users rows].
  now apply find_app.
Qed.

Lemma fold_run_keeps_credentials ops d u row :
  credentials d u = Some row ->
  credentials (fold_left run ops d) u = Some row.
Proof.
  revert d. induction ops as [|o ops IH]; intros d F; cbn; [assumption|].
  apply IH. now apply run_keeps_credentials.
Qed.

End Credentials.

(** C4.  After a successful [signup] of [u] with password [p], and
    after any calls that follow it, [login] with [u] and [p] succeeds and
    [login] with [u] and any other password reports invalid credentials,
    for a hash whose verification accepts exactly the hashed password. *)
Theorem login_after_signup {host : Host} (d d' : db)
    (salt u p e : string) (later : list op) :
  hash_verifies host ->
  signup d salt u p e = ("✅ Signup successful!", d') ->
  login (fold_left run later d') u p = "✅ Login successful!"
  /\ forall wrong, wrong <> p ->
       login (fold_left run later d') u wrong = "❌ Invalid credentials".
Proof.
  intros HV S.
  destruct (signup_success _ _ _ _ _ _ S) as (X & hashed & H & ->).
  set (row := mk_user (seq (users d) + 1) u hashed e).
  assert (F : credentials
                (set_users d
                   (insert_row (users d) (fun id => mk_user id u hashed e)))
                u = Some row).
  { unfold credentials, set_users, insert_row. cbn [users rows].
    clear - X. induction (rows (users d)) as [|y l IH]; cbn in *.
    - now rewrite String.eqb_refl.
    - destruct (String.eqb (user_username y) u); [discriminate|auto]. }
  apply (fold_run_keeps_credentials later) in F.
  unfold credentials in F. unfold login. rewrite F.
  cbn [user_password row].
  split.
  - rewrite (HV _ _ _ p H), String.eqb_refl. reflexivity.
  - intros w Hw. rewrite (HV _ _ _ w H).
    apply String.eqb_neq in Hw. now rewrite Hw.
Qed.

Lemma signup_rejects_bad_username_witness :
  re_match_username "ab" = false
  /\ signup (host := utc_host) empty_db "salt" "ab" "secret" "ab@example.org"
     = ("❌ Invalid username (3-20 chars, alphanumeric)", empty_db).
Proof.
  split; [reflexivity|].
  apply (signup_rejects_bad_username (host := utc_host)). reflexivity.
Defined.

(** Python's [$] lets one trailing newline through. *)
Example signup_accepts_trailing_newline :
  re_match_username ("asha" ++ newline) = true
  /\ re_match_username "asha" = true
  /\ re_match_username "ab" = false
  /\ re_match_username "asha devi" = false
  /\ re_match_username "a_very_long_username_1" = false.
Proof. vm_compute. repeat split. Qed.

Lemma utc_host_hash_verifies : hash_verifies utc_host.
Proof.
  intros p s hashed w H. cbn in H. apply ret_inj in H. subst hashed.
  reflexivity.
Defined.

Lemma login_after_signup_witness :
  hash_verifies utc_host
  /\ signup (host := utc_host) empty_db "salt" "asha" "secret" "a@example.org"
     = ("✅ Signup successful!",
        set_users empty_db
          (insert_row (users empty_db)
             (fun id => mk_user id "asha" "secret" "a@example.org")))
  /\ login (host := utc_host)
       (fold_left (run (host := utc_host))
          [Signup "pepper" "ravi" "hunter2" "r@example.org";
           Signup "salt" "asha" "other" "x@example.org"]
          (set_users empty_db
             (insert_row (users empty_db)
                (fun id => mk_user id "asha" "secret" "a@example.org"))))
       "asha" "secret" = "✅ Login successful!".
Proof.
  split; [exact utc_host_hash_verifies|]. split; [reflexivity|].
  apply (login_after_signup (host := utc_host) empty_db _ "salt" "asha"
           "secret" "a@example.org" _ utc_host_hash_verifies).
  reflexivity.
Defined.

(** *** What holds of every database the program can be in *)

Lemma ids_ok_empty {A} (idf : A -> Z) : ids_ok idf empty_table.
Proof. repeat split; cbn; try constructor; lia. Qed.

Lemma NoDup_snoc {A} (l : list A) x :
  NoDup l -> ~ In x l -> NoDup (l ++ [x]).
Proof.
  intros N H. apply NoDup_app; [assumption|repeat constructor; auto|].
  intros y Hy [<-|[]]. contradiction.
Qed.

Lemma ids_ok_insert {A} (idf : A -> Z) t mk :
  ids_ok idf t -> (forall i, idf (mk i) = i) -> ids_ok idf (insert_row t mk).
Proof.
  intros (N & F & S) Hmk. unfold ids_ok, insert_row. cbn [rows seq].
  rewrite map_app. cbn [map]. rewrite Hmk.
  repeat split; try lia.
  - apply NoDup_snoc; [assumption|].
    rewrite in_map_iff. intros (r & E & I).
    rewrite Forall_forall in F. specialize (F r I). lia.
  - apply Forall_app. split.
    + eapply Forall_impl; [|exact F]. cbn. intros; lia.
    + repeat constructor; rewrite Hmk; lia.
Qed.

Lemma NoDup_map_filter {A B} (f : A -> B) (p : A -> bool) l :
  NoDup (map f l) -> NoDup (map f (filter p l)).
Proof.
  induction l as [|x l IH]; cbn; [auto|].
  intros N. inversion N as [|? ? Hx N']; subst.
  destruct (p x); cbn; auto.
  constructor; auto.
  rewrite in_map_iff in *. intros (y & E & I).
  apply Hx. exists y. split; [assumption|].
  now apply filter_In in I.
Qed.

Lemma Forall_filter {A} (P : A -> Prop) (p : A -> bool) l :
  Forall P l -> Forall P (filter p l).
Proof.
  rewrite !Forall_forall. intros F x I. apply F.
  now apply filter_In in I.
Qed.

Lemma ids_ok_delete {A} (idf : A -> Z) p (t : table A) :
  ids_ok idf t -> ids_ok idf (delete_where p t).
Proof.
  intros (N & F & S). unfold ids_ok, delete_where. cbn [rows seq].
  repeat split; try assumption.
  - now apply NoDup_map_filter.
  - now apply Forall_filter.
Qed.

Lemma at_zone_stored n z :
  0 <= n + zone_utcoffset z * 1000000 <= MAX_US ->
  stored_with_offset (zone_utcoffset z) (isoformat (at_zone n z)).
Proof.
  intros R. destruct (at_zone_spec n z R) as (V & T & _).
  now exists (at_zone n z).
Qed.

Section Invariant.
Context {host : Host}.

Lemma invariant_empty : invariant empty_db.
Proof.
  constructor; cbn; try apply ids_ok_empty; constructor.
Qed.

Lemma invariant_run d o : invariant d -> invariant (run d o).
Proof.
  intros [U1 U2 A1 A2 R1 R2 P1 P2]. destruct o; cbn [run].
  - destruct (signup_cases d salt username password email)
      as [(_ & E)|[(_ & x & _ & _ & E)|[(_ & x & _ & _ & E)
         |[(_ & _ & _ & E)|(_ & X & hashed & H & E)]]]];
      rewrite E; cbn [snd]; try (constructor; assumption).
    constructor; cbn [users appointments reminders profiles set_users];
      try assumption.
    + now apply ids_ok_insert.
    + unfold insert_row. cbn [rows]. rewrite map_app. cbn [map user_username].
      apply NoDup_snoc; [assumption|].
      rewrite in_map_iff. intros (r & Er & Ir).
      assert (T : existsb (fun r => String.eqb (user_username r) username)
                    (rows (users d)) = true).
      { apply existsb_exists. exists r. split; [assumption|].
        now apply String.eqb_eq. }
      congruence.
  - destruct (book_appointment_cases d patient doctor when)
      as [(x & E)|(n & Rn & E)]; rewrite E; cbn [snd];
      [constructor; assumption|].
    constructor;
      cbn [users appointments reminders profiles insert_appointment
           set_appointments]; try assumption.
    + now apply ids_ok_insert.
    + unfold insert_row. cbn [rows]. apply Forall_app. split; [assumption|].
      repeat constructor. cbn [appt_datetime].
      apply (at_zone_stored n UTC). change (zone_utcoffset UTC) with 0. lia.
  - destruct (delete_appointment_cases d id) as [E|E]; rewrite E;
      [constructor; assumption|].
    constructor;
      cbn [users appointments reminders profiles set_appointments];
      try assumption.
    + now apply ids_ok_delete.
    + unfold delete_where. cbn [rows]. now apply Forall_filter.
  - destruct (set_medicine_reminder_cases d patient medication when)
      as [(x & E)|(n & Rn & E)]; rewrite E; cbn [snd];
      [constructor; assumption|].
    constructor;
      cbn [users appointments reminders profiles insert_reminder
           set_reminders]; try assumption.
    + now apply ids_ok_insert.
    + unfold insert_row. cbn [rows]. apply Forall_app. split; [assumption|].
      repeat constructor. cbn [rem_time].
      now apply (at_zone_stored n Asia_Kolkata).
  - destruct (delete_medicine_reminder_cases d id) as [E|E]; rewrite E;
      [constructor; assumption|].
    constructor;
      cbn [users appointments reminders profiles set_reminders];
      try assumption.
    + now apply ids_ok_delete.
    + unfold delete_where. cbn [rows]. now apply Forall_filter.
  - constructor;
      cbn [users appointments reminders profiles upsert_picture
           replace_profile set_profiles]; try assumption.
    + apply ids_ok_insert; [now apply ids_ok_delete|reflexivity].
    + unfold insert_row, delete_where. cbn [rows].
      rewrite map_app. cbn [map prof_username].
      apply NoDup_snoc; [now apply NoDup_map_filter|].
      rewrite in_map_iff. intros (r & Er & Ir).
      apply filter_In in Ir. destruct Ir as [_ Ir].
      apply negb_true_iff, String.eqb_neq in Ir. contradiction.
  - constructor;
      cbn [users appointments reminders profiles upsert_profile
           replace_profile set_profiles]; try assumption.
    + apply ids_ok_insert; [now apply ids_ok_delete|reflexivity].
    + unfold insert_row, delete_where. cbn [rows].
      rewrite map_app. cbn [map prof_username].
      apply NoDup_snoc; [now apply NoDup_map_filter|].
      rewrite in_map_iff. intros (r & Er & Ir).
      apply filter_In in Ir. destruct Ir as [_ Ir].
      apply negb_true_iff, String.eqb_neq in Ir. contradiction.
Qed.

Lemma reachable_invariant d : reachable d -> invariant d.
Proof.
  induction 1; [apply invariant_empty|now apply invariant_run].
Qed.

End Invariant.

(** *** Registering a username twice *)

Lemma count_unique {A B} (f : A -> B) (eqb : B -> B -> bool) l b :
  (forall x y, eqb x y = true <-> x = y) ->
  NoDup (map f l) ->
  existsb (fun r => eqb (f r) b) l = true ->
  List.length (filter (fun r => eqb (f r) b) l) = 1%nat.
Proof.
  intros Heq. induction l as [|x l IH]; cbn; [discriminate|].
  intros N X. inversion N as [|? ? Hx N']; subst.
  destruct (eqb (f x) b) eqn:E.
  - apply Heq in E. subst b. cbn. f_equal.
    assert (F : filter (fun r => eqb (f r) (f x)) l = []).
    { clear - Heq Hx. induction l as [|y l IH]; cbn; [reflexivity|].
      destruct (eqb (f y) (f x)) eqn:E.
      - apply Heq in E. exfalso. apply Hx. cbn. now left.
      - apply IH. intros I. apply Hx. cbn. now right. }
    now rewrite F.
  - cbn in X. auto.
Qed.

Lemma filter_none {A} (p : A -> bool) l :
  existsb p l = false -> filter p l = [].
Proof.
  induction l as [|x l IH]; cbn; [reflexivity|].
  destruct (p x); [discriminate|auto].
Qed.

Lemma string_eqb_iff x y : String.eqb x y = true <-> x = y.
Proof. apply String.eqb_eq. Qed.

(** C5 (as amended).  For a username of the accepted format and a hash
    that does not raise, the second of two registrations reports that
    the username already exists and writes nothing, and the table of
    users then holds exactly one row for the username. *)
Theorem signup_twice {host : Host} (d : db)
    (u salt1 p1 e1 salt2 p2 e2 : string) :
  hash_total host -> reachable d ->
  re_match_username u = true ->
  let d1 := snd (signup d salt1 u p1 e1) in
  signup d1 salt2 u p2 e2 = ("❌ Username already exists!", d1)
  /\ List.length
       (filter (fun r => String.eqb (user_username r) u) (rows (users d1)))
     = 1%nat.
Proof.
  intros HT Rd M d1.
  assert (Inv1 : invariant d1).
  { apply reachable_invariant.
    apply (reach_run d (Signup salt1 u p1 e1)); [assumption|exact I]. }
  assert (X1 : existsb (fun r => String.eqb (user_username r) u)
                 (rows (users d1)) = true).
  { subst d1.
    destruct (signup_cases d salt1 u p1 e1)
      as [(M' & _)|[(_ & x & H & _)|[(_ & x & H & _)
         |[(_ & _ & X & E)|(_ & X & hashed & H & E)]]]];
      try congruence;
      try (destruct (HT p1 salt1) as [h Hh]; congruence).
    - now rewrite E.
    - rewrite E. cbn [snd set_users users insert_row rows].
      rewrite existsb_app. cbn [existsb user_username].
      rewrite String.eqb_refl. apply orb_true_iff. right. reflexivity. }
  split.
  - destruct (signup_cases d1 salt2 u p2 e2)
      as [(M' & _)|[(_ & x & H & _)|[(_ & x & H & _)
         |[(_ & _ & X & E)|(_ & X & hashed & H & E)]]]];
      try congruence;
      destruct (HT p2 salt2) as [h Hh]; congruence.
  - apply (count_unique user_username String.eqb).
    + exact string_eqb_iff.
    + apply Inv1.
    + exact X1.
Qed.

Lemma utc_host_hash_total : hash_total utc_host.
Proof. intros p s. now exists p. Defined.

Lemma signup_twice_witness :
  hash_total utc_host /\ reachable (host := utc_host) empty_db
  /\ re_match_username "asha" = true
  /\ signup (host := utc_host)
       (snd (signup (host := utc_host) empty_db "s1" "asha" "secret"
               "a@example.org"))
       "s2" "asha" "secret" "a@example.org"
     = ("❌ Username already exists!",
        snd (signup (host := utc_host) empty_db "s1" "asha" "secret"
               "a@example.org")).
Proof.
  split; [exact utc_host_hash_total|].
  split; [apply reach_empty|]. split; [reflexivity|].
  apply (signup_twice (host := utc_host) empty_db "asha" "s1" "secret"
           "a@example.org" "s2" "secret" "a@example.org"
           utc_host_hash_total (reach_empty (host := utc_host))
           eq_refl).
Defined.

(** C5, counterexample.  Registering the username "ab" twice: the second
    call is turned down for its format, not as a duplicate, and the table
    holds no row for "ab".  And for a registered username, a second call
    whose password the hash refuses reports a signup error, not a
    duplicate: the password is hashed before the INSERT is tried. *)
Lemma signup_twice_counterexample :
  (let d1 := snd (signup (host := utc_host) empty_db "s1" "ab" "secret"
                    "ab@example.org") in
   signup (host := utc_host) d1 "s2" "ab" "secret" "ab@example.org"
   = ("❌ Invalid username (3-20 chars, alphanumeric)", d1)
   /\ fst (signup (host := utc_host) d1 "s2" "ab" "secret" "ab@example.org")
      <> "❌ Username already exists!"
   /\ filter (fun r => String.eqb (user_username r) "ab") (rows (users d1))
      = [])
  /\
  (let d1 := snd (signup (host := strict_host) empty_db "s1" "asha" "secret"
                    "a@example.org") in
   fst (signup (host := strict_host) empty_db "s1" "asha" "secret"
          "a@example.org") = "✅ Signup successful!"
   /\ signup (host := strict_host) d1 "s2" "asha" long_password
        "a@example.org"
      = ("❌ Signup error: password cannot be longer than 72 bytes", d1)).
Proof. vm_compute. repeat split. discriminate. Qed.

(** *** Deleting by id *)

Lemma filter_all {A} (p : A -> bool) l :
  (forall x, In x l -> p x = true) -> filter p l = l.
Proof.
  induction l as [|x l IH]; cbn; [reflexivity|]. intros H.
  rewrite (H x (or_introl eq_refl)). f_equal. apply IH. auto.
Qed.




Lemma in_delete_where {A} (idf : A -> Z) (id : Z) (t : table A) r :
  In r (rows (delete_where (fun r => idf r =? id) t))
  <-> In r (rows t) /\ idf r <> id.
Proof.
  unfold delete_where. cbn [rows].
  rewrite filter_In, negb_true_iff, Z.eqb_neq. tauto.
Qed.




Lemma sample_db_reachable : reachable (host := utc_host) sample_db.
Proof.
  unfold sample_db, sample_ops. cbn [fold_left].
  repeat (apply reach_run; [|reflexivity]). apply reach_empty.
Defined.



(** *** The order of the two listings *)

Lemma StronglySorted_impl_in {A} (R R' : A -> A -> Prop) l :
  (forall x y, In x l -> In y l -> R x y -> R' x y) ->
  StronglySorted R l -> StronglySorted R' l.
Proof.
  intros H S. induction S as [|x l S IH F]; constructor.
  - apply IH. intros a b Ia Ib. apply H; now right.
  - rewrite Forall_forall in *. intros y Iy.
    apply H; [now left|now right|auto].
Qed.

Lemma StronglySorted_map {A B} (f : A -> B) (R : B -> B -> Prop) l :
  StronglySorted (fun x y => R (f x) (f y)) l -> StronglySorted R (map f l).
Proof.
  induction 1 as [|x l S IH F]; cbn; constructor; [assumption|].
  rewrite Forall_forall in *. intros y Iy.
  apply in_map_iff in Iy. destruct Iy as (z & <- & Iz). auto.
Qed.

Lemma stored_instant_isoformat dt :
  valid_datetime dt -> stored_instant (isoformat dt) = Some (instant dt).
Proof.
  intros V. unfold stored_instant. now rewrite fromisoformat_isoformat.
Qed.

Lemma leb_compare a b :
  String.leb a b = true <-> String.compare a b <> Gt.
Proof.
  unfold String.leb. destruct (String.compare a b); split; congruence.
Qed.

Lemma Z_compare_not_gt a b : (a ?= b) <> Gt <-> a <= b.
Proof. unfold Z.le. tauto. Qed.

(** [datetime()] of a stored UTC timestamp is NULL exactly in the last
    half millisecond of the calendar. *)
Lemma stored_null_iff text :
  stored_with_offset 0 text ->
  exists n, stored_instant text = Some n
            /\ (sqlite_datetime text = None <-> MAX_US < n + 500).
Proof.
  intros (dt & V & T & ->). exists (to_us dt). split.
  - rewrite (stored_instant_isoformat dt V). unfold instant. rewrite T.
    f_equal. lia.
  - destruct (Z_le_dec (to_us dt + 500) MAX_US) as [R|R].
    + rewrite (sqlite_datetime_isoformat dt V T R).
      split; [discriminate|lia].
    + rewrite (sqlite_datetime_null dt V T) by lia. split; [lia|reflexivity].
Qed.

(** Two stored UTC timestamps, compared as [datetime()] prints them. *)
Lemma utc_key_order a b :
  stored_with_offset 0 a -> stored_with_offset 0 b ->
  key_le (sqlite_datetime a) (sqlite_datetime b) = true ->
  listed_before a b.
Proof.
  intros (da & Va & Ta & ->) (db_ & Vb & Tb & ->). unfold listed_before.
  destruct (Z_le_dec (to_us da + 500) MAX_US) as [Ra|Ra];
    [|intros _; left; apply (sqlite_datetime_null da Va Ta); lia].
  rewrite (sqlite_datetime_isoformat da Va Ta Ra).
  destruct (Z_le_dec (to_us db_ + 500) MAX_US) as [Rb|Rb];
    [|rewrite (sqlite_datetime_null db_ Vb Tb) by lia;
      intros H; discriminate H].
  rewrite (sqlite_datetime_isoformat db_ Vb Tb Rb).
  intros K. right. split; [discriminate|]. revert K.
  cbn [key_le]. rewrite leb_compare, format_date_time_compare by assumption.
  rewrite <- seconds_compare, Z_compare_not_gt by assumption.
  unfold second_le. rewrite !stored_instant_isoformat by assumption.
  unfold instant. rewrite Ta, Tb.
  now replace (to_us da - 0 * 1000000) with (to_us da) by lia;
      replace (to_us db_ - 0 * 1000000) with (to_us db_) by lia.
Qed.

(** Two stored Asia/Kolkata timestamps, compared as texts. *)
Lemma local_text_order a b :
  stored_with_offset 19800 a -> stored_with_offset 19800 b ->
  String.leb a b = true -> chron_le a b.
Proof.
  intros (da & Va & Ta & ->) (db_ & Vb & Tb & ->).
  rewrite leb_compare, isoformat_compare by congruence.
  rewrite <- to_us_compare, Z_compare_not_gt by assumption.
  unfold chron_le. rewrite !stored_instant_isoformat by assumption.
  unfold instant. rewrite Ta, Tb. lia.
Qed.

(** C7 (as amended).  In every database the program can be in, each
    listing holds exactly the rows of the patient.  The reminders come
    in ascending order of the stored timestamp.  The appointments come
    in ascending order of the stored timestamp taken to the whole
    second, which is the value the listing returns; the query does not
    order two appointments of the same second by their fractions.  An
    appointment stored in the last half millisecond of 9999-12-31 is the
    exception: [datetime()] is NULL for it and for no other, and it is
    listed first. *)
Theorem listings_ascend {host : Host} (d : db) (patient : string) :
  reachable d ->
  Permutation (appointments_in_order d patient)
    (filter (fun r => String.eqb (appt_patient_name r) patient)
            (rows (appointments d)))
  /\ StronglySorted
       (fun r1 r2 => listed_before (appt_datetime r1) (appt_datetime r2))
       (appointments_in_order d patient)
  /\ Forall
       (fun r => exists n,
                   stored_instant (appt_datetime r) = Some n
                   /\ (sqlite_datetime (appt_datetime r) = None
                       <-> MAX_US < n + 500))
       (appointments_in_order d patient)
  /\ StronglySorted
       (fun x y => key_le (snd x) (snd y) = true)
       (list_appointments d patient)
  /\ Permutation (reminders_in_order d patient)
       (filter (fun r => String.eqb (rem_patient_name r) patient)
               (rows (reminders d)))
  /\ StronglySorted
       (fun r1 r2 => chron_le (rem_time r1) (rem_time r2))
       (reminders_in_order d patient).
Proof.
  intros Rd. apply reachable_invariant in Rd.
  destruct Rd as [_ _ _ AU _ RL _ _]. rewrite Forall_forall in AU, RL.
  assert (SA : StronglySorted
                 (key_rel (fun r => sqlite_datetime (appt_datetime r)) key_le)
                 (appointments_in_order d patient))
    by (apply order_by_sorted; [apply key_le_total|apply key_le_trans]).
  assert (SR : StronglySorted (key_rel rem_time String.leb)
                 (reminders_in_order d patient))
    by (apply order_by_sorted; [apply String.leb_total|apply leb_trans]).
  split; [symmetry; apply order_by_perm|].
  split.
  { eapply StronglySorted_impl_in; [|exact SA].
    intros x y Ix Iy. apply in_appointments_in_order in Ix, Iy.
    apply utc_key_order; apply AU; tauto. }
  split.
  { apply Forall_forall. intros r Ir.
    apply in_appointments_in_order in Ir.
    apply stored_null_iff, AU. tauto. }
  split.
  { unfold list_appointments. apply StronglySorted_map. exact SA. }
  split; [symmetry; apply order_by_perm|].
  eapply StronglySorted_impl_in; [|exact SR].
  intros x y Ix Iy. apply in_reminders_in_order in Ix, Iy.
  apply local_text_order; apply RL; tauto.
Qed.

Lemma listings_ascend_witness :
  reachable (host := utc_host) sample_db
  /\ StronglySorted
       (fun r1 r2 => listed_before (appt_datetime r1) (appt_datetime r2))
       (appointments_in_order sample_db "asha")
  /\ map appt_datetime (appointments_in_order sample_db "asha")
     = ["2025-05-20T03:45:00+00:00"; "2025-06-01T04:30:00+00:00"].
Proof.
  split; [exact sample_db_reachable|]. split.
  - exact (proj1 (proj2 (listings_ascend (host := utc_host) sample_db "asha"
                           sample_db_reachable))).
  - vm_compute. reflexivity.
Defined.

(** C7, counterexample.  The listing of [same_second_db] returns the
    appointment stored as 04:30:00.900000 before the one stored as
    04:30:00.100000: it is not in ascending order of the stored
    timestamps.  The listing of [last_moment_db] returns the appointment
    of the last microsecond of 9999, with NULL for its time, before the
    one of June 2025. *)
Lemma listings_ascend_counterexample :
  reachable (host := utc_host) same_second_db
  /\ map appt_datetime (appointments_in_order same_second_db "asha")
     = ["2025-06-01T04:30:00.900000+00:00";
        "2025-06-01T04:30:00.100000+00:00"]
  /\ list_appointments same_second_db "asha"
     = [(1, "Dr. Smith (Cardiology)", Some "2025-06-01 04:30:00");
        (2, "Dr. Jones (Pediatrics)", Some "2025-06-01 04:30:00")]
  /\ ~ StronglySorted
         (fun r1 r2 => chron_le (appt_datetime r1) (appt_datetime r2))
         (appointments_in_order same_second_db "asha")
  /\ reachable (host := utc_host) last_moment_db
  /\ map appt_datetime (rows (appointments last_moment_db))
     = ["2025-06-01T04:30:00+00:00"; "9999-12-31T23:59:59.999999+00:00"]
  /\ list_appointments last_moment_db "asha"
     = [(2, "Dr. Jones (Pediatrics)", None);
        (1, "Dr. Smith (Cardiology)", Some "2025-06-01 04:30:00")].
Proof.
  split.
  { unfold same_second_db. cbn [fold_left].
    repeat (apply reach_run; [|reflexivity]). apply reach_empty. }
  split; [vm_compute; reflexivity|].
  split; [vm_compute; reflexivity|].
  split.
  { intros S.
    assert (E : appointments_in_order same_second_db "asha"
                = [mk_appointment 1 "asha" "Dr. Smith (Cardiology)"
                     "2025-06-01T04:30:00.900000+00:00";
                   mk_appointment 2 "asha" "Dr. Jones (Pediatrics)"
                     "2025-06-01T04:30:00.100000+00:00"])
      by (vm_compute; reflexivity).
    rewrite E in S. inversion S as [|? ? _ F]; subst.
    inversion F as [|? ? C _]; subst.
    vm_compute in C. now apply C. }
  split.
  { unfold last_moment_db. cbn [fold_left].
    repeat (apply reach_run; [|reflexivity]). apply reach_empty. }
  split; vm_compute; reflexivity.
Qed.

(** *** Profile upserts *)

Lemma find_replaced {A} (p : A -> bool) l x :
  p x = true -> find p (filter (fun r => negb (p r)) l ++ [x]) = Some x.
Proof.
  intros H. induction l as [|y l IH]; cbn.
  - now rewrite H.
  - destruct (p y) eqn:E; cbn; [assumption|]. now rewrite E.
Qed.

Lemma find_kept {A} (p q : A -> bool) l x :
  (forall r, p r = true -> q r = false) -> p x = false ->
  find p (filter (fun r => negb (q r)) l ++ [x]) = find p l.
Proof.
  intros H Hx. induction l as [|y l IH]; cbn.
  - now rewrite Hx.
  - destruct (q y) eqn:Q; cbn.
    + destruct (p y) eqn:P; [|assumption].
      apply H in P. congruence.
    + destruct (p y); [reflexivity|assumption].
Qed.

Lemma profile_of_replace d u mk :
  prof_username (mk (seq (profiles d) + 1)) = u ->
  profile_of (replace_profile d u mk) u = Some (mk (seq (profiles d) + 1)).
Proof.
  intros H. unfold profile_of, replace_profile, set_profiles, insert_row,
    delete_where. cbn [profiles rows seq].
  apply (find_replaced (fun r => String.eqb (prof_username r) u)).
  rewrite H. apply String.eqb_refl.
Qed.

Lemma profile_of_replace_other d u u' mk :
  prof_username (mk (seq (profiles d) + 1)) = u -> u' <> u ->
  profile_of (replace_profile d u mk) u' = profile_of d u'.
Proof.
  intros H N. unfold profile_of, replace_profile, set_profiles, insert_row,
    delete_where. cbn [profiles rows seq].
  apply (find_kept (fun r => String.eqb (prof_username r) u')
                   (fun r => String.eqb (prof_username r) u)).
  - intros r E. apply String.eqb_eq in E. apply String.eqb_neq. congruence.
  - rewrite H. apply String.eqb_neq. congruence.
Qed.

Lemma seq_replace_profile d u mk :
  seq (profiles (replace_profile d u mk)) = seq (profiles d) + 1.
Proof. reflexivity. Qed.

Lemma one_row_after_replace d u mk :
  prof_username (mk (seq (profiles d) + 1)) = u ->
  filter (fun r => String.eqb (prof_username r) u)
         (rows (profiles (replace_profile d u mk)))
  = [mk (seq (profiles d) + 1)].
Proof.
  intros H. unfold replace_profile, set_profiles, insert_row, delete_where.
  cbn [profiles rows seq]. rewrite filter_app. cbn [filter].
  rewrite H, String.eqb_refl.
  replace (filter _ (filter _ (rows (profiles d)))) with (@nil profile_row);
    [reflexivity|].
  symmetry. induction (rows (profiles d)) as [|y l IH]; cbn; [reflexivity|].
  destruct (String.eqb (prof_username y) u) eqn:E; cbn; [assumption|].
  now rewrite E.
Qed.

(** C8.  Saving only the picture leaves one row for the username, with
    the picture and every other column NULL; saving only the text fields
    leaves one row with those fields and no picture.  So a picture saved
    after the text fields wipes them, and text fields saved after a
    picture wipe the picture; the rows of other usernames stay. *)
Theorem upserts_replace_the_whole_row (d : db) (u picture : string)
    (full_name : string) (age : Z)
    (medical_history allergies medications blood_type : string)
    (height weight : Z) :
  let text_only id :=
    mk_profile id u (Some full_name) (Some age) (Some medical_history)
      (Some allergies) (Some medications) (Some blood_type) (Some height)
      (Some weight) None in
  let picture_only id :=
    mk_profile id u None None None None None None None None (Some picture) in
  let save_text d :=
    upsert_profile d u full_name age medical_history allergies medications
      blood_type height weight in
  let n := seq (profiles d) in
  (* one save *)
  filter (fun r => String.eqb (prof_username r) u)
         (rows (profiles (upsert_picture d u picture)))
  = [picture_only (n + 1)]
  /\ filter (fun r => String.eqb (prof_username r) u)
            (rows (profiles (save_text d)))
     = [text_only (n + 1)]
  (* the text fields, then the picture *)
  /\ profile_of (save_text d) u = Some (text_only (n + 1))
  /\ profile_of (upsert_picture (save_text d) u picture) u
     = Some (picture_only (n + 1 + 1))
  (* the picture, then the text fields *)
  /\ profile_of (upsert_picture d u picture) u = Some (picture_only (n + 1))
  /\ profile_of (save_text (upsert_picture d u picture)) u
     = Some (text_only (n + 1 + 1))
  /\ get_profile_picture (save_text (upsert_picture d u picture)) u = None
  (* other usernames *)
  /\ (forall u', u' <> u ->
        profile_of (upsert_picture d u picture) u' = profile_of d u'
        /\ profile_of (save_text d) u' = profile_of d u').
Proof.
  intros text_only picture_only save_text n.
  unfold save_text, upsert_picture, upsert_profile.
  split; [now apply one_row_after_replace|].
  split; [now apply one_row_after_replace|].
  split; [now apply profile_of_replace|].
  split; [now rewrite profile_of_replace|].
  split; [now apply profile_of_replace|].
  split; [now rewrite profile_of_replace|].
  split.
  - unfold get_profile_picture. now rewrite profile_of_replace.
  - intros u' N. split; now apply profile_of_replace_other.
Qed.

Lemma upserts_replace_the_whole_row_witness :
  "ravi" <> "asha"
  /\ profile_of
       (upsert_picture
          (upsert_profile empty_db "asha" "Asha Rao" 34 "asthma" "pollen"
             "salbutamol" "O+" 162 58) "asha" "PNG")
       "asha"
     = Some (mk_profile 2 "asha" None None None None None None None None
               (Some "PNG"))
  /\ profile_of (upsert_picture empty_db "asha" "PNG") "ravi" = None.
Proof.
  pose proof (upserts_replace_the_whole_row empty_db "asha" "PNG" "Asha Rao"
                34 "asthma" "pollen" "salbutamol" "O+" 162 58) as T.
  cbv zeta in T.
  destruct T as (_ & _ & _ & T4 & _ & _ & _ & T8).
  assert (N : "ravi" <> "asha") by discriminate.
  split; [exact N|]. split; [exact T4|].
  exact (proj1 (T8 "ravi" N)).
Defined.

(** *** Assistant gateway *)

(** C9.  [healthcare_chatbot] returns a text for every message and
    never raises; when the pipeline call raises, the text is ["Error: "]
    followed by the description of the fault, so it contains both. *)
Theorem chatbot_failure_is_returned_as_text {host : Host}
    (user_input : string) :
  (exists text, healthcare_chatbot user_input = ret text)
  /\ forall fault, chatbot user_input = inl fault ->
       healthcare_chatbot user_input = ret ("Error: " ++ str fault)
       /\ contains "Error" ("Error: " ++ str fault) = true
       /\ contains (str fault) ("Error: " ++ str fault) = true.
Proof.
  split.
  - unfold healthcare_chatbot.
    destruct (out <- chatbot user_input;; _) as [x|text]; eauto.
  - intros fault F. unfold healthcare_chatbot. rewrite F. cbn [bind].
    split; [reflexivity|]. split.
    + reflexivity.
    + apply contains_suffix.
Qed.

Lemma chatbot_failure_is_returned_as_text_witness :
  chatbot (Host := failing_host "model weights not found") "I have a headache"
  = inl (Raise RuntimeError "model weights not found")
  /\ healthcare_chatbot (host := failing_host "model weights not found")
       "I have a headache"
     = ret "Error: model weights not found".
Proof.
  split; [reflexivity|].
  exact (proj1 (proj2 (chatbot_failure_is_returned_as_text
                         (host := failing_host "model weights not found")
                         "I have a headache") _ eq_refl)).
Defined.

(** A needle cannot start inside a prefix that lacks its first
    character. *)
Lemma contains_skip c needle pre hay :
  occurs c pre = false ->
  contains (String c needle) (pre ++ hay) = contains (String c needle) hay.
Proof.
  induction pre as [|a pre IH]; cbn [append occurs]; [reflexivity|].
  intros H. apply orb_false_iff in H. destruct H as [Ha Hp].
  cbn [contains String.prefix].
  destruct (ascii_dec c a) as [E|N].
  - subst a. now rewrite Ascii.eqb_refl in Ha.
  - cbn [orb]. auto.
Qed.

(** C10 (as amended).  When the pipeline call raises, the returned text
    is ["Error: "] and the description of the fault and nothing more: no
    disclaimer is appended, and the text contains the disclaimer exactly
    when the description of the fault does.  A text returned on success
    ends with the disclaimer. *)
Theorem chatbot_error_has_no_disclaimer_appended {host : Host}
    (user_input : string) (fault : exn) :
  chatbot user_input = inl fault ->
  healthcare_chatbot user_input = ret ("Error: " ++ str fault)
  /\ contains disclaimer ("Error: " ++ str fault)
     = contains disclaimer (str fault).
Proof.
  intros F. split.
  - unfold healthcare_chatbot. now rewrite F.
  - apply (contains_skip _ _ "Error: "). reflexivity.
Qed.

Lemma chatbot_error_has_no_disclaimer_appended_witness :
  chatbot (Host := failing_host "model weights not found") "I have a headache"
  = inl (Raise RuntimeError "model weights not found")
  /\ contains disclaimer "Error: model weights not found" = false.
Proof.
  split; [reflexivity|].
  refine (eq_trans
            (proj2 (chatbot_error_has_no_disclaimer_appended
                      (host := failing_host "model weights not found")
                      "I have a headache" _ eq_refl)) _).
  reflexivity.
Defined.

(** The success path appends the disclaimer. *)
Lemma chatbot_success_ends_with_disclaimer {host : Host}
    (user_input response : string) rest more :
  chatbot user_input = ret ((("generated_text", response) :: rest) :: more) ->
  healthcare_chatbot user_input
  = ret (response ++ newline ++ newline ++ "⚠️ " ++ disclaimer)
  /\ contains disclaimer
       (response ++ newline ++ newline ++ "⚠️ " ++ disclaimer) = true.
Proof.
  intros S. unfold healthcare_chatbot. rewrite S. split; [reflexivity|].
  rewrite <- !append_assoc. apply contains_suffix.
Qed.

(** C10, counterexample.  A fault whose description carries the words
    of the disclaimer: the error text that comes back contains the
    disclaimer. *)
Lemma chatbot_error_counterexample :
  let host := failing_host "⚠️ This is not medical advice." in
  chatbot (Host := host) "I have a headache"
  = inl (Raise RuntimeError "⚠️ This is not medical advice.")
  /\ healthcare_chatbot (host := host) "I have a headache"
     = ret "Error: ⚠️ This is not medical advice."
  /\ contains disclaimer "Error: ⚠️ This is not medical advice." = true.
Proof. vm_compute. repeat split. Qed.

End AppFacts.

(* ------------------------------------------------------------------ *)
(** ** Further properties of the stores and the gateway               *)
(* ------------------------------------------------------------------ *)

Module StoreFacts.
Import Calendar CalendarFacts Text TextFacts Py Datetime DatetimeFacts.
Import Sqlite SqliteFacts App AppFacts.
Local Open Scope string_scope.
Local Open Scope Z_scope.
Local Open Scope py_scope.

(** *** What one call does to each table *)

Section Effects.
Context {host : Host}.

Lemma signup_tables d salt u p e :
  appointments (snd (signup d salt u p e)) = appointments d
  /\ reminders (snd (signup d salt u p e)) = reminders d
  /\ profiles (snd (signup d salt u p e)) = profiles d.
Proof.
  destruct (signup_cases d salt u p e)
    as [[_ E] | [[_ [x [_ [_ E]]]] | [[_ [x [_ [_ E]]]]
        | [[_ [_ [_ E]]] | [_ [_ [h [_ E]]]]]]]];
    rewrite E; cbn; auto.
Qed.

Lemma run_appointments d o :
  appointments (run d o) = appointments d
  \/ (exists patient doctor when n,
        o = Book patient doctor when /\ 0 <= n <= MAX_US
        /\ appointments (run d o)
           = insert_row (appointments d)
               (fun id => mk_appointment id patient doctor
                            (isoformat (at_zone n UTC))))
  \/ (exists id,
        o = DeleteAppointment id
        /\ appointments (run d o)
           = delete_where (fun r => appt_id r =? id) (appointments d)).
Proof.
  destruct o as [salt u p e | patient doctor when | id | patient med when
                 | id | u pic | u n a mh al me bt h w]; cbn [run].
  - left. apply signup_tables.
  - destruct (book_appointment_cases d patient doctor when)
      as [[x E] | [n [Hn E]]]; rewrite E; cbn [snd].
    + now left.
    + right; left. exists patient, doctor, when, n. auto.
  - destruct (delete_appointment_cases d id) as [E|E]; rewrite E.
    + now left.
    + right; right. exists id. auto.
  - left.
    destruct (set_medicine_reminder_cases d patient med when)
      as [[x E] | [n [Hn E]]]; rewrite E; reflexivity.
  - left.
    destruct (delete_medicine_reminder_cases d id) as [E|E]; now rewrite E.
  - now left.
  - now left.
Qed.

Lemma run_reminders d o :
  reminders (run d o) = reminders d
  \/ (exists patient medication when n,
        o = SetReminder patient medication when
        /\ 0 <= n + 19800 * 1000000 <= MAX_US
        /\ reminders (run d o)
           = insert_row (reminders d)
               (fun id => mk_reminder id patient medication
                            (isoformat (at_zone n Asia_Kolkata)) 0))
  \/ (exists id,
        o = DeleteReminder id
        /\ reminders (run d o)
           = delete_where (fun r => rem_id r =? id) (reminders d)).
Proof.
  destruct o as [salt u p e | patient doctor when | id | patient med when
                 | id | u pic | u n a mh al me bt h w]; cbn [run].
  - left. apply signup_tables.
  - left.
    destruct (book_appointment_cases d patient doctor when)
      as [[x E] | [n [Hn E]]]; rewrite E; reflexivity.
  - left.
    destruct (delete_appointment_cases d id) as [E|E]; now rewrite E.
  - destruct (set_medicine_reminder_cases d patient med when)
      as [[x E] | [n [Hn E]]]; rewrite E; cbn [snd].
    + now left.
    + right; left. exists patient, med, when, n. auto.
  - destruct (delete_medicine_reminder_cases d id) as [E|E]; rewrite E.
    + now left.
    + right; right. exists id. auto.
  - now left.
  - now left.
Qed.

End Effects.

(** *** The reply of the assistant gateway *)

Lemma getitem_missing d key :
  (forall v, ~ In (key, v) d) ->
  getitem d key = raise KeyError ("'" ++ key ++ "'").
Proof.
  induction d as [|[k v] d IH]; intros H; cbn [getitem].
  - reflexivity.
  - destruct (String.eqb k key) eqn:E.
    + apply String.eqb_eq in E. subst k. exfalso. apply (H v). now left.
    + apply IH. intros v' Hin. apply (H v'). now right.
Qed.

Lemma getitem_present d key v :
  In (key, v) d -> exists v', getitem d key = ret v'.
Proof.
  induction d as [|[k w] d IH]; intros H; cbn [getitem].
  - destruct H.
  - destruct (String.eqb k key) eqn:E.
    + now exists w.
    + destruct H as [H | H].
      * injection H as -> ->. rewrite String.eqb_refl in E. discriminate.
      * auto.
Qed.

(** X1. Whatever the pipeline does, [healthcare_chatbot] returns a text,
    and the text has one of two shapes: ["Error: "] followed by the
    description of the exception, or the generated text followed by a
    blank line and the disclaimer.  An empty list from the pipeline gives
    ["Error: list index out of range"]; a first dictionary with no
    ['generated_text'] key gives ["Error: 'generated_text'"]; a first
    dictionary that has the key gives the second shape, whatever the
    other entries of the list are. *)
Theorem chatbot_reply_shape {host : Host} (user_input : string) :
  exists text,
    healthcare_chatbot user_input = ret text
    /\ ((exists description, text = "Error: " ++ description)
        \/ (exists response,
              text = response ++ newline ++ newline ++ "⚠️ " ++ disclaimer))
    /\ (chatbot user_input = ret [] ->
        text = "Error: list index out of range")
    /\ (forall first more,
          chatbot user_input = ret (first :: more) ->
          (forall v, ~ In ("generated_text", v) first) ->
          text = "Error: 'generated_text'")
    /\ (forall first more v,
          chatbot user_input = ret (first :: more) ->
          In ("generated_text", v) first ->
          exists response,
            getitem first "generated_text" = ret response
            /\ text = response ++ newline ++ newline ++ "⚠️ " ++ disclaimer).
Proof.
  unfold healthcare_chatbot.
  destruct (chatbot user_input) as [x | out] eqn:E.
  - exists ("Error: " ++ str x). cbn.
    split; [reflexivity|]. split; [left; eauto|].
    repeat split; intros; discriminate.
  - destruct out as [|first more].
    + exists "Error: list index out of range". cbn.
      split; [reflexivity|]. split; [left; eauto|].
      repeat split; intros; discriminate.
    + rewrite bind_ret. cbn [getitem0]. rewrite bind_ret.
      destruct (getitem first "generated_text") as [x | response] eqn:G.
      * exists ("Error: " ++ str x). cbn.
        split; [reflexivity|]. split; [left; eauto|].
        split; [intros; discriminate|]. split.
        -- intros f m [= <- <-] Hno.
           rewrite (getitem_missing _ _ Hno) in G.
           injection G as <-. reflexivity.
        -- intros f m v [= <- <-] Hin.
           destruct (getitem_present _ _ _ Hin) as [v' Hv].
           rewrite Hv in G. discriminate.
      * exists (response ++ newline ++ newline ++ "⚠️ " ++ disclaimer). cbn.
        split; [reflexivity|]. split; [right; eauto|].
        split; [intros; discriminate|]. split.
        -- intros f m [= <- <-] Hno.
           rewrite (getitem_missing _ _ Hno) in G. discriminate.
        -- intros f m v [= <- <-] Hin. exists response. split; auto.
Qed.

(** A pipeline that returns no candidate, and one whose candidate has no
    ['generated_text'] entry. *)
Lemma chatbot_reply_shape_witness :
  healthcare_chatbot
    (host := Build_Host echo_hashpw echo_checkpw (fun _ => 0)
               (fun _ => ret []) png_identifies)
    "I have a headache"
  = ret "Error: list index out of range"
  /\ healthcare_chatbot
       (host := Build_Host echo_hashpw echo_checkpw (fun _ => 0)
                  (fun _ => ret [[("text", "rest")]]) png_identifies)
       "I have a headache"
     = ret "Error: 'generated_text'".
Proof.
  split.
  - destruct (chatbot_reply_shape
                (host := Build_Host echo_hashpw echo_checkpw (fun _ => 0)
                           (fun _ => ret []) png_identifies)
                "I have a headache") as [text [E [_ [H _]]]].
    rewrite E, (H eq_refl). reflexivity.
  - reflexivity.
Defined.

(** *** The username format *)

(** X3. [signup] answers with the invalid-username message exactly for the
    usernames that are not 3 to 20 characters of [A-Za-z0-9_], optionally
    followed by one newline; the password, the e-mail address and the
    database play no role, and the database is then unchanged. *)
Theorem signup_format_gate {host : Host} (d : db)
    (salt u p e : string) :
  (fst (signup d salt u p e)
   = "❌ Invalid username (3-20 chars, alphanumeric)"
   <-> ~ exists body,
         (u = body \/ u = body ++ newline)
         /\ (3 <= String.length body <= 20)%nat
         /\ all_chars is_word_char body = true)
  /\ (fst (signup d salt u p e)
      = "❌ Invalid username (3-20 chars, alphanumeric)" ->
      snd (signup d salt u p e) = d).
Proof.
  rewrite <- re_match_username_iff.
  destruct (signup_cases d salt u p e)
    as [[M E] | [[M [x [_ [_ E]]]] | [[M [x [_ [_ E]]]]
        | [[M [_ [_ E]]] | [M [_ [h [_ E]]]]]]]];
    rewrite E; cbn [fst snd]; rewrite M.
  - split; [split|]; intros; try reflexivity. discriminate.
  - split; [split|]; intros H; try reflexivity.
    + cbn in H. discriminate.
    + exfalso. now apply H.
  - split; [split|]; intros H; try reflexivity; try discriminate.
    exfalso. now apply H.
  - split; [split|]; intros H; try reflexivity; try discriminate.
    exfalso. now apply H.
  - split; [split|]; intros H; try discriminate.
    exfalso. now apply H.
Qed.

Lemma signup_format_gate_witness :
  fst (signup (host := utc_host) empty_db "salt" "asha devi" "secret"
         "a@example.org")
  = "❌ Invalid username (3-20 chars, alphanumeric)"
  /\ fst (signup (host := utc_host) empty_db "salt" ("asha" ++ newline)
            "secret" "a@example.org")
     <> "❌ Invalid username (3-20 chars, alphanumeric)".
Proof.
  split.
  - reflexivity.
  - intros H.
    apply (proj1 (proj1 (signup_format_gate (host := utc_host) empty_db
                           "salt" ("asha" ++ newline) "secret"
                           "a@example.org"))) in H.
    apply H. exists "asha". repeat split; auto. cbn. lia. cbn. lia.
Defined.

(** *** Listings and the calls that do not concern them *)

Lemma filter_app_one {A} (p : A -> bool) l x :
  filter p (l ++ [x])%list = (filter p l ++ (if p x then [x] else []))%list.
Proof.
  induction l as [|y l IH]; cbn.
  - now destruct (p x).
  - rewrite IH. now destruct (p y).
Qed.

Lemma string_eqb_neq x y : x <> y -> String.eqb x y = false.
Proof. intros H. now apply String.eqb_neq. Qed.

Lemma list_appointments_insert_other d q doctor text patient :
  q <> patient ->
  list_appointments (insert_appointment d q doctor text) patient
  = list_appointments d patient.
Proof.
  intros H. unfold list_appointments, appointments_in_order.
  unfold insert_appointment, insert_row. cbn [appointments set_appointments rows].
  rewrite filter_app_one. cbn [appt_patient_name].
  rewrite (string_eqb_neq _ _ H), app_nil_r. reflexivity.
Qed.

Lemma list_reminders_insert_other d q medication text patient :
  q <> patient ->
  list_reminders (insert_reminder d q medication text) patient
  = list_reminders d patient.
Proof.
  intros H. unfold list_reminders, reminders_in_order.
  unfold insert_reminder, insert_row. cbn [reminders set_reminders rows].
  rewrite filter_app_one. cbn [rem_patient_name].
  rewrite (string_eqb_neq _ _ H), app_nil_r. reflexivity.
Qed.

(** X4. What a patient sees in the appointment list changes only by a
    booking under the patient's own name and by a deletion: a booking for
    another name, a signup, and every call on the reminders or the
    profiles leave it as it was.  The same holds of the reminder list. *)
Theorem listings_change_only_by_own_rows {host : Host} (d : db) (o : op)
    (patient : string) :
  (match o with
   | Book q _ _ => q <> patient
   | DeleteAppointment _ => False
   | _ => True
   end ->
   list_appointments (run d o) patient = list_appointments d patient)
  /\ (match o with
      | SetReminder q _ _ => q <> patient
      | DeleteReminder _ => False
      | _ => True
      end ->
      list_reminders (run d o) patient = list_reminders d patient).
Proof.
  split; intros H.
  - destruct o as [salt u p e | q doctor when | id | q med when
                   | id | u pic | u n a mh al me bt h w]; cbn [run].
    + unfold list_appointments, appointments_in_order.
      now rewrite (proj1 (signup_tables d salt u p e)).
    + destruct (book_appointment_cases d q doctor when)
        as [[x E] | [n [Hn E]]]; rewrite E; cbn [snd].
      * reflexivity.
      * now apply list_appointments_insert_other.
    + destruct H.
    + destruct (set_medicine_reminder_cases d q med when)
        as [[x E] | [n [Hn E]]]; rewrite E; reflexivity.
    + destruct (delete_medicine_reminder_cases d id) as [E|E];
        now rewrite E.
    + reflexivity.
    + reflexivity.
  - destruct o as [salt u p e | q doctor when | id | q med when
                   | id | u pic | u n a mh al me bt h w]; cbn [run].
    + unfold list_reminders, reminders_in_order.
      now rewrite (proj1 (proj2 (signup_tables d salt u p e))).
    + destruct (book_appointment_cases d q doctor when)
        as [[x E] | [n [Hn E]]]; rewrite E; reflexivity.
    + destruct (delete_appointment_cases d id) as [E|E]; now rewrite E.
    + destruct (set_medicine_reminder_cases d q med when)
        as [[x E] | [n [Hn E]]]; rewrite E; cbn [snd].
      * reflexivity.
      * now apply list_reminders_insert_other.
    + destruct H.
    + reflexivity.
    + reflexivity.
Qed.

Lemma listings_change_only_by_own_rows_witness :
  "ravi" <> "asha"
  /\ list_appointments
       (run (host := utc_host) sample_db
          (Book "ravi" "Dr. Smith (Cardiology)" june_1_10h)) "asha"
     = list_appointments sample_db "asha".
Proof.
  split.
  - discriminate.
  - apply (proj1 (listings_change_only_by_own_rows (host := utc_host)
                    sample_db
                    (Book "ravi" "Dr. Smith (Cardiology)" june_1_10h)
                    "asha")).
    discriminate.
Defined.

(** *** A deletion and the order of a listing *)

Section OrderFilter.
Context {A K : Type} (key : A -> K) (le : K -> K -> bool).
Hypothesis le_trans : forall a b c,
  le a b = true -> le b c = true -> le a c = true.

Lemma insert_by_head x l :
  Forall (key_rel key le x) l -> insert_by key le x l = x :: l.
Proof.
  intros H. destruct l as [|y l]; [reflexivity|].
  cbn. inversion H as [|? ? Hy _]; subst. unfold key_rel in Hy.
  now rewrite Hy.
Qed.

Lemma insert_by_filter (q : A -> bool) x l :
  StronglySorted (key_rel key le) l ->
  filter q (insert_by key le x l)
  = if q x then insert_by key le x (filter q l) else filter q l.
Proof.
  induction l as [|y l IH]; intros S.
  - cbn. now destruct (q x).
  - apply StronglySorted_inv in S. destruct S as [S Hy].
    cbn [insert_by]. destruct (le (key x) (key y)) eqn:L.
    + cbn [filter]. destruct (q x); [|reflexivity].
      symmetry. apply insert_by_head.
      assert (Hall : Forall (key_rel key le x) (y :: l)).
      { constructor; [exact L|].
        eapply Forall_impl; [|exact Hy]. intros z Hz.
        unfold key_rel in *. eauto. }
      change (Forall (key_rel key le x) (filter q (y :: l))).
      clear -Hall. induction Hall as [|z l' Hz _ IH']; cbn.
      * constructor.
      * destruct (q z); [constructor|]; auto.
    + cbn [filter]. rewrite (IH S).
      destruct (q y), (q x); try reflexivity.
      cbn [insert_by]. now rewrite L.
Qed.

End OrderFilter.

Lemma order_by_filter {A K} (key : A -> K) (le : K -> K -> bool)
    (q : A -> bool) l :
  (forall a b, le a b = true \/ le b a = true) ->
  (forall a b c, le a b = true -> le b c = true -> le a c = true) ->
  filter q (order_by key le l) = order_by key le (filter q l).
Proof.
  intros Htot Htr. induction l as [|x l IH]; [reflexivity|].
  cbn [order_by filter].
  rewrite (insert_by_filter key le Htr q x (order_by key le l))
    by (apply order_by_sorted; assumption).
  rewrite IH. now destruct (q x).
Qed.

Lemma filter_comm {A} (p q : A -> bool) l :
  filter p (filter q l) = filter q (filter p l).
Proof.
  induction l as [|x l IH]; [reflexivity|]. cbn.
  destruct (p x) eqn:P, (q x) eqn:Q; cbn; rewrite ?P, ?Q, IH; reflexivity.
Qed.

Lemma filter_map_swap {A B} (f : A -> B) (q : B -> bool) l :
  filter q (map f l) = map f (filter (fun x => q (f x)) l).
Proof.
  induction l as [|x l IH]; [reflexivity|]. cbn.
  rewrite IH. now destruct (q (f x)).
Qed.

Lemma leb_total a b : String.leb a b = true \/ String.leb b a = true.
Proof.
  unfold String.leb. rewrite (String.compare_antisym b a).
  destruct (String.compare a b); cbn; auto.
Qed.

Lemma list_appointments_delete (d : db) (id : Z) (patient : string) :
  list_appointments
    (set_appointments d
       (delete_where (fun r => appt_id r =? id) (appointments d))) patient
  = filter (fun row => negb (fst (fst row) =? id))
      (list_appointments d patient).
Proof.
  unfold list_appointments, appointments_in_order.
  rewrite filter_map_swap. cbn [fst snd].
  cbn [appointments set_appointments delete_where rows].
  rewrite order_by_filter by (apply key_le_total || apply key_le_trans).
  now rewrite filter_comm.
Qed.

Lemma list_reminders_delete (d : db) (id : Z) (patient : string) :
  list_reminders
    (set_reminders d
       (delete_where (fun r => rem_id r =? id) (reminders d))) patient
  = filter (fun row => negb (fst (fst row) =? id))
      (list_reminders d patient).
Proof.
  unfold list_reminders, reminders_in_order.
  rewrite filter_map_swap. cbn [fst snd].
  cbn [reminders set_reminders delete_where rows].
  rewrite order_by_filter by (apply leb_total || apply leb_trans).
  now rewrite filter_comm.
Qed.

Lemma list_appointments_without (d : db) (id : Z) (patient : string) :
  (forall r, In r (rows (appointments d)) -> appt_id r <> id) ->
  filter (fun row => negb (fst (fst row) =? id))
    (list_appointments d patient)
  = list_appointments d patient.
Proof.
  intros H. apply filter_all. intros row Hin.
  unfold list_appointments in Hin. apply in_map_iff in Hin.
  destruct Hin as (r & <- & Hr). cbn [fst].
  apply in_appointments_in_order in Hr.
  apply negb_true_iff, Z.eqb_neq, H, Hr.
Qed.

Lemma list_reminders_without (d : db) (id : Z) (patient : string) :
  (forall r, In r (rows (reminders d)) -> rem_id r <> id) ->
  filter (fun row => negb (fst (fst row) =? id))
    (list_reminders d patient)
  = list_reminders d patient.
Proof.
  intros H. apply filter_all. intros row Hin.
  unfold list_reminders in Hin. apply in_map_iff in Hin.
  destruct Hin as (r & <- & Hr). cbn [fst].
  apply in_reminders_in_order in Hr.
  apply negb_true_iff, Z.eqb_neq, H, Hr.
Qed.

(** X5. After [delete_appointment id], the appointment list of every
    patient is the list of before without the entry of that id, in the
    same order; the patient need not be the one who deletes.  The same
    holds of [delete_medicine_reminder] and the reminder list.  This
    holds for every id when the rowids of the table are 64-bit integers,
    as those of a table of SQLite are, and for every table when the id
    is one: an id outside 64 bits is not bound to the statement, and
    both calls leave the database as it is. *)
Theorem delete_keeps_the_order (d : db) (id : Z) (patient : string) :
  (-9223372036854775808 <= id < 9223372036854775808
   \/ Forall (fun r => -9223372036854775808 <= appt_id r
                       < 9223372036854775808) (rows (appointments d)) ->
   list_appointments (snd (delete_appointment d id)) patient
   = filter (fun row => negb (fst (fst row) =? id))
       (list_appointments d patient))
  /\ (-9223372036854775808 <= id < 9223372036854775808
      \/ Forall (fun r => -9223372036854775808 <= rem_id r
                          < 9223372036854775808) (rows (reminders d)) ->
      list_reminders (snd (delete_medicine_reminder d id)) patient
      = filter (fun row => negb (fst (fst row) =? id))
          (list_reminders d patient))
  /\ (~ (-9223372036854775808 <= id < 9223372036854775808) ->
      snd (delete_appointment d id) = d
      /\ snd (delete_medicine_reminder d id) = d).
Proof.
  assert (C : -9223372036854775808 <= id < 9223372036854775808
              \/ ~ (-9223372036854775808 <= id < 9223372036854775808))
    by lia.
  split; [|split].
  - intros H. destruct C as [R|R].
    + rewrite (delete_appointment_in_range d id R).
      apply list_appointments_delete.
    + destruct H as [H|H]; [now destruct R|].
      rewrite (delete_appointment_out_of_range d id R). cbn [snd].
      symmetry. apply list_appointments_without.
      rewrite Forall_forall in H. intros r Hr E.
      specialize (H r Hr). rewrite E in H. now apply R.
  - intros H. destruct C as [R|R].
    + rewrite (delete_medicine_reminder_in_range d id R).
      apply list_reminders_delete.
    + destruct H as [H|H]; [now destruct R|].
      rewrite (delete_medicine_reminder_out_of_range d id R). cbn [snd].
      symmetry. apply list_reminders_without.
      rewrite Forall_forall in H. intros r Hr E.
      specialize (H r Hr). rewrite E in H. now apply R.
  - intros R. split.
    + now rewrite (delete_appointment_out_of_range d id R).
    + now rewrite (delete_medicine_reminder_out_of_range d id R).
Qed.

(** Deleting the first appointment of the sample; an id beyond the
    64-bit integers deletes nothing and leaves the lists as they are. *)
Lemma delete_keeps_the_order_witness :
  list_appointments (snd (delete_appointment sample_db 1)) "asha"
  = filter (fun row => negb (fst (fst row) =? 1))
      (list_appointments sample_db "asha")
  /\ list_appointments
       (snd (delete_appointment sample_db 9223372036854775808)) "asha"
     = filter (fun row => negb (fst (fst row) =? 9223372036854775808))
         (list_appointments sample_db "asha")
  /\ snd (delete_appointment sample_db 9223372036854775808) = sample_db.
Proof.
  assert (R1 : -9223372036854775808 <= 1 < 9223372036854775808) by lia.
  assert (R2 : ~ (-9223372036854775808 <= 9223372036854775808
                  < 9223372036854775808)) by lia.
  assert (B : Forall (fun r => -9223372036854775808 <= appt_id r
                               < 9223372036854775808)
                (rows (appointments sample_db))).
  { assert (B : Forall (fun r => (1 <=? appt_id r) && (appt_id r <=? 2)
                                 = true)
                  (rows (appointments sample_db)))
      by (vm_compute; repeat constructor).
    eapply Forall_impl; [|exact B]. cbv beta. intros r H.
    apply andb_true_iff in H. rewrite !Z.leb_le in H. lia. }
  split; [|split].
  - exact (proj1 (delete_keeps_the_order sample_db 1 "asha")
             (or_introl R1)).
  - exact (proj1 (delete_keeps_the_order sample_db 9223372036854775808
                    "asha") (or_intror B)).
  - exact (proj1 (proj2 (proj2 (delete_keeps_the_order sample_db
                                  9223372036854775808 "asha")) R2)).
Defined.

(** *** Rowids *)

Section Rowids.
Context {A : Type} (idf : A -> Z) (i : Z) (P : A -> Prop).

Lemma settled_insert (t : table A) mk :
  (forall j, idf (mk j) = j) ->
  i <= seq t /\ (forall r, In r (rows t) -> idf r = i -> P r) ->
  i <= seq (insert_row t mk)
  /\ (forall r, In r (rows (insert_row t mk)) -> idf r = i -> P r).
Proof.
  intros Hmk [Hi H]. unfold insert_row. cbn [rows seq]. split; [lia|].
  intros r Hin Hr. apply in_app_or in Hin. destruct Hin as [Hin|[<-|[]]].
  - auto.
  - rewrite Hmk in Hr. lia.
Qed.

Lemma settled_delete (t : table A) p :
  i <= seq t /\ (forall r, In r (rows t) -> idf r = i -> P r) ->
  i <= seq (delete_where p t)
  /\ (forall r, In r (rows (delete_where p t)) -> idf r = i -> P r).
Proof.
  intros [Hi H]. unfold delete_where. cbn [rows seq]. split; [lia|].
  intros r Hin Hr. apply filter_In in Hin. destruct Hin as [Hin _]. auto.
Qed.

End Rowids.

Lemma NoDup_map_eq {A B} (f : A -> B) l x y :
  NoDup (map f l) -> In x l -> In y l -> f x = f y -> x = y.
Proof.
  induction l as [|z l IH]; cbn; intros N Hx Hy E; [destruct Hx|].
  inversion N as [|? ? Hz N']; subst.
  destruct Hx as [<-|Hx], Hy as [<-|Hy]; auto.
  - exfalso. apply Hz. rewrite E. now apply in_map.
  - exfalso. apply Hz. rewrite <- E. now apply in_map.
Qed.

Section Settled.
Context {host : Host}.

Lemma settled_appointments (i : Z) (P : appointment_row -> Prop) later :
  forall d,
  i <= seq (appointments d)
  /\ (forall r, In r (rows (appointments d)) -> appt_id r = i -> P r) ->
  i <= seq (appointments (fold_left run later d))
  /\ (forall r, In r (rows (appointments (fold_left run later d))) ->
                appt_id r = i -> P r).
Proof.
  induction later as [|o later IH]; intros d H; [exact H|].
  cbn [fold_left]. apply IH.
  destruct (run_appointments d o)
    as [E | [(q & doc & w & n & _ & _ & E) | (id & _ & E)]]; rewrite E.
  - exact H.
  - apply settled_insert; [reflexivity | exact H].
  - apply settled_delete. exact H.
Qed.

Lemma settled_reminders (i : Z) (P : reminder_row -> Prop) later :
  forall d,
  i <= seq (reminders d)
  /\ (forall r, In r (rows (reminders d)) -> rem_id r = i -> P r) ->
  i <= seq (reminders (fold_left run later d))
  /\ (forall r, In r (rows (reminders (fold_left run later d))) ->
                rem_id r = i -> P r).
Proof.
  induction later as [|o later IH]; intros d H; [exact H|].
  cbn [fold_left]. apply IH.
  destruct (run_reminders d o)
    as [E | [(q & med & w & n & _ & _ & E) | (id & _ & E)]]; rewrite E.
  - exact H.
  - apply settled_insert; [reflexivity | exact H].
  - apply settled_delete. exact H.
Qed.

(** X6. Rowids are never reused.  In a database the program can be in, take
    any later sequence of calls.  An appointment that is still there under
    the id of an appointment of before is that very appointment, and an id
    that was given out and whose appointment has been deleted is the id of
    no appointment ever after.  The same holds of the reminders. *)
Theorem rowids_are_never_reused (d : db) (later : list op) :
  reachable d ->
  (forall r r',
     In r (rows (appointments d)) ->
     In r' (rows (appointments (fold_left run later d))) ->
     appt_id r' = appt_id r -> r' = r)
  /\ (forall i r',
        i <= seq (appointments d) ->
        ~ In i (map appt_id (rows (appointments d))) ->
        In r' (rows (appointments (fold_left run later d))) ->
        appt_id r' <> i)
  /\ (forall r r',
        In r (rows (reminders d)) ->
        In r' (rows (reminders (fold_left run later d))) ->
        rem_id r' = rem_id r -> r' = r)
  /\ (forall i r',
        i <= seq (reminders d) ->
        ~ In i (map rem_id (rows (reminders d))) ->
        In r' (rows (reminders (fold_left run later d))) ->
        rem_id r' <> i).
Proof.
  intros R. apply reachable_invariant in R.
  destruct (inv_appointment_ids d R) as (NA & FA & _).
  destruct (inv_reminder_ids d R) as (NR & FR & _).
  rewrite Forall_forall in FA, FR.
  split; [|split; [|split]].
  - intros r r' Hr Hr' E.
    refine (proj2 (settled_appointments (appt_id r) (fun x => x = r)
                     later d _) r' Hr' E).
    split; [apply FA, Hr|].
    intros x Hx Ex. now apply (NoDup_map_eq appt_id _ _ _ NA).
  - intros i r' Hi Hno Hr' E.
    refine (proj2 (settled_appointments i (fun _ => False)
                     later d _) r' Hr' E).
    split; [exact Hi|].
    intros x Hx Ex. apply Hno. rewrite <- Ex. now apply in_map.
  - intros r r' Hr Hr' E.
    refine (proj2 (settled_reminders (rem_id r) (fun x => x = r)
                     later d _) r' Hr' E).
    split; [apply FR, Hr|].
    intros x Hx Ex. now apply (NoDup_map_eq rem_id _ _ _ NR).
  - intros i r' Hi Hno Hr' E.
    refine (proj2 (settled_reminders i (fun _ => False)
                     later d _) r' Hr' E).
    split; [exact Hi|].
    intros x Hx Ex. apply Hno. rewrite <- Ex. now apply in_map.
Qed.

End Settled.

(** After the second appointment of the sample is deleted, a new booking
    gets the id 3, not the id 2. *)
Lemma rowids_are_never_reused_witness :
  reachable (host := utc_host) sample_db
  /\ (forall r',
        In r' (rows (appointments
                       (fold_left (run (host := utc_host))
                          [Book "ravi" "Dr. Smith (Cardiology)" june_1_10h]
                          (run (host := utc_host) sample_db
                             (DeleteAppointment 2))))) ->
        appt_id r' <> 2)
  /\ map appt_id
       (rows (appointments
                (fold_left (run (host := utc_host))
                   [Book "ravi" "Dr. Smith (Cardiology)" june_1_10h]
                   (run (host := utc_host) sample_db
                      (DeleteAppointment 2)))))
     = [1; 3].
Proof.
  split; [exact sample_db_reachable|]. split.
  - intros r'.
    apply (proj1 (proj2 (rowids_are_never_reused (host := utc_host)
                           (run (host := utc_host) sample_db
                              (DeleteAppointment 2))
                           [Book "ravi" "Dr. Smith (Cardiology)" june_1_10h]
                           (reach_run sample_db (DeleteAppointment 2)
                              sample_db_reachable I))) 2 r').
    + vm_compute. discriminate.
    + vm_compute. intros [H|[]]. discriminate.
  - vm_compute. reflexivity.
Defined.

(** *** An aware timestamp *)

Lemma astimezone_overflow lo dt z :
  local_zone_found lo dt ->
  ~ (0 <= to_us dt - source_offset lo dt * 1000000 <= MAX_US
     /\ 0 <= to_us dt - source_offset lo dt * 1000000
             + zone_utcoffset z * 1000000 <= MAX_US) ->
  astimezone lo dt z = raise OverflowError "date value out of range".
Proof.
  intros F H. unfold astimezone. rewrite (my_offset lo dt F), bind_ret.
  destruct (Z_le_dec 0 (to_us dt - source_offset lo dt * 1000000))
    as [L|L];
  [destruct (Z_le_dec (to_us dt - source_offset lo dt * 1000000) MAX_US)
     as [U|U]|].
  - rewrite add_seconds_in_range by lia. rewrite bind_ret.
    replace (to_us dt + - source_offset lo dt * 1000000)
      with (to_us dt - source_offset lo dt * 1000000) by lia.
    remember (to_us dt - source_offset lo dt * 1000000) as n eqn:En.
    clear En. destruct z.
    + exfalso. apply H. change (zone_utcoffset UTC) with 0. lia.
    + unfold fromutc. rewrite replace_tzinfo_of_us.
      rewrite add_seconds_overflow; [reflexivity|].
      rewrite to_us_of_us by lia. intros B. apply H. lia.
  - rewrite add_seconds_overflow by lia. reflexivity.
  - rewrite add_seconds_overflow by lia. reflexivity.
Qed.

Lemma is_aware_zone_found lo dt :
  is_naive dt = false -> local_zone_found lo dt.
Proof.
  unfold is_naive, local_zone_found. intros N T. rewrite T in N.
  discriminate N.
Qed.

Section Aware.
Context {host : Host}.

Lemma book_appointment_stores (d : db) (patient doctor : string)
    (t : datetime) :
  let n := to_us t - source_offset local_utcoffset t * 1000000 in
  is_naive t = false -> 0 <= n <= MAX_US ->
  book_appointment d patient doctor t
  = ("✅ Appointment booked!",
     insert_appointment d patient doctor (isoformat (at_zone n UTC))).
Proof.
  intros n N R. unfold book_appointment. rewrite N, bind_ret.
  rewrite astimezone_spec.
  - reflexivity.
  - now apply is_aware_zone_found.
  - exact R.
  - change (zone_utcoffset UTC) with 0. fold n. lia.
Qed.

Lemma book_appointment_overflow (d : db) (patient doctor : string)
    (t : datetime) :
  let n := to_us t - source_offset local_utcoffset t * 1000000 in
  is_naive t = false -> ~ 0 <= n <= MAX_US ->
  book_appointment d patient doctor t
  = ("❌ Error: date value out of range", d).
Proof.
  intros n N R. unfold book_appointment. rewrite N, bind_ret.
  rewrite astimezone_overflow.
  - reflexivity.
  - now apply is_aware_zone_found.
  - fold n. lia.
Qed.

Lemma set_medicine_reminder_overflow (d : db) (patient medication : string)
    (t : datetime) :
  let n := to_us t - source_offset local_utcoffset t * 1000000 in
  local_zone_found local_utcoffset t ->
  ~ (0 <= n /\ n + 19800 * 1000000 <= MAX_US) ->
  set_medicine_reminder d patient medication t
  = ("❌ Error: date value out of range", d).
Proof.
  intros n F R. unfold set_medicine_reminder.
  rewrite astimezone_overflow.
  - reflexivity.
  - exact F.
  - fold n. change (zone_utcoffset Asia_Kolkata) with 19800.
    rewrite MAX_US_eq in *. lia.
Qed.

Lemma stored_instant_at_zone n z :
  0 <= n + zone_utcoffset z * 1000000 <= MAX_US ->
  stored_instant (isoformat (at_zone n z)) = Some n.
Proof.
  intros R. destruct (at_zone_spec n z R) as (V & _ & I).
  rewrite stored_instant_isoformat by exact V. now rewrite I.
Qed.

(** X7. A timestamp that carries an offset is stored as the instant it
    denotes, whatever its offset and whatever the zone of the server: an
    appointment as the UTC text of that instant, a reminder as the
    Asia/Kolkata text of it.  When the instant, or for a reminder its
    Asia/Kolkata wall clock, falls outside the years 1 to 9999 the call
    answers ["❌ Error: date value out of range"] and writes nothing.
    (A [datetime] is modelled by its offset: a value whose [tzinfo] is
    the target zone object itself, which [astimezone] hands back as it
    is, is not told apart from one converted to that zone.) *)
Theorem aware_timestamp_keeps_its_instant (d : db)
    (who what : string) (t : datetime) (off : Z) :
  tzinfo t = Some off ->
  (0 <= instant t <= MAX_US ->
   book_appointment d who what t
   = ("✅ Appointment booked!",
      insert_appointment d who what (isoformat (at_zone (instant t) UTC)))
   /\ stored_instant (isoformat (at_zone (instant t) UTC))
      = Some (instant t))
  /\ (~ 0 <= instant t <= MAX_US ->
      book_appointment d who what t
      = ("❌ Error: date value out of range", d))
  /\ (0 <= instant t /\ instant t + 19800 * 1000000 <= MAX_US ->
      set_medicine_reminder d who what t
      = ("✅ Medicine reminder set!",
         insert_reminder d who what
           (isoformat (at_zone (instant t) Asia_Kolkata)))
      /\ stored_instant (isoformat (at_zone (instant t) Asia_Kolkata))
         = Some (instant t))
  /\ (~ (0 <= instant t /\ instant t + 19800 * 1000000 <= MAX_US) ->
      set_medicine_reminder d who what t
      = ("❌ Error: date value out of range", d)).
Proof.
  intros T.
  assert (E : instant t
              = to_us t - source_offset local_utcoffset t * 1000000)
    by (unfold instant, source_offset; now rewrite T).
  assert (N : is_naive t = false) by (unfold is_naive; now rewrite T).
  rewrite E. clear E.
  split; [|split; [|split]].
  - intros R. split.
    + now apply book_appointment_stores.
    + apply stored_instant_at_zone.
      change (zone_utcoffset UTC) with 0. lia.
  - intros R. now apply book_appointment_overflow.
  - intros R. split.
    + apply set_medicine_reminder_stores;
        [now apply is_aware_zone_found|lia|lia].
    + apply stored_instant_at_zone.
      change (zone_utcoffset Asia_Kolkata) with 19800. lia.
  - intros R. apply set_medicine_reminder_overflow;
      [now apply is_aware_zone_found|exact R].
Qed.

End Aware.

(** 2025-06-01 10:00 at the offset -04:00 is 14:00 in UTC and 19:30 in
    Asia/Kolkata. *)
Lemma aware_timestamp_keeps_its_instant_witness :
  book_appointment (host := kolkata_host) empty_db "asha"
    "Dr. Smith (Cardiology)" (mk_datetime 2025 6 1 10 0 0 0 (Some (-14400)))
  = ("✅ Appointment booked!",
     insert_appointment empty_db "asha" "Dr. Smith (Cardiology)"
       "2025-06-01T14:00:00+00:00")
  /\ set_medicine_reminder (host := kolkata_host) empty_db "asha" "Aspirin"
       (mk_datetime 2025 6 1 10 0 0 0 (Some (-14400)))
     = ("✅ Medicine reminder set!",
        insert_reminder empty_db "asha" "Aspirin"
          "2025-06-01T19:30:00+05:30")
  /\ book_appointment (host := kolkata_host) empty_db "asha"
       "Dr. Smith (Cardiology)" (mk_datetime 1 1 1 0 0 0 0 (Some 19800))
     = ("❌ Error: date value out of range", empty_db).
Proof.
  pose proof (aware_timestamp_keeps_its_instant (host := kolkata_host)
                empty_db "asha" "Dr. Smith (Cardiology)"
                (mk_datetime 2025 6 1 10 0 0 0 (Some (-14400))) (-14400)
                eq_refl) as H1.
  pose proof (aware_timestamp_keeps_its_instant (host := kolkata_host)
                empty_db "asha" "Aspirin"
                (mk_datetime 2025 6 1 10 0 0 0 (Some (-14400))) (-14400)
                eq_refl) as H2.
  pose proof (aware_timestamp_keeps_its_instant (host := kolkata_host)
                empty_db "asha" "Dr. Smith (Cardiology)"
                (mk_datetime 1 1 1 0 0 0 0 (Some 19800)) 19800
                eq_refl) as H3.
  split; [|split].
  - refine (eq_trans (proj1 (proj1 H1 _)) _).
    + vm_compute. split; discriminate.
    + vm_compute. reflexivity.
  - refine (eq_trans (proj1 (proj1 (proj2 (proj2 H2)) _)) _).
    + vm_compute. split; discriminate.
    + vm_compute. reflexivity.
  - refine (proj1 (proj2 H3) _).
    vm_compute. intros [H _]. now apply H.
Defined.

(** *** The sent flag *)

(** X8. Nothing sets the [sent] flag: in every database the program can be
    in, every reminder has [sent = 0]. *)
Theorem sent_is_never_set {host : Host} (d : db) :
  reachable d -> Forall (fun r => rem_sent r = 0) (rows (reminders d)).
Proof.
  induction 1 as [|d o R IH W].
  - constructor.
  - destruct (run_reminders d o)
      as [E | [(q & med & w & n & _ & _ & E) | (id & _ & E)]]; rewrite E.
    + exact IH.
    + unfold insert_row. cbn [rows]. apply Forall_app. split; [exact IH|].
      constructor; [reflexivity|constructor].
    + unfold delete_where. cbn [rows]. now apply Forall_filter.
Qed.

Lemma sent_is_never_set_witness :
  reachable (host := utc_host) sample_db
  /\ Forall (fun r => rem_sent r = 0) (rows (reminders sample_db)).
Proof.
  split; [exact sample_db_reachable|].
  exact (sent_is_never_set (host := utc_host) sample_db sample_db_reachable).
Defined.

(** *** One row per username *)

Lemma at_most_one {A} (f : A -> string) l u :
  NoDup (map f l) ->
  (List.length (filter (fun r => String.eqb (f r) u) l) <= 1)%nat.
Proof.
  intros N.
  destruct (existsb (fun r => String.eqb (f r) u) l) eqn:E.
  - rewrite (count_unique f String.eqb l u string_eqb_iff N E). lia.
  - rewrite (filter_none _ _ E). cbn. lia.
Qed.

(** X9. In every database the program can be in, no username has more than
    one row of credentials, and none has more than one profile row. *)
Theorem one_row_per_username {host : Host} (d : db) (u : string) :
  reachable d ->
  (List.length (filter (fun r => String.eqb (user_username r) u)
                  (rows (users d))) <= 1)%nat
  /\ (List.length (filter (fun r => String.eqb (prof_username r) u)
                     (rows (profiles d))) <= 1)%nat.
Proof.
  intros R. apply reachable_invariant in R. split.
  - apply at_most_one. exact (inv_usernames d R).
  - apply at_most_one. exact (inv_profile_usernames d R).
Qed.

Lemma one_row_per_username_witness :
  reachable (host := utc_host)
    (fold_left (run (host := utc_host))
       [Signup "s1" "asha" "secret" "a@example.org";
        UpsertPicture "asha" "PNG";
        Signup "s2" "asha" "other" "b@example.org";
        UpsertProfile "asha" "Asha Rao" 34 "asthma" "pollen" "salbutamol"
          "O+" 162 58] empty_db)
  /\ (List.length
        (filter (fun r => String.eqb (prof_username r) "asha")
           (rows (profiles
                    (fold_left (run (host := utc_host))
                       [Signup "s1" "asha" "secret" "a@example.org";
                        UpsertPicture "asha" "PNG";
                        Signup "s2" "asha" "other" "b@example.org";
                        UpsertProfile "asha" "Asha Rao" 34 "asthma" "pollen"
                          "salbutamol" "O+" 162 58] empty_db)))) <= 1)%nat.
Proof.
  assert (R : reachable (host := utc_host)
    (fold_left (run (host := utc_host))
       [Signup "s1" "asha" "secret" "a@example.org";
        UpsertPicture "asha" "PNG";
        Signup "s2" "asha" "other" "b@example.org";
        UpsertProfile "asha" "Asha Rao" 34 "asthma" "pollen" "salbutamol"
          "O+" 162 58] empty_db)).
  { cbn [fold_left]. repeat (apply reach_run; [|exact I]).
    apply reach_empty. }
  split; [exact R|].
  exact (proj2 (one_row_per_username (host := utc_host) _ "asha" R)).
Defined.

(** *** Who can log in *)

Section Soundness.
Context {host : Host}.

Lemma login_success d u p :
  login d u p = "✅ Login successful!" ->
  exists row, credentials d u = Some row
              /\ checkpw p (user_password row) = inr true.
Proof.
  unfold login. fold (credentials d u).
  destruct (credentials d u) as [row|].
  - destruct (checkpw p (user_password row)) as [x|[|]] eqn:C; cbn.
    + intros H. discriminate.
    + intros _. now exists row.
    + intros H. discriminate.
  - cbn. intros H. discriminate.
Qed.

Lemma hashes_come_from_signups ops :
  forall row, In row (rows (users (fold_left run ops empty_db))) ->
  exists salt p e,
    In (Signup salt (user_username row) p e) ops
    /\ hashpw p salt = inr (user_password row).
Proof.
  induction ops as [|o ops IH] using rev_ind; intros row Hin.
  - destruct Hin.
  - rewrite fold_left_app in Hin. cbn [fold_left] in Hin.
    assert (Old : In row (rows (users (fold_left run ops empty_db))) ->
                  exists salt p e,
                    In (Signup salt (user_username row) p e) (ops ++ [o])
                    /\ hashpw p salt = inr (user_password row)).
    { intros H. destruct (IH row H) as (salt & p & e & Hop & Hh).
      exists salt, p, e. split; [apply in_or_app; now left | exact Hh]. }
    destruct o as [salt u p e | patient doctor when | id | patient med when
                   | id | u' pic | u' n a mh al me bt h w];
      try (apply Old;
           match type of Hin with
           | context [run ?d ?o] =>
               pose proof (run_users d o) as U; cbn beta iota in U;
               rewrite U in Hin; exact Hin
           end).
    cbn [run] in Hin.
    destruct (signup_cases (fold_left run ops empty_db) salt u p e)
      as [[_ E] | [[_ [x [_ [_ E]]]] | [[_ [x [_ [_ E]]]]
          | [[_ [_ [_ E]]] | [_ [_ [h [Hh E]]]]]]]];
      rewrite E in Hin; cbn [snd] in Hin; try (now apply Old).
    unfold set_users, insert_row in Hin. cbn [users rows] in Hin.
    apply in_app_or in Hin. destruct Hin as [Hin | [<- | []]].
    + now apply Old.
    + exists salt, p, e. cbn [user_username user_password].
      split; [apply in_or_app; right; now left | exact Hh].
Qed.

(** X10. Only who signed up can log in.  Under the pairing of [hashpw] and
    [checkpw], if after any sequence of calls on a fresh database
    [login u p] succeeds, then one of the calls was a signup of the
    username [u] with the very password [p]. *)
Theorem login_needs_a_signup (ops : list op) (u p : string) :
  hash_verifies host ->
  login (fold_left run ops empty_db) u p = "✅ Login successful!" ->
  exists salt e, In (Signup salt u p e) ops.
Proof.
  intros HV L. apply login_success in L. destruct L as (row & C & K).
  unfold credentials in C. apply find_some in C. destruct C as [Hin Hu].
  apply String.eqb_eq in Hu.
  destruct (hashes_come_from_signups ops row Hin)
    as (salt & p' & e & Hop & Hh).
  rewrite (HV p' salt (user_password row) p Hh) in K.
  injection K as K. apply String.eqb_eq in K. subst p' u.
  now exists salt, e.
Qed.

End Soundness.

Lemma login_needs_a_signup_witness :
  hash_verifies utc_host
  /\ login (host := utc_host)
       (fold_left (run (host := utc_host))
          [Signup "s1" "asha" "secret" "a@example.org"] empty_db)
       "asha" "secret" = "✅ Login successful!"
  /\ exists salt e,
       In (Signup salt "asha" "secret" e)
          [Signup "s1" "asha" "secret" "a@example.org"].
Proof.
  split; [exact utc_host_hash_verifies|]. split; [reflexivity|].
  exact (login_needs_a_signup (host := utc_host)
           [Signup "s1" "asha" "secret" "a@example.org"] "asha" "secret"
           utc_host_hash_verifies eq_refl).
Defined.

(** *** What a status message says *)

Lemma length_insert_by {A K} (key : A -> K) (le : K -> K -> bool) x l :
  List.length (insert_by key le x l) = S (List.length l).
Proof.
  induction l as [|y l IH]; [reflexivity|]. cbn [insert_by].
  destruct (le (key x) (key y)); cbn [List.length]; [reflexivity|].
  now rewrite IH.
Qed.

Lemma length_order_by {A K} (key : A -> K) (le : K -> K -> bool) l :
  List.length (order_by key le l) = List.length l.
Proof.
  induction l as [|x l IH]; [reflexivity|]. cbn [order_by List.length].
  now rewrite length_insert_by, IH.
Qed.

Section Messages.
Context {host : Host}.

Lemma listed_after_insert_appointment d patient doctor text :
  In (seq (appointments d) + 1, doctor, sqlite_datetime text)
     (list_appointments (insert_appointment d patient doctor text) patient)
  /\ List.length
       (list_appointments (insert_appointment d patient doctor text) patient)
     = S (List.length (list_appointments d patient)).
Proof.
  unfold list_appointments, appointments_in_order.
  unfold insert_appointment, insert_row.
  cbn [appointments set_appointments rows]. rewrite filter_app_one.
  cbn [appt_patient_name]. rewrite String.eqb_refl. split.
  - apply (in_map (fun r => (appt_id r, appt_doctor_name r,
                             sqlite_datetime (appt_datetime r)))
             _ (mk_appointment (seq (appointments d) + 1) patient doctor
                  text)).
    apply in_order_by. apply in_or_app. right. now left.
  - rewrite !length_map, !length_order_by, length_app. cbn. lia.
Qed.

Lemma listed_after_insert_reminder d patient medication text :
  In (seq (reminders d) + 1, medication, text)
     (list_reminders (insert_reminder d patient medication text) patient)
  /\ List.length
       (list_reminders (insert_reminder d patient medication text) patient)
     = S (List.length (list_reminders d patient)).
Proof.
  unfold list_reminders, reminders_in_order.
  unfold insert_reminder, insert_row.
  cbn [reminders set_reminders rows]. rewrite filter_app_one.
  cbn [rem_patient_name]. rewrite String.eqb_refl. split.
  - apply (in_map (fun r => (rem_id r, rem_medication r, rem_time r))
             _ (mk_reminder (seq (reminders d) + 1) patient medication
                  text 0)).
    apply in_order_by. apply in_or_app. right. now left.
  - rewrite !length_map, !length_order_by, length_app. cbn. lia.
Qed.

(** X11. The status message of a booking tells what happened, for every
    timestamp, naive or aware.  Either the answer is
    ["✅ Appointment booked!"], and then the list of the patient has one
    entry more, which carries the next rowid, the doctor and what
    [datetime()] makes of the stored UTC time: that time to the second,
    or NULL when it lies in the last half millisecond of the year 9999;
    or the answer is ["❌ Error: "] with the text of the exception, and
    then the database is the one of before.  The same holds of
    [set_medicine_reminder], whose new entry carries a +05:30 text. *)
Theorem status_messages_are_truthful (d : db) (who what : string)
    (t : datetime) :
  ((fst (book_appointment d who what t) = "✅ Appointment booked!"
    /\ (exists utc,
          valid_datetime utc /\ tzinfo utc = Some 0
          /\ In (seq (appointments d) + 1, what,
                 if to_us utc + 500 <=? MAX_US
                 then Some (format_date_time " " utc) else None)
                (list_appointments (snd (book_appointment d who what t))
                   who))
    /\ List.length
         (list_appointments (snd (book_appointment d who what t)) who)
       = S (List.length (list_appointments d who)))
   \/ (exists x,
         book_appointment d who what t = ("❌ Error: " ++ str x, d)))
  /\ ((fst (set_medicine_reminder d who what t)
       = "✅ Medicine reminder set!"
       /\ (exists ist,
             valid_datetime ist /\ tzinfo ist = Some 19800
             /\ In (seq (reminders d) + 1, what, isoformat ist)
                   (list_reminders
                      (snd (set_medicine_reminder d who what t)) who))
       /\ List.length
            (list_reminders (snd (set_medicine_reminder d who what t)) who)
          = S (List.length (list_reminders d who)))
      \/ (exists x,
            set_medicine_reminder d who what t
            = ("❌ Error: " ++ str x, d))).
Proof.
  split.
  - destruct (book_appointment_cases d who what t)
      as [[x E] | [n [Hn E]]]; [right; now exists x|].
    left. rewrite E. cbn [fst snd]. split; [reflexivity|].
    destruct (at_zone_spec n UTC) as (V & T & _).
    { change (zone_utcoffset UTC) with 0. lia. }
    destruct (listed_after_insert_appointment d who what
                (isoformat (at_zone n UTC))) as [Hin Hlen].
    split; [|exact Hlen].
    exists (at_zone n UTC). split; [exact V|]. split; [exact T|].
    destruct (Z.leb_spec (to_us (at_zone n UTC) + 500) MAX_US) as [R|R].
    + rewrite <- (sqlite_datetime_isoformat _ V T R). exact Hin.
    + rewrite <- (sqlite_datetime_null _ V T R). exact Hin.
  - destruct (set_medicine_reminder_cases d who what t)
      as [[x E] | [n [Hn E]]]; [right; now exists x|].
    left. rewrite E. cbn [fst snd]. split; [reflexivity|].
    destruct (at_zone_spec n Asia_Kolkata Hn) as (V & T & _).
    destruct (listed_after_insert_reminder d who what
                (isoformat (at_zone n Asia_Kolkata))) as [Hin Hlen].
    split; [|exact Hlen].
    exists (at_zone n Asia_Kolkata). split; [exact V|]. split; [exact T|].
    exact Hin.
Qed.

End Messages.

(** *** What a signup writes *)

(** X12. [signup] writes exactly when it answers ["✅ Signup successful!"].
    Then the username had no row, the new row has the next rowid and
    holds what [hashpw] returned for the password, and it is the row
    [login] will fetch.  With every other answer the database is the one
    of before. *)
Theorem signup_writes_only_on_success {host : Host} (d : db)
    (salt u p e : string) :
  (fst (signup d salt u p e) = "✅ Signup successful!"
   /\ credentials d u = None
   /\ exists hashed,
        hashpw p salt = inr hashed
        /\ snd (signup d salt u p e)
           = set_users d
               (insert_row (users d) (fun id => mk_user id u hashed e))
        /\ credentials (snd (signup d salt u p e)) u
           = Some (mk_user (seq (users d) + 1) u hashed e))
  \/ (fst (signup d salt u p e) <> "✅ Signup successful!"
      /\ snd (signup d salt u p e) = d).
Proof.
  destruct (signup_cases d salt u p e)
    as [[_ E] | [[_ [x [_ [_ E]]]] | [[_ [x [_ [_ E]]]]
        | [[_ [_ [_ E]]] | [_ [N [h [Hh E]]]]]]]];
    rewrite E; cbn [fst snd];
    try (right; split; [intros H; discriminate H | reflexivity]).
  left. split; [reflexivity|].
  split; [now apply find_none_existsb|].
  exists h. split; [exact Hh|]. split; [reflexivity|].
  unfold credentials, set_users, insert_row. cbn [users rows].
  apply find_none_existsb in N.
  induction (rows (users d)) as [|r l IH].
  - cbn. now rewrite String.eqb_refl.
  - cbn in N |- *. destruct (String.eqb (user_username r) u);
      [discriminate|]. now apply IH.
Qed.

Lemma signup_writes_only_on_success_witness :
  credentials
    (snd (signup (host := strict_host) empty_db "salt" "asha" "secret"
            "a@example.org")) "asha"
  = Some (mk_user 1 "asha" "secret" "a@example.org")
  /\ snd (signup (host := strict_host) empty_db "salt" "asha" long_password
            "a@example.org") = empty_db.
Proof.
  split.
  - reflexivity.
  - destruct (signup_writes_only_on_success (host := strict_host) empty_db
                "salt" "asha" long_password "a@example.org")
      as [[H _] | [_ H]].
    + discriminate H.
    + exact H.
Defined.

(** *** Cancelling what was just added *)

Lemma delete_last_inserted {A} (idf : A -> Z) (t : table A) mk :
  ids_ok idf t -> (forall i, idf (mk i) = i) ->
  rows (delete_where (fun r => idf r =? seq t + 1) (insert_row t mk))
  = rows t.
Proof.
  intros (_ & F & _) Hmk. unfold delete_where, insert_row. cbn [rows seq].
  rewrite filter_app_one, Hmk, Z.eqb_refl. cbn [negb].
  rewrite app_nil_r. apply filter_all.
  rewrite Forall_forall in F. intros r Hr.
  apply negb_true_iff, Z.eqb_neq. specialize (F r Hr). lia.
Qed.

(** X22. Cancelling a new booking restores every list.  On a database the
    program can be in, when [book_appointment] answers
    ["✅ Appointment booked!"], deleting the id it gave out (the next
    rowid, a 64-bit integer as every rowid of SQLite is) leaves the
    appointment list of every patient as it was before the booking.  The
    same holds of a reminder that was just set. *)
Theorem cancelling_restores_the_lists {host : Host} (d : db)
    (who what : string) (t : datetime) (patient : string) :
  reachable d ->
  (fst (book_appointment d who what t) = "✅ Appointment booked!" ->
   seq (appointments d) + 1 < 9223372036854775808 ->
   list_appointments
     (snd (delete_appointment (snd (book_appointment d who what t))
             (seq (appointments d) + 1))) patient
   = list_appointments d patient)
  /\ (fst (set_medicine_reminder d who what t)
      = "✅ Medicine reminder set!" ->
      seq (reminders d) + 1 < 9223372036854775808 ->
      list_reminders
        (snd (delete_medicine_reminder
                (snd (set_medicine_reminder d who what t))
                (seq (reminders d) + 1))) patient
      = list_reminders d patient).
Proof.
  intros R. apply reachable_invariant in R. split.
  - destruct (book_appointment_cases d who what t)
      as [[x E] | [n [Hn E]]]; rewrite E; cbn [fst snd].
    + intros H. discriminate H.
    + intros _ B. rewrite delete_appointment_in_range
        by (pose proof (proj2 (proj2 (inv_appointment_ids d R))); lia).
      unfold list_appointments, appointments_in_order.
      cbn [snd]. unfold insert_appointment.
      cbn [appointments set_appointments].
      rewrite (delete_last_inserted appt_id (appointments d)
                 (fun id => mk_appointment id who what
                              (isoformat (at_zone n UTC)))
                 (inv_appointment_ids d R) (fun i => eq_refl)).
      reflexivity.
  - destruct (set_medicine_reminder_cases d who what t)
      as [[x E] | [n [Hn E]]]; rewrite E; cbn [fst snd].
    + intros H. discriminate H.
    + intros _ B. rewrite delete_medicine_reminder_in_range
        by (pose proof (proj2 (proj2 (inv_reminder_ids d R))); lia).
      unfold list_reminders, reminders_in_order.
      cbn [snd]. unfold insert_reminder.
      cbn [reminders set_reminders].
      rewrite (delete_last_inserted rem_id (reminders d)
                 (fun id => mk_reminder id who what
                              (isoformat (at_zone n Asia_Kolkata)) 0)
                 (inv_reminder_ids d R) (fun i => eq_refl)).
      reflexivity.
Qed.

Lemma cancelling_restores_the_lists_witness :
  reachable (host := utc_host) sample_db
  /\ list_appointments
       (snd (delete_appointment
               (snd (book_appointment (host := utc_host) sample_db "asha"
                       "Dr. Smith (Cardiology)" june_1_10h)) 3)) "asha"
     = list_appointments sample_db "asha".
Proof.
  split; [exact sample_db_reachable|].
  apply (proj1 (cancelling_restores_the_lists (host := utc_host) sample_db
                  "asha" "Dr. Smith (Cardiology)" june_1_10h "asha"
                  sample_db_reachable)).
  - vm_compute. reflexivity.
  - vm_compute. reflexivity.
Defined.

End StoreFacts.

(* ------------------------------------------------------------------ *)
(** ** Properties of the page                                         *)
(* ------------------------------------------------------------------ *)

Module PageFacts.
Import Calendar CalendarFacts Text TextFacts Py Datetime DatetimeFacts.
Import Sqlite SqliteFacts App AppFacts StoreFacts Page.
Local Open Scope string_scope.
Local Open Scope Z_scope.
Local Open Scope py_scope.

(** *** The two tables *)

Lemma valid_wall_seconds dt : valid_datetime dt -> valid_datetime (wall_seconds dt).
Proof.
  rewrite !valid_datetime_iff. unfold wall_seconds.
  cbn [year month day hour minute second microsecond tzinfo valid_offset].
  intros (D & H & M & S & U & T). repeat split; try assumption; try lia;
    try apply D; try apply H; try apply M; try apply S.
Qed.

(** [fromisoformat] reads the text of [datetime()] as the naive value of
    its six fields. *)
Lemma fromisoformat_date_time c dt :
  valid_datetime dt ->
  fromisoformat (format_date_time (String c "") dt) = Some (wall_seconds dt).
Proof.
  intros V. pose proof (valid_wall_seconds dt V) as VW.
  pose proof V as V'. rewrite valid_datetime_iff in V'.
  destruct V' as ((Y & Mo & D) & H & M & S & U & T).
  pose proof (days_in_month_bounds (year dt) _ Mo).
  unfold MINYEAR, MAXYEAR in *.
  destruct dt as [y m d hh mi ss us tz].
  unfold wall_seconds in *.
  cbn [year month day hour minute second microsecond tzinfo] in *.
  unfold format_date_time, fromisoformat.
  cbn [year month day hour minute second microsecond tzinfo].
  rewrite read4_pad4 by lia. cbn [append]. rewrite expect_head.
  rewrite read2_pad2 by lia. cbn [append]. rewrite expect_head.
  rewrite read2_pad2 by lia. cbn [append].
  rewrite read2_pad2 by lia. cbn [append]. rewrite expect_head.
  rewrite read2_pad2 by lia. cbn [append]. rewrite expect_head.
  rewrite <- (append_nil_r (pad2 ss)). rewrite read2_pad2 by lia.
  cbn [expect read_offset]. now rewrite VW.
Qed.

Lemma parse_rows_all {A R} (read : A -> option string)
    (f : R -> Z * string * A) (Q : R -> datetime -> Prop) l :
  (forall r, In r l ->
     exists text dt, read (snd (f r)) = Some text
                     /\ fromisoformat text = Some dt /\ Q r dt) ->
  exists cells,
    parse_rows read (map f l) = Some cells
    /\ Forall2 (fun r cell =>
                  exists dt, Q r dt
                             /\ cell = (fst (fst (f r)), snd (fst (f r)), dt))
               l cells.
Proof.
  induction l as [|r l IH]; intros H.
  - exists []. split; [reflexivity|constructor].
  - destruct IH as (cells & E & F).
    { intros r' Hr'. apply H. now right. }
    destruct (H r (or_introl eq_refl)) as (text & dt & Hread & Hparse & HQ).
    exists ((fst (fst (f r)), snd (fst (f r)), dt) :: cells). split.
    + cbn [map parse_rows]. destruct (f r) as [[id a] t].
      cbn [fst snd] in *. now rewrite Hread, Hparse, E.
    + constructor; [now exists dt | exact F].
Qed.

(** The table of the sample: the stored texts end in [+00:00], the cells
    are naive. *)
Example appointments_table_of_the_sample :
  appointments_table sample_db "asha"
  = Some [(2, "Dr. Jones (Pediatrics)",
           mk_datetime 2025 5 20 3 45 0 0 None);
          (1, "Dr. Smith (Cardiology)",
           mk_datetime 2025 6 1 4 30 0 0 None)].
Proof. vm_compute. reflexivity. Qed.

(** X14. The reminder table never fails on a database the program can be
    in, and the time it holds for each reminder is the stored value
    itself: an aware value at the offset +05:30. *)
Theorem reminders_table_never_fails {host : Host} (d : db)
    (patient : string) :
  reachable d ->
  exists cells,
    reminders_table d patient = Some cells
    /\ Forall2 (fun r cell =>
                  exists ist,
                    valid_datetime ist /\ tzinfo ist = Some 19800
                    /\ rem_time r = isoformat ist
                    /\ cell = (rem_id r, rem_medication r, ist))
               (reminders_in_order d patient) cells.
Proof.
  intros R. apply reachable_invariant in R.
  pose proof (inv_reminder_local d R) as U. rewrite Forall_forall in U.
  unfold reminders_table, list_reminders.
  destruct (parse_rows_all Some
              (fun r => (rem_id r, rem_medication r, rem_time r))
              (fun r dt => valid_datetime dt /\ tzinfo dt = Some 19800
                           /\ rem_time r = isoformat dt)
              (reminders_in_order d patient)) as (cells & E & F).
  { intros r Hr. apply in_reminders_in_order in Hr.
    destruct Hr as [Hr _]. destruct (U r Hr) as (ist & V & T & Et).
    exists (rem_time r), ist. cbn [snd]. split; [reflexivity|].
    split; [rewrite Et; now apply fromisoformat_isoformat|]. auto. }
  exists cells. split; [exact E|].
  eapply Forall2_impl; [|exact F].
  intros r cell (dt & (V & T & Et) & ->). now exists dt.
Qed.

Lemma reminders_table_never_fails_witness :
  reachable (host := utc_host) sample_db
  /\ exists cells, reminders_table sample_db "asha" = Some cells.
Proof.
  split; [exact sample_db_reachable|].
  destruct (reminders_table_never_fails (host := utc_host) sample_db
              "asha" sample_db_reachable) as (cells & E & _).
  now exists cells.
Defined.

(** *** The appointment form *)

Lemma localize_inr t l :
  valid_datetime t -> localize Asia_Kolkata t = inr l ->
  tzinfo t = None /\ 19800 * 1000000 <= to_us t
  /\ l = replace_tzinfo t (Some 19800).
Proof.
  intros V L.
  assert (N : tzinfo t = None).
  { unfold localize, is_naive in L. destruct (tzinfo t); [discriminate|].
    reflexivity. }
  destruct (Z_le_dec (19800 * 1000000) (to_us t)) as [R|R].
  - rewrite (localize_naive t V N R) in L. apply ret_inj in L.
    split; [exact N|]. split; [exact R|]. now symmetry.
  - rewrite (localize_overflow t V N) in L by lia. discriminate.
Qed.

Section Form.
Context {host : Host}.

Lemma book_localized d patient doctor t :
  valid_datetime t -> tzinfo t = None -> 19800 * 1000000 <= to_us t ->
  book_appointment d patient doctor (replace_tzinfo t (Some 19800))
  = book_appointment d patient doctor t.
Proof.
  intros V N R. unfold book_appointment at 2.
  unfold is_naive at 1. rewrite N.
  rewrite (localize_naive t V N R). reflexivity.
Qed.

(** X15. The appointment form localizes the date and time of its widgets
    itself before it calls [book_appointment], and this changes nothing:
    for a naive value whose UTC value is in the calendar (any but the
    first five and a half hours of the year 1) the run stores what
    [book_appointment] stores for the naive value, under the username of
    the session: the UTC text of the date and time read in
    Asia/Kolkata. *)
Theorem appointment_form_books_for_the_session (s : session) (d : db)
    (doc : string) (dt : datetime) :
  valid_datetime dt -> tzinfo dt = None -> 19800 * 1000000 <= to_us dt ->
  appointment_form (Some (doc, dt)) (s, d)
  = Some (s, snd (book_appointment d (username s) doc dt))
  /\ snd (book_appointment d (username s) doc dt)
     = insert_appointment d (username s) doc
         (isoformat (at_zone (to_us dt - 19800 * 1000000) UTC)).
Proof.
  intros V N R. split.
  - unfold appointment_form.
    rewrite (localize_naive dt V N R). unfold ret. cbv beta iota.
    now rewrite (book_localized d (username s) doc dt V N R).
  - now rewrite (book_naive_in_range d (username s) doc dt V N R).
Qed.

End Form.

Lemma appointment_form_books_for_the_session_witness :
  valid_datetime june_1_10h /\ tzinfo june_1_10h = None
  /\ 19800 * 1000000 <= to_us june_1_10h
  /\ appointment_form (host := utc_host)
       (Some ("Dr. Smith (Cardiology)", june_1_10h))
       (mk_session true "asha" [], empty_db)
     = Some (mk_session true "asha" [],
             insert_appointment empty_db "asha" "Dr. Smith (Cardiology)"
               "2025-06-01T04:30:00+00:00").
Proof.
  assert (R : 19800 * 1000000 <= to_us june_1_10h)
    by (vm_compute; discriminate).
  split; [reflexivity|]. split; [reflexivity|]. split; [exact R|].
  refine (eq_trans
            (proj1 (appointment_form_books_for_the_session
                      (host := utc_host) (mk_session true "asha" [])
                      empty_db "Dr. Smith (Cardiology)" june_1_10h
                      eq_refl eq_refl R)) _).
  vm_compute. reflexivity.
Defined.

(** *** What one run does *)

Lemma healthcare_chatbot_reply {host : Host} (user_input : string) :
  exists text, healthcare_chatbot user_input = ret text /\ reply_shape text.
Proof.
  unfold healthcare_chatbot, reply_shape.
  destruct (chatbot user_input) as [x | [|first more]].
  - exists ("Error: " ++ str x). split; [reflexivity|]. left.
    now exists (str x).
  - exists "Error: list index out of range". split; [reflexivity|].
    left. now exists "list index out of range".
  - rewrite bind_ret. cbn [getitem0]. rewrite bind_ret.
    destruct (getitem first "generated_text") as [x | response].
    + exists ("Error: " ++ str x). split; [reflexivity|]. left.
      now exists (str x).
    + exists (response ++ newline ++ newline ++ "⚠️ " ++ disclaimer).
      split; [reflexivity|]. right. now exists response.
Qed.

Lemma exchanges_app l l' :
  exchanges l -> exchanges l' -> exchanges (l ++ l').
Proof.
  intros H H'.
  assert (G : forall n l, (List.length l <= n)%nat ->
                          exchanges l -> exchanges (l ++ l')).
  { clear l H. induction n as [|n IH]; intros l Hn H.
    - destruct l; [exact H'|cbn in Hn; lia].
    - destruct l as [|a [|b l]]; [exact H' | destruct H |].
      destruct H as (A & B & C). cbn [exchanges app].
      split; [exact A|]. split; [exact B|].
      apply IH; [cbn in Hn; lia | exact C]. }
  now apply (G (List.length l)).
Qed.

Lemma truthy_nonempty s : truthy s = true -> s <> "".
Proof.
  unfold truthy. intros H E. subst s. discriminate.
Qed.

Lemma find_last {A} (f : A -> bool) l x :
  f x = true -> find f (l ++ [x]) <> None.
Proof.
  intros H. induction l as [|y l IH]; cbn.
  - now rewrite H.
  - destruct (f y); [discriminate|exact IH].
Qed.

Section Runs.
Context {host : Host}.

Lemma registered_run d o u : registered d u -> registered (run d o) u.
Proof.
  unfold registered. intros H.
  destruct (credentials d u) as [row|] eqn:E; [|now destruct H].
  now rewrite (run_keeps_credentials d o u row E).
Qed.

Lemma run_profiles d o :
  profiles (run d o) = profiles d
  \/ exists u mk,
       match o with
       | UpsertPicture q _ | UpsertProfile q _ _ _ _ _ _ _ _ => q = u
       | _ => False
       end
       /\ (forall i, prof_username (mk i) = u)
       /\ profiles (run d o)
          = insert_row
              (delete_where (fun r => String.eqb (prof_username r) u)
                 (profiles d)) mk.
Proof.
  destruct o as [salt u p e | patient doctor when | id | patient med when
                 | id | u pic | u n a mh al me bt h w]; cbn [run].
  - left. apply signup_tables.
  - left.
    destruct (book_appointment_cases d patient doctor when)
      as [[x E] | [n [Hn E]]]; rewrite E; reflexivity.
  - left. destruct (delete_appointment_cases d id) as [E|E]; now rewrite E.
  - left.
    destruct (set_medicine_reminder_cases d patient med when)
      as [[x E] | [n [Hn E]]]; rewrite E; reflexivity.
  - left.
    destruct (delete_medicine_reminder_cases d id) as [E|E]; now rewrite E.
  - right. eexists u, _. split; [reflexivity|]. split; [|reflexivity].
    reflexivity.
  - right. eexists u, _. split; [reflexivity|]. split; [|reflexivity].
    reflexivity.
Qed.

(** The rows keep owners through a call whose patient or username is
    registered. *)
Lemma owners_run d o :
  match o with
  | Book q _ _ | SetReminder q _ _ | UpsertPicture q _
  | UpsertProfile q _ _ _ _ _ _ _ _ => registered d q
  | _ => True
  end ->
  Forall (fun r => registered d (appt_patient_name r))
         (rows (appointments d))
  /\ Forall (fun r => registered d (rem_patient_name r))
            (rows (reminders d))
  /\ Forall (fun r => registered d (prof_username r))
            (rows (profiles d)) ->
  Forall (fun r => registered (run d o) (appt_patient_name r))
         (rows (appointments (run d o)))
  /\ Forall (fun r => registered (run d o) (rem_patient_name r))
            (rows (reminders (run d o)))
  /\ Forall (fun r => registered (run d o) (prof_username r))
            (rows (profiles (run d o))).
Proof.
  intros Ho (FA & FR & FP).
  assert (FA' : Forall (fun r => registered (run d o) (appt_patient_name r))
                       (rows (appointments d))).
  { eapply Forall_impl; [|exact FA]. intros r. apply registered_run. }
  assert (FR' : Forall (fun r => registered (run d o) (rem_patient_name r))
                       (rows (reminders d))).
  { eapply Forall_impl; [|exact FR]. intros r. apply registered_run. }
  assert (FP' : Forall (fun r => registered (run d o) (prof_username r))
                       (rows (profiles d))).
  { eapply Forall_impl; [|exact FP]. intros r. apply registered_run. }
  split; [|split].
  - destruct (run_appointments d o)
      as [E | [(q & doc & w & n & Eo & _ & E) | (id & _ & E)]]; rewrite E.
    + exact FA'.
    + unfold insert_row. cbn [rows]. apply Forall_app. split; [exact FA'|].
      constructor; [|constructor]. cbn [appt_patient_name].
      apply registered_run. subst o. exact Ho.
    + unfold delete_where. cbn [rows]. now apply Forall_filter.
  - destruct (run_reminders d o)
      as [E | [(q & med & w & n & Eo & _ & E) | (id & _ & E)]]; rewrite E.
    + exact FR'.
    + unfold insert_row. cbn [rows]. apply Forall_app. split; [exact FR'|].
      constructor; [|constructor]. cbn [rem_patient_name].
      apply registered_run. subst o. exact Ho.
    + unfold delete_where. cbn [rows]. now apply Forall_filter.
  - destruct (run_profiles d o) as [E | (u & mk & Eo & Hmk & E)]; rewrite E.
    + exact FP'.
    + unfold insert_row, delete_where. cbn [rows].
      apply Forall_app. split; [now apply Forall_filter|].
      constructor; [|constructor]. rewrite Hmk.
      apply registered_run.
      destruct o; try destruct Eo; exact Ho.
Qed.

End Runs.

Lemma run_blocks_keeps (P : state -> Prop) blocks :
  (forall block st st',
     In block blocks -> P st -> block st = Some st' -> P st') ->
  forall st, P st -> P (run_blocks blocks st).
Proof.
  induction blocks as [|block blocks IH]; intros H st Hst; [exact Hst|].
  cbn [run_blocks]. destruct (block st) as [st'|] eqn:E; [|exact Hst].
  apply IH.
  - intros b s s' Hb. apply H. now right.
  - apply (H block st st'); [now left | exact Hst | exact E].
Qed.

Section Effects.
Context {host : Host}.

(** What a block of the main interface does to the state: the login and
    the username stay; either the database stays and the history stays or
    gains one exchange, or the history stays and the database changes by
    one call, which is made under the username of the session unless it
    is a deletion. *)
Lemma block_effect (i : inputs) block s d s' d' :
  In block (main_interface i) -> block (s, d) = Some (s', d') ->
  logged_in s' = logged_in s /\ username s' = username s
  /\ ((d' = d
       /\ (messages s' = messages s
           \/ exists you ai,
                messages s' = (messages s ++ [you; ai])%list
                /\ exchanges [you; ai]))
      \/ (messages s' = messages s
          /\ exists o,
               d' = run d o /\ (valid_inputs i -> well_formed o)
               /\ match o with
                  | Book q _ _ | SetReminder q _ _ | UpsertPicture q _
                  | UpsertProfile q _ _ _ _ _ _ _ _ => q = username s
                  | DeleteAppointment _ | DeleteReminder _ => True
                  | Signup _ _ _ _ => False
                  end)).
Proof.
  intros Hin Hb. cbn [main_interface In] in Hin.
  assert (Same : forall a b : state, Some a = Some b -> a = b)
    by (intros a b H; now injection H).
  assert (Stay : Some (s, d) = Some (s', d') ->
                 logged_in s' = logged_in s /\ username s' = username s
                 /\ ((d' = d
                      /\ (messages s' = messages s
                          \/ exists you ai,
                               messages s' = (messages s ++ [you; ai])%list
                               /\ exchanges [you; ai]))
                     \/ (messages s' = messages s
                         /\ exists o,
                              d' = run d o
                              /\ (valid_inputs i -> well_formed o)
                              /\ match o with
                                 | Book q _ _ | SetReminder q _ _
                                 | UpsertPicture q _
                                 | UpsertProfile q _ _ _ _ _ _ _ _ =>
                                     q = username s
                                 | DeleteAppointment _
                                 | DeleteReminder _ => True
                                 | Signup _ _ _ _ => False
                                 end))).
  { intros H. apply Same in H. injection H as <- <-.
    split; [reflexivity|]. split; [reflexivity|]. left.
    split; [reflexivity|]. now left. }
  assert (Call : forall o,
            (valid_inputs i -> well_formed o) ->
            match o with
            | Book q _ _ | SetReminder q _ _ | UpsertPicture q _
            | UpsertProfile q _ _ _ _ _ _ _ _ => q = username s
            | DeleteAppointment _ | DeleteReminder _ => True
            | Signup _ _ _ _ => False
            end ->
            Some (s, run d o) = Some (s', d') ->
            logged_in s' = logged_in s /\ username s' = username s
            /\ ((d' = d
                 /\ (messages s' = messages s
                     \/ exists you ai,
                          messages s' = (messages s ++ [you; ai])%list
                          /\ exchanges [you; ai]))
                \/ (messages s' = messages s
                    /\ exists o,
                         d' = run d o
                         /\ (valid_inputs i -> well_formed o)
                         /\ match o with
                            | Book q _ _ | SetReminder q _ _
                            | UpsertPicture q _
                            | UpsertProfile q _ _ _ _ _ _ _ _ =>
                                q = username s
                            | DeleteAppointment _
                            | DeleteReminder _ => True
                            | Signup _ _ _ _ => False
                            end))).
  { intros o Hw Ho H. apply Same in H. injection H as <- <-.
    split; [reflexivity|]. split; [reflexivity|]. right.
    split; [reflexivity|]. now exists o. }
  destruct Hin as [<-|[<-|[<-|[<-|[<-|[<-|[<-|[<-|[]]]]]]]]].
  - (* the chat tab *)
    unfold chat_tab in Hb. destruct (prompt i) as [p|]; [|now apply Stay].
    destruct (truthy p) eqn:T; [|now apply Stay].
    destruct (healthcare_chatbot_reply p) as (text & E & Sh).
    rewrite E in Hb. unfold ret in Hb. apply Same in Hb.
    injection Hb as <- <-. cbn [logged_in username messages].
    split; [reflexivity|]. split; [reflexivity|]. left.
    split; [reflexivity|]. right.
    exists ("**You:** " ++ p), ("**AI:** " ++ text).
    split; [reflexivity|]. cbn [exchanges].
    split; [exists p; split; [now apply truthy_nonempty|reflexivity]|].
    split; [now exists text|exact I].
  - (* the appointment form *)
    unfold appointment_form in Hb.
    destruct (appointment i) as [[doc dt]|] eqn:A; [|now apply Stay].
    destruct (localize Asia_Kolkata dt) as [x|l] eqn:L; [discriminate|].
    apply (Call (Book (username s) doc l)); [|reflexivity|exact Hb].
    intros [V _]. rewrite A in V. cbn [well_formed].
    destruct (localize_inr dt l V L) as (_ & _ & ->).
    apply valid_replace_tzinfo; [exact V|]. cbn [valid_offset]. lia.
  - (* the list of appointments and its delete button *)
    unfold appointments_list in Hb.
    destruct (list_appointments d (username s)); [now apply Stay|].
    destruct (appointments_table d (username s)); [|discriminate].
    destruct (appointment_id_to_delete i) as [id|]; [|now apply Stay].
    destruct (id =? 0); [now apply Stay|].
    apply (Call (DeleteAppointment id)); [intros _; exact I|exact I|exact Hb].
  - (* the list of reminders *)
    unfold reminders_list in Hb.
    destruct (reminders_table d (username s)); [now apply Stay|discriminate].
  - (* the delete button of the reminders *)
    unfold delete_reminder_button in Hb.
    destruct (reminder_id_to_delete i) as [id|]; [|now apply Stay].
    destruct (id =? 0); [now apply Stay|].
    apply (Call (DeleteReminder id)); [intros _; exact I|exact I|exact Hb].
  - (* the reminder form *)
    unfold reminder_form in Hb.
    destruct (reminder i) as [[med dt]|] eqn:A; [|now apply Stay].
    apply (Call (SetReminder (username s) med dt)); [|reflexivity|exact Hb].
    intros [_ V]. rewrite A in V. exact V.
  - (* the picture upload *)
    unfold picture_upload in Hb.
    destruct (uploaded_file i) as [pic|]; [|now apply Stay].
    destruct (st_image pic); [|discriminate].
    apply (Call (UpsertPicture (username s) pic));
      [intros _; exact I|reflexivity|exact Hb].
  - (* the profile form *)
    unfold profile_form in Hb.
    destruct (profile i) as [f|]; [|now apply Stay].
    apply (Call (UpsertProfile (username s) (full_name f) (age f)
                   (medical_history f) (allergies f) (medications f)
                   (blood_type f) (height f) (weight f)));
      [intros _; exact I|reflexivity|exact Hb].
Qed.

(** What the sidebar does: the history stays; the database stays or
    changes by one signup; the login stays as it was or a user is logged
    in, who then has a row in [users]. *)
Lemma sidebar_effect a s d s' d' :
  sidebar a (s, d) = (s', d') ->
  messages s' = messages s
  /\ (d' = d \/ exists salt u p e, d' = run d (Signup salt u p e))
  /\ ((logged_in s' = logged_in s /\ username s' = username s)
      \/ (logged_in s' = true
          /\ (plain_errors host -> registered d' (username s')))).
Proof.
  assert (Stay : (s, d) = (s', d') ->
                 messages s' = messages s
                 /\ (d' = d \/ exists salt u p e, d' = run d (Signup salt u p e))
                 /\ ((logged_in s' = logged_in s /\ username s' = username s)
                     \/ (logged_in s' = true
                         /\ (plain_errors host ->
                             registered d' (username s'))))).
  { intros [= <- <-]. split; [reflexivity|]. split; [now left|].
    left. split; reflexivity. }
  destruct a as [[salt email u p | u p]|]; cbn [sidebar];
    [| |exact Stay].
  - (* the signup form *)
    unfold signup_form.
    destruct (truthy email && truthy u && truthy p); [|exact Stay].
    pose proof (signup_cases d salt u p email) as Cases.
    destruct (signup d salt u p email) as [msg d1] eqn:E.
    assert (Ed : d1 = run d (Signup salt u p email))
      by (cbn [run]; now rewrite E).
    destruct (contains "✅" msg) eqn:C.
    + intros [= <- <-]. cbn [messages logged_in username].
      split; [reflexivity|]. split; [right; now exists salt, u, p, email|].
      right. split; [reflexivity|]. intros Plain.
      destruct Cases
        as [[_ E'] | [[_ [x [Hx [_ E']]]] | [[_ [x [_ [_ E']]]]
            | [[_ [_ [_ E']]] | [_ [_ [h [_ E']]]]]]]];
        injection E' as Em Ed'; subst msg.
      * discriminate C.
      * change (contains "✅" (str x) = true) in C.
        rewrite (Plain p salt x Hx) in C. discriminate C.
      * discriminate C.
      * discriminate C.
      * rewrite Ed'. unfold registered, credentials, set_users, insert_row.
        cbn [users rows]. apply find_last. cbn [user_username].
        apply String.eqb_refl.
    + intros [= <- <-].
      split; [reflexivity|]. split; [right; now exists salt, u, p, email|].
      left. split; reflexivity.
  - (* the login form *)
    unfold login_form.
    destruct (truthy u && truthy p); [|exact Stay].
    destruct (contains "✅" (login d u p)) eqn:C.
    + intros [= <- <-]. cbn [messages logged_in username].
      split; [reflexivity|]. split; [now left|].
      right. split; [reflexivity|]. intros _.
      unfold registered. unfold login in C. fold (credentials d u) in C.
      destruct (credentials d u) as [row|]; [discriminate|].
      discriminate C.
    + intros [= <- <-]. split; [reflexivity|]. split; [now left|].
      left. split; reflexivity.
Qed.

End Effects.

(** *** Sequences of runs *)

Lemma fold_script_keeps {host : Host} (P : state -> Prop) runs :
  (forall st i, In i runs -> P st -> P (script st i)) ->
  forall st, P st -> P (fold_left script runs st).
Proof.
  induction runs as [|i runs IH]; intros H st Hst; [exact Hst|].
  cbn [fold_left]. apply IH.
  - intros st' i' Hi. apply H. now right.
  - apply H; [now left | exact Hst].
Qed.

Lemma extends_refl {A} (l : list A) : extends l l.
Proof. exists []. now rewrite app_nil_r. Qed.

Lemma extends_trans {A} (l1 l2 l3 : list A) :
  extends l1 l2 -> extends l2 l3 -> extends l1 l3.
Proof.
  intros [m1 ->] [m2 ->]. exists (m1 ++ m2)%list. now rewrite app_assoc.
Qed.

Section Sessions.
Context {host : Host}.

Lemma display_same st st' :
  profile_picture_display st = Some st' -> st' = st.
Proof.
  destruct st as [s d]. unfold profile_picture_display.
  destruct (get_profile_picture d (username s)) as [image_data|].
  - destruct (st_image image_data); [|discriminate].
    intros H. now injection H.
  - intros H. now injection H.
Qed.

(** A run is the sidebar alone, or the sidebar and then the tabs. *)
Lemma script_cases st i :
  script st i = sidebar (auth i) st
  \/ (logged_in (fst (sidebar (auth i) st)) = true
      /\ script st i = run_blocks (main_interface i) (sidebar (auth i) st)).
Proof.
  unfold script.
  destruct (profile_picture_display (sidebar (auth i) st)) as [st'|] eqn:D;
    [|now left].
  apply display_same in D. subst st'.
  destruct (logged_in (fst (sidebar (auth i) st))); [right|left]; auto.
Qed.

Lemma script_session st i :
  (logged_in (fst st) = true -> logged_in (fst (script st i)) = true)
  /\ extends (messages (fst st)) (messages (fst (script st i)))
  /\ (exchanges (messages (fst st)) ->
      exchanges (messages (fst (script st i)))).
Proof.
  destruct st as [s d]. pose proof (script_cases (s, d) i) as C.
  destruct (sidebar (auth i) (s, d)) as [s1 d1] eqn:S.
  apply sidebar_effect in S. destruct S as (M & _ & L). cbn [fst] in *.
  assert (Q1 : (logged_in s = true -> logged_in s1 = true)
               /\ extends (messages s) (messages s1)
               /\ (exchanges (messages s) -> exchanges (messages s1))).
  { rewrite M. split; [|split; [apply extends_refl|auto]].
    destruct L as [[L _]|[L _]]; rewrite L; auto. }
  destruct C as [E | [L1 E]]; rewrite E; [exact Q1|].
  apply (run_blocks_keeps
           (fun st' => (logged_in s = true -> logged_in (fst st') = true)
                       /\ extends (messages s) (messages (fst st'))
                       /\ (exchanges (messages s) ->
                           exchanges (messages (fst st'))))).
  - intros block [s2 d2] [s3 d3] Hin (Q & X & Y) Hb. cbn [fst] in *.
    destruct (block_effect i block s2 d2 s3 d3 Hin Hb)
      as (EL & _ & [[_ [EM | (you & ai & EM & EX)]] | [EM _]]);
      rewrite EL, EM.
    + auto.
    + split; [exact Q|]. split.
      * apply (extends_trans _ _ _ X). now exists [you; ai].
      * intros H. apply exchanges_app; auto.
    + auto.
  - exact Q1.
Qed.

(** X16. There is no way to log out: once a user is logged in, the session
    stays logged in through every later run, whatever is pressed or
    submitted in it, a failed login included. *)
Theorem no_run_logs_out (runs : list inputs) (st : state) :
  logged_in (fst st) = true ->
  logged_in (fst (fold_left script runs st)) = true.
Proof.
  apply (fold_script_keeps (fun st' => logged_in (fst st') = true)).
  intros st' i _. apply script_session.
Qed.

(** X17. The chat history is never cleared: after any runs the history is
    the history of before with more at its end, also when another user
    has logged in meanwhile.  From a fresh session the history is a
    sequence of exchanges: a prompt that is not empty, then a reply that
    is an error text or ends with the disclaimer. *)
Theorem chat_history_is_never_cleared (runs : list inputs) (st : state) :
  extends (messages (fst st)) (messages (fst (fold_left script runs st)))
  /\ exchanges (messages (fst (after_runs runs))).
Proof.
  split.
  - apply (fold_script_keeps
             (fun st' => extends (messages (fst st)) (messages (fst st')))).
    + intros st' i _ X. apply (extends_trans _ _ _ X).
      apply script_session.
    + apply extends_refl.
  - unfold after_runs.
    apply (fold_script_keeps
             (fun st' => exchanges (messages (fst st')))).
    + intros st' i _. apply script_session.
    + exact I.
Qed.

Lemma script_owners st i :
  plain_errors host -> rows_have_owners st -> rows_have_owners (script st i).
Proof.
  intros Plain. destruct st as [s d].
  pose proof (script_cases (s, d) i) as C.
  destruct (sidebar (auth i) (s, d)) as [s1 d1] eqn:S.
  apply sidebar_effect in S. destruct S as (_ & D & L). cbn [fst] in *.
  intros (HL & HT).
  assert (Reg : forall u, registered d u -> registered d1 u).
  { intros u. destruct D as [->|(salt & u' & p & e & ->)]; [auto|].
    apply registered_run. }
  assert (O1 : rows_have_owners (s1, d1)).
  { split.
    - destruct L as [[L U]|[_ L]]; [|auto].
      rewrite L, U. auto.
    - destruct D as [->|(salt & u' & p & e & ->)]; [exact HT|].
      now apply owners_run. }
  destruct C as [E | [L1 E]]; rewrite E; [exact O1|].
  apply (run_blocks_keeps
           (fun st' => rows_have_owners st' /\ logged_in (fst st') = true));
    [|split; [exact O1|exact L1]].
  intros block [s2 d2] [s3 d3] Hin ((HL2 & HT2) & L2) Hb. cbn [fst] in *.
  destruct (block_effect i block s2 d2 s3 d3 Hin Hb)
    as (EL & EU & [[-> _] | [_ (o & -> & _ & Ho)]]).
  - split; [|now rewrite EL]. split; [|exact HT2]. now rewrite EL, EU.
  - split; [|now rewrite EL]. split.
    + rewrite EL, EU. intros _. apply registered_run. auto.
    + apply owners_run; [|exact HT2].
      destruct o; try exact I; rewrite Ho; auto.
Qed.

(** X18. Rows have owners.  Provided no exception text of [hashpw] holds a
    check mark, after any runs of a session on a fresh database whoever
    is logged in has a row in [users], and so has the patient of every
    appointment and of every reminder and the username of every
    profile. *)
Theorem rows_belong_to_registered_users (runs : list inputs) :
  plain_errors host -> rows_have_owners (after_runs runs).
Proof.
  intros Plain. unfold after_runs.
  apply (fold_script_keeps rows_have_owners).
  - intros st i _. now apply script_owners.
  - cbn. split; [discriminate|]. repeat split; constructor.
Qed.

Lemma script_reachable st i :
  valid_inputs i -> reachable (snd st) -> reachable (snd (script st i)).
Proof.
  intros V. destruct st as [s d].
  pose proof (script_cases (s, d) i) as C.
  destruct (sidebar (auth i) (s, d)) as [s1 d1] eqn:S.
  apply sidebar_effect in S. destruct S as (_ & D & _). cbn [fst snd] in *.
  intros R.
  assert (R1 : reachable d1).
  { destruct D as [->|(salt & u' & p & e & ->)]; [exact R|].
    apply reach_run; [exact R|exact I]. }
  destruct C as [E | [L1 E]]; rewrite E; [exact R1|].
  apply (run_blocks_keeps (fun st' => reachable (snd st'))); [|exact R1].
  intros block [s2 d2] [s3 d3] Hin R2 Hb. cbn [snd] in *.
  destruct (block_effect i block s2 d2 s3 d3 Hin Hb)
    as (_ & _ & [[-> _] | [_ (o & -> & W & _)]]); [exact R2|].
  apply reach_run; [exact R2|auto].
Qed.

(** X19. The page only produces databases the store calls can reach: after
    any runs whose two forms carry values the [datetime] constructor
    accepts, the database is in the set [reachable], so what holds of
    every reachable database (distinct rowids and usernames, UTC and
    +05:30 texts, a reminder table that does not fail) holds of it. *)
Theorem page_databases_are_reachable (runs : list inputs) :
  Forall valid_inputs runs -> reachable (snd (after_runs runs)).
Proof.
  intros V. rewrite Forall_forall in V. unfold after_runs.
  apply (fold_script_keeps (fun st' => reachable (snd st'))).
  - intros st i Hi. apply script_reachable. now apply V.
  - apply reach_empty.
Qed.

End Sessions.

(** *** What the page keeps true of its database *)

Lemma listable_at_zone n :
  0 <= n -> n + 19800 * 1000000 <= MAX_US ->
  sqlite_datetime (isoformat (at_zone n UTC)) <> None.
Proof.
  intros R1 R2.
  destruct (at_zone_spec n UTC) as (V & T & _).
  { change (zone_utcoffset UTC) with 0. lia. }
  rewrite (sqlite_datetime_isoformat _ V T); [discriminate|].
  rewrite to_us_at_zone; change (zone_utcoffset UTC) with 0; lia.
Qed.

Section Kept.
Context {host : Host}.

(** What a block of the main interface does to the appointments and to
    the profiles. *)
Lemma block_tables (i : inputs) block s d s' d' :
  valid_inputs i ->
  In block (main_interface i) -> block (s, d) = Some (s', d') ->
  (appointments d' = appointments d
   \/ (exists doc n,
         0 <= n /\ n + 19800 * 1000000 <= MAX_US
         /\ appointments d'
            = insert_row (appointments d)
                (fun id => mk_appointment id (username s) doc
                             (isoformat (at_zone n UTC))))
   \/ (exists id,
         appointments d'
         = delete_where (fun r => appt_id r =? id) (appointments d)))
  /\ (profiles d' = profiles d
      \/ (exists mk,
            (forall id, match prof_picture (mk id) with
                        | Some data => st_image data <> None
                        | None => True
                        end)
            /\ profiles d'
               = insert_row
                   (delete_where
                      (fun r => String.eqb (prof_username r) (username s))
                      (profiles d)) mk)).
Proof.
  intros [VA _] Hin Hb. cbn [main_interface In] in Hin.
  assert (Same : forall a b : state, Some a = Some b -> a = b)
    by (intros a b H; now injection H).
  assert (Stay : Some (s, d) = Some (s', d') ->
                 appointments d' = appointments d
                 /\ profiles d' = profiles d).
  { intros H. apply Same in H. injection H as <- <-. auto. }
  destruct Hin as [<-|[<-|[<-|[<-|[<-|[<-|[<-|[<-|[]]]]]]]]].
  - (* the chat tab *)
    assert (E : d' = d).
    { unfold chat_tab in Hb. destruct (prompt i) as [p|];
        [|apply Same in Hb; now injection Hb].
      destruct (truthy p); [|apply Same in Hb; now injection Hb].
      destruct (healthcare_chatbot p); [discriminate|].
      apply Same in Hb. now injection Hb. }
    subst d'. auto.
  - (* the appointment form *)
    unfold appointment_form in Hb.
    destruct (appointment i) as [[doc dt]|];
      [|destruct (Stay Hb) as [-> ->]; auto].
    destruct (localize Asia_Kolkata dt) as [x|l] eqn:L; [discriminate|].
    destruct (localize_inr dt l VA L) as (N & R & ->).
    rewrite (book_localized d (username s) doc dt VA N R) in Hb.
    rewrite (book_naive_in_range d (username s) doc dt VA N R) in Hb.
    apply Same in Hb. injection Hb as <- <-.
    pose proof (to_us_range dt VA) as B. split; [|now left].
    right; left. exists doc, (to_us dt - 19800 * 1000000).
    split; [lia|]. split; [lia|]. reflexivity.
  - (* the list of appointments and its delete button *)
    unfold appointments_list in Hb.
    destruct (list_appointments d (username s));
      [destruct (Stay Hb) as [-> ->]; auto|].
    destruct (appointments_table d (username s)); [|discriminate].
    destruct (appointment_id_to_delete i) as [id|];
      [|destruct (Stay Hb) as [-> ->]; auto].
    destruct (id =? 0); [destruct (Stay Hb) as [-> ->]; auto|].
    apply Same in Hb. injection Hb as <- <-.
    destruct (delete_appointment_cases d id) as [E|E]; rewrite E.
    + auto.
    + split; [|now left]. right; right. now exists id.
  - (* the list of reminders *)
    unfold reminders_list in Hb.
    destruct (reminders_table d (username s)); [|discriminate].
    destruct (Stay Hb) as [-> ->]; auto.
  - (* the delete button of the reminders *)
    unfold delete_reminder_button in Hb.
    destruct (reminder_id_to_delete i) as [id|];
      [|destruct (Stay Hb) as [-> ->]; auto].
    destruct (id =? 0); [destruct (Stay Hb) as [-> ->]; auto|].
    apply Same in Hb. injection Hb as <- <-.
    destruct (delete_medicine_reminder_cases d id) as [E|E]; rewrite E;
      auto.
  - (* the reminder form *)
    unfold reminder_form in Hb.
    destruct (reminder i) as [[med dt]|];
      [|destruct (Stay Hb) as [-> ->]; auto].
    apply Same in Hb. injection Hb as <- <-.
    destruct (set_medicine_reminder_cases d (username s) med dt)
      as [[x E] | [n [Hn E]]]; rewrite E; auto.
  - (* the picture upload *)
    unfold picture_upload in Hb.
    destruct (uploaded_file i) as [pic|];
      [|destruct (Stay Hb) as [-> ->]; auto].
    destruct (st_image pic) eqn:P; [|discriminate].
    apply Same in Hb. injection Hb as <- <-.
    split; [now left|]. right. eexists. split; [|reflexivity].
    intros id. cbn [prof_picture]. rewrite P. discriminate.
  - (* the profile form *)
    unfold profile_form in Hb.
    destruct (profile i) as [f|];
      [|destruct (Stay Hb) as [-> ->]; auto].
    apply Same in Hb. injection Hb as <- <-.
    split; [now left|]. right. eexists. split; [|reflexivity].
    intros id. exact I.
Qed.

Lemma block_keeps (i : inputs) block s d s' d' :
  valid_inputs i ->
  In block (main_interface i) -> block (s, d) = Some (s', d') ->
  page_invariant d -> page_invariant d'.
Proof.
  intros V Hin Hb (R & FA & FP).
  destruct (block_tables i block s d s' d' V Hin Hb) as [TA TP].
  split; [|split].
  - destruct (block_effect i block s d s' d' Hin Hb)
      as (_ & _ & [[-> _] | [_ (o & -> & W & _)]]); [exact R|].
    apply reach_run; [exact R|auto].
  - destruct TA as [E | [(doc & n & R1 & R2 & E) | (id & E)]]; rewrite E.
    + exact FA.
    + unfold insert_row. cbn [rows]. apply Forall_app. split; [exact FA|].
      constructor; [|constructor]. cbn [appt_datetime].
      now apply listable_at_zone.
    + unfold delete_where. cbn [rows]. now apply Forall_filter.
  - destruct TP as [E | (mk & Hmk & E)]; rewrite E.
    + exact FP.
    + unfold insert_row, delete_where. cbn [rows].
      apply Forall_app. split; [now apply Forall_filter|].
      constructor; [apply Hmk|constructor].
Qed.

Lemma sidebar_keeps a s d s1 d1 :
  sidebar a (s, d) = (s1, d1) -> page_invariant d -> page_invariant d1.
Proof.
  intros S (R & FA & FP). apply sidebar_effect in S.
  destruct S as (_ & [->|(salt & u & p & e & ->)] & _).
  - now split.
  - split; [apply reach_run; [exact R|exact I]|]. cbn [run].
    destruct (signup_tables d salt u p e) as (EA & _ & EP).
    rewrite EA, EP. now split.
Qed.

Lemma script_keeps st i :
  valid_inputs i ->
  page_invariant (snd st) -> page_invariant (snd (script st i)).
Proof.
  intros V. destruct st as [s d]. pose proof (script_cases (s, d) i) as C.
  destruct (sidebar (auth i) (s, d)) as [s1 d1] eqn:S. cbn [fst snd] in *.
  intros P. pose proof (sidebar_keeps (auth i) s d s1 d1 S P) as P1.
  destruct C as [E | [L1 E]]; rewrite E; [exact P1|].
  apply (run_blocks_keeps (fun st' => page_invariant (snd st')));
    [|exact P1].
  intros block [s2 d2] [s3 d3] Hin P2 Hb. cbn [snd] in *.
  exact (block_keeps i block s2 d2 s3 d3 V Hin Hb P2).
Qed.

Lemma after_runs_kept (runs : list inputs) :
  Forall valid_inputs runs -> page_invariant (snd (after_runs runs)).
Proof.
  intros V. rewrite Forall_forall in V. unfold after_runs.
  apply (fold_script_keeps (fun st' => page_invariant (snd st'))).
  - intros st i Hi. apply script_keeps. now apply V.
  - split; [apply reach_empty|]. split; constructor.
Qed.

(** The rows of the appointment table of a database the page keeps. *)
Lemma appointments_table_cells (d : db) (patient : string) :
  page_invariant d ->
  exists cells,
    appointments_table d patient = Some cells
    /\ Forall2 (fun r cell =>
                  exists utc,
                    valid_datetime utc /\ tzinfo utc = Some 0
                    /\ appt_datetime r = isoformat utc
                    /\ cell = (appt_id r, appt_doctor_name r,
                               wall_seconds utc))
               (appointments_in_order d patient) cells.
Proof.
  intros (R & FA & _). apply reachable_invariant in R.
  pose proof (inv_appointment_utc d R) as U.
  rewrite Forall_forall in U, FA.
  unfold appointments_table, list_appointments.
  destruct (parse_rows_all (fun t : option string => t)
              (fun r => (appt_id r, appt_doctor_name r,
                         sqlite_datetime (appt_datetime r)))
              (fun r dt => exists utc,
                   valid_datetime utc /\ tzinfo utc = Some 0
                   /\ appt_datetime r = isoformat utc
                   /\ dt = wall_seconds utc)
              (appointments_in_order d patient)) as (cells & E & F).
  { intros r Hr. apply in_appointments_in_order in Hr.
    destruct Hr as [Hr _]. destruct (U r Hr) as (utc & V & T & Et).
    pose proof (FA r Hr) as L. rewrite Et in L.
    exists (format_date_time " " utc), (wall_seconds utc).
    cbn [snd]. rewrite Et. split.
    - destruct (Z_le_dec (to_us utc + 500) MAX_US) as [B|B].
      + now apply sqlite_datetime_isoformat.
      + exfalso. apply L. apply sqlite_datetime_null; [exact V|exact T|lia].
    - split; [now apply fromisoformat_date_time|]. now exists utc. }
  exists cells. split; [exact E|].
  eapply Forall2_impl; [|exact F].
  intros r cell (dt & (utc & V & T & Et & ->) & ->). now exists utc.
Qed.

(** X13. The appointment table never fails on a database the page has
    produced: after any runs of a session on a fresh database whose two
    forms carry values the [datetime] constructor accepts, every text
    the query returns is read by [fromisoformat], so the run does not end
    there.  The table lists the appointments of the patient in the order
    of the query, and the time it holds for each is the UTC wall clock
    that was stored, cut to whole seconds and without an offset. *)
Theorem appointments_table_never_fails (runs : list inputs)
    (patient : string) :
  Forall valid_inputs runs ->
  exists cells,
    appointments_table (snd (after_runs runs)) patient = Some cells
    /\ Forall2 (fun r cell =>
                  exists utc,
                    valid_datetime utc /\ tzinfo utc = Some 0
                    /\ appt_datetime r = isoformat utc
                    /\ cell = (appt_id r, appt_doctor_name r,
                               wall_seconds utc))
               (appointments_in_order (snd (after_runs runs)) patient)
               cells.
Proof.
  intros V. apply appointments_table_cells. now apply after_runs_kept.
Qed.

(** *** The picture of a profile *)

Lemma st_image_nonempty data : st_image data <> None -> data <> "".
Proof.
  unfold st_image. intros H E. subst data. now apply H.
Qed.

(** X2. A picture that [st.image] draws is stored by the upload and read
    back as the uploaded bytes, and the next run draws it above the
    tabs; the pictures of other usernames are not affected.  A file that
    [st.image] cannot draw, the empty one included, ends the run at the
    upload: nothing is stored. *)
Theorem picture_round_trip (s : session) (d : db) (picture : string) :
  (st_image picture <> None ->
   picture_upload (Some picture) (s, d)
   = Some (s, upsert_picture d (username s) picture)
   /\ get_profile_picture (upsert_picture d (username s) picture)
        (username s) = Some picture
   /\ profile_picture_display
        (s, upsert_picture d (username s) picture)
      = Some (s, upsert_picture d (username s) picture)
   /\ forall u', u' <> username s ->
        get_profile_picture (upsert_picture d (username s) picture) u'
        = get_profile_picture d u')
  /\ (st_image picture = None ->
      picture_upload (Some picture) (s, d) = None)
  /\ picture_upload (Some "") (s, d) = None.
Proof.
  assert (G : st_image picture <> None ->
              get_profile_picture (upsert_picture d (username s) picture)
                (username s) = Some picture).
  { intros P. apply st_image_nonempty in P.
    unfold get_profile_picture, upsert_picture.
    rewrite profile_of_replace by reflexivity. cbn [prof_picture].
    apply String.eqb_neq in P. now rewrite P. }
  split; [|split].
  - intros P. split; [|split; [|split]].
    + unfold picture_upload.
      destruct (st_image picture); [reflexivity|now destruct P].
    + now apply G.
    + unfold profile_picture_display. rewrite (G P).
      destruct (st_image picture); [reflexivity|now destruct P].
    + intros u' Hu. unfold get_profile_picture, upsert_picture.
      rewrite profile_of_replace_other by (reflexivity || assumption).
      reflexivity.
  - intros P. unfold picture_upload. now rewrite P.
  - reflexivity.
Qed.

End Kept.

Lemma appointments_table_never_fails_witness :
  Forall valid_inputs
    [mk_inputs (Some (SignUp "salt" "a@example.org" "asha" "secret"))
       None (Some ("Dr. Smith (Cardiology)", june_1_10h)) None None
       None None None]
  /\ exists cells,
       appointments_table
         (snd (after_runs (host := utc_host)
            [mk_inputs
               (Some (SignUp "salt" "a@example.org" "asha" "secret"))
               None (Some ("Dr. Smith (Cardiology)", june_1_10h)) None None
               None None None])) "asha"
       = Some cells
       /\ map snd cells = [mk_datetime 2025 6 1 4 30 0 0 None].
Proof.
  assert (V : Forall valid_inputs
    [mk_inputs (Some (SignUp "salt" "a@example.org" "asha" "secret"))
       None (Some ("Dr. Smith (Cardiology)", june_1_10h)) None None
       None None None]).
  { constructor; [|constructor]. split; [reflexivity|exact I]. }
  split; [exact V|].
  destruct (appointments_table_never_fails (host := utc_host) _ "asha" V)
    as (cells & E & _).
  exists cells. split; [exact E|].
  vm_compute in E. injection E as <-. reflexivity.
Defined.

(** The store calls can reach a database on which the table fails: an
    appointment booked for the last half millisecond of the year 9999,
    which no value of the form denotes, is listed with NULL for its
    time, and [fromisoformat] raises on it. *)
Example appointments_table_of_the_last_moment :
  reachable (host := utc_host) last_moment_db
  /\ appointments_table last_moment_db "asha" = None.
Proof.
  split.
  - unfold last_moment_db. cbn [fold_left].
    repeat (apply reach_run; [|reflexivity]). apply reach_empty.
  - vm_compute. reflexivity.
Qed.

Lemma picture_round_trip_witness :
  picture_upload (host := utc_host) (Some "PNG")
    (mk_session true "asha" [], empty_db)
  = Some (mk_session true "asha" [], upsert_picture empty_db "asha" "PNG")
  /\ get_profile_picture (upsert_picture empty_db "asha" "PNG") "asha"
     = Some "PNG"
  /\ picture_upload (host := utc_host) (Some "GIF")
       (mk_session true "asha" [], empty_db) = None.
Proof.
  pose proof (picture_round_trip (host := utc_host)
                (mk_session true "asha" []) empty_db "PNG") as H1.
  pose proof (picture_round_trip (host := utc_host)
                (mk_session true "asha" []) empty_db "GIF") as H2.
  split; [|split].
  - refine (proj1 (proj1 H1 _)). vm_compute. discriminate.
  - refine (proj1 (proj2 (proj1 H1 _))). vm_compute. discriminate.
  - refine (proj1 (proj2 H2) _). vm_compute. reflexivity.
Defined.

(** *** The delete buttons *)

(** X20. The delete buttons do not ask whose row it is.  The button of the
    appointment tab is drawn only while the user has an appointment of
    their own and the table above it was drawn; once it is there, a
    press with any id other than zero calls [delete_appointment] with
    that id, whoever the patient of that appointment is.  When the table
    cannot be drawn the run ends before the button, and a user with no
    appointment has no button: the press changes nothing.  The button of
    the reminder tab is always there and calls
    [delete_medicine_reminder] with that id, whoever its patient is.
    After the call with an id SQLite can bind no row has that id. *)
Theorem delete_buttons_ignore_the_owner {host : Host} (s : session)
    (d : db) (id : Z) :
  id <> 0 ->
  (list_appointments d (username s) <> [] ->
   appointments_table d (username s) <> None ->
   appointments_list (Some id) (s, d)
   = Some (s, snd (delete_appointment d id)))
  /\ (list_appointments d (username s) <> [] ->
      appointments_table d (username s) = None ->
      appointments_list (Some id) (s, d) = None)
  /\ (list_appointments d (username s) = [] ->
      appointments_list (Some id) (s, d) = Some (s, d))
  /\ delete_reminder_button (Some id) (s, d)
     = Some (s, snd (delete_medicine_reminder d id))
  /\ (-9223372036854775808 <= id < 9223372036854775808 ->
      (forall r,
         In r (rows (appointments (snd (delete_appointment d id)))) ->
         appt_id r <> id)
      /\ (forall r,
            In r (rows (reminders (snd (delete_medicine_reminder d id)))) ->
            rem_id r <> id)).
Proof.
  intros Hid. apply Z.eqb_neq in Hid.
  split; [|split; [|split; [|split]]].
  - intros Own Tab. unfold appointments_list.
    destruct (list_appointments d (username s)); [now destruct Own|].
    destruct (appointments_table d (username s)); [|now destruct Tab].
    now rewrite Hid.
  - intros Own Tab. unfold appointments_list.
    destruct (list_appointments d (username s)); [now destruct Own|].
    now rewrite Tab.
  - intros None. unfold appointments_list. now rewrite None.
  - unfold delete_reminder_button. now rewrite Hid.
  - intros B. split.
    + intros r. rewrite (delete_appointment_in_range d id B). cbn [snd].
      cbn [appointments set_appointments]. intros Hr.
      now apply in_delete_where in Hr.
    + intros r. rewrite (delete_medicine_reminder_in_range d id B).
      cbn [snd]. cbn [reminders set_reminders]. intros Hr.
      now apply in_delete_where in Hr.
Qed.

(** In the sample all rows are those of "asha".  "ravi", who has no
    appointment, cannot delete one; once "ravi" has one of his own, his
    press deletes the first appointment of "asha". *)
Lemma delete_buttons_ignore_the_owner_witness :
  1 <> 0
  /\ appointments_list (Some 1) (mk_session true "ravi" [], sample_db)
     = Some (mk_session true "ravi" [], sample_db)
  /\ (let d := run (host := utc_host) sample_db
                 (Book "ravi" "Dr. Smith (Cardiology)" june_1_10h) in
      appointments_list (Some 1) (mk_session true "ravi" [], d)
      = Some (mk_session true "ravi" [], snd (delete_appointment d 1))
      /\ map fst (list_appointments (snd (delete_appointment d 1)) "asha")
         = [(2, "Dr. Jones (Pediatrics)")]).
Proof.
  assert (N : 1 <> 0) by discriminate.
  split; [exact N|]. split.
  - refine (proj1 (proj2 (proj2 (delete_buttons_ignore_the_owner
                                   (host := utc_host)
                                   (mk_session true "ravi" [])
                                   sample_db 1 N))) _).
    vm_compute. reflexivity.
  - split.
    + refine (proj1 (delete_buttons_ignore_the_owner
                       (host := utc_host) (mk_session true "ravi" [])
                       (run (host := utc_host) sample_db
                          (Book "ravi" "Dr. Smith (Cardiology)" june_1_10h))
                       1 N) _ _).
      * vm_compute. discriminate.
      * vm_compute. discriminate.
    + vm_compute. reflexivity.
Defined.

(** *** Sample runs *)

Lemma utc_host_plain_errors : plain_errors utc_host.
Proof. intros password salt x H. discriminate H. Qed.

Lemma no_run_logs_out_witness :
  logged_in
    (fst (script (host := utc_host) initial_state
            (mk_inputs (Some (SignUp "salt" "a@example.org" "asha" "secret"))
               None None None None None None None))) = true
  /\ logged_in
       (fst (fold_left (script (host := utc_host))
               [mk_inputs (Some (LogIn "asha" "wrong"))
                  None None None None None None None;
                idle]
               (script (host := utc_host) initial_state
                  (mk_inputs
                     (Some (SignUp "salt" "a@example.org" "asha" "secret"))
                     None None None None None None None)))) = true.
Proof.
  split; [reflexivity|].
  apply (no_run_logs_out (host := utc_host)). reflexivity.
Defined.

Lemma rows_belong_to_registered_users_witness :
  plain_errors utc_host
  /\ rows_have_owners
       (after_runs (host := utc_host)
          [mk_inputs (Some (SignUp "salt" "a@example.org" "asha" "secret"))
             None (Some ("Dr. Smith (Cardiology)", june_1_10h)) None None
             None (Some "PNG") None]).
Proof.
  split; [exact utc_host_plain_errors|].
  exact (rows_belong_to_registered_users (host := utc_host) _
           utc_host_plain_errors).
Defined.

(** The hypothesis is needed: when [hashpw] fails with a text that holds
    a check mark, the signup form logs in a username that has no row. *)
Example check_mark_in_an_error_logs_in :
  let host := Build_Host (fun _ _ => raise ValueError "✅")
                echo_checkpw (fun _ => 0) echo_chatbot png_identifies in
  let st := script (host := host) initial_state
              (mk_inputs (Some (SignUp "salt" "a@example.org" "asha" "secret"))
                 None None None None None None None) in
  logged_in (fst st) = true /\ username (fst st) = "asha"
  /\ credentials (snd st) "asha" = None.
Proof. vm_compute. repeat split. Qed.

Lemma page_databases_are_reachable_witness :
  Forall valid_inputs
    [mk_inputs (Some (SignUp "salt" "a@example.org" "asha" "secret"))
       None (Some ("Dr. Smith (Cardiology)", june_1_10h)) None None
       (Some ("Aspirin", june_1_10h)) None None]
  /\ reachable (host := utc_host)
       (snd (after_runs (host := utc_host)
          [mk_inputs (Some (SignUp "salt" "a@example.org" "asha" "secret"))
             None (Some ("Dr. Smith (Cardiology)", june_1_10h)) None None
             (Some ("Aspirin", june_1_10h)) None None])).
Proof.
  assert (V : Forall valid_inputs
    [mk_inputs (Some (SignUp "salt" "a@example.org" "asha" "secret"))
       None (Some ("Dr. Smith (Cardiology)", june_1_10h)) None None
       (Some ("Aspirin", june_1_10h)) None None]).
  { constructor; [|constructor]. split; reflexivity. }
  split; [exact V|].
  exact (page_databases_are_reachable (host := utc_host) _ V).
Defined.

(** One run of a fresh session: a signup, a prompt, an appointment and a
    reminder. *)
Example a_first_run :
  let st := after_runs (host := utc_host)
              [mk_inputs
                 (Some (SignUp "salt" "a@example.org" "asha" "secret"))
                 (Some "I have a headache")
                 (Some ("Dr. Smith (Cardiology)", june_1_10h)) None None
                 (Some ("Aspirin", june_1_10h)) None None] in
  logged_in (fst st) = true /\ username (fst st) = "asha"
  /\ List.length (messages (fst st)) = 2%nat
  /\ list_appointments (snd st) "asha"
     = [(1, "Dr. Smith (Cardiology)", Some "2025-06-01 04:30:00")]
  /\ list_reminders (snd st) "asha"
     = [(1, "Aspirin", "2025-06-01T15:30:00+05:30")].
Proof. vm_compute. repeat split. Qed.

(** *** Runs of a session that is not logged in *)

Section LoggedOut.
Context {host : Host}.

Lemma sidebar_stays a s d s1 d1 :
  sidebar a (s, d) = (s1, d1) -> logged_in s1 = false -> (s1, d1) = (s, d).
Proof.
  destruct a as [[salt email u p | u p]|]; cbn [sidebar].
  - unfold signup_form.
    destruct (truthy email && truthy u && truthy p);
      [|intros E _; now symmetry].
    pose proof (signup_cases d salt u p email) as Cases.
    destruct (signup d salt u p email) as [msg d'] eqn:E.
    destruct (contains "✅" msg) eqn:C.
    + intros [= <- <-]. cbn [logged_in]. discriminate.
    + intros [= <- <-] _. f_equal.
      destruct Cases
        as [[_ E'] | [[_ [x [_ [_ E']]]] | [[_ [x [_ [_ E']]]]
            | [[_ [_ [_ E']]] | [_ [_ [h [_ E']]]]]]]];
        injection E' as Em Ed'; try exact Ed'.
      subst msg. discriminate C.
  - unfold login_form.
    destruct (truthy u && truthy p); [|intros E _; now symmetry].
    destruct (contains "✅" (login d u p)).
    + intros [= <- <-]. cbn [logged_in]. discriminate.
    + intros [= <- <-] _. reflexivity.
  - intros E _. now symmetry.
Qed.

(** X21. Without a login nothing is written.  If at the end of a run the
    session is not logged in, the run has changed neither the session nor
    the database, whatever was typed, pressed or uploaded in it: the four
    tabs are not run, and a signup that inserts a row logs in. *)
Theorem logged_out_runs_change_nothing (st : state) (i : inputs) :
  logged_in (fst (script st i)) = false -> script st i = st.
Proof.
  destruct st as [s d]. pose proof (script_cases (s, d) i) as C.
  destruct (sidebar (auth i) (s, d)) as [s1 d1] eqn:S. cbn [fst] in C.
  destruct C as [E | [L1 E]]; rewrite E.
  - cbn [fst]. intros L1. now apply (sidebar_stays (auth i)).
  - intros H. exfalso.
    assert (K : logged_in (fst (run_blocks (main_interface i) (s1, d1)))
                = true).
    { apply (run_blocks_keeps (fun st' => logged_in (fst st') = true));
        [|exact L1].
      intros block [s2 d2] [s3 d3] Hin L2 Hb. cbn [fst] in *.
      destruct (block_effect i block s2 d2 s3 d3 Hin Hb) as (EL & _).
      now rewrite EL. }
    rewrite K in H. discriminate H.
Qed.

End LoggedOut.

Lemma logged_out_runs_change_nothing_witness :
  script (host := utc_host) initial_state
    (mk_inputs (Some (LogIn "asha" "secret")) (Some "I have a headache")
       (Some ("Dr. Smith (Cardiology)", june_1_10h)) (Some 1) (Some 1)
       (Some ("Aspirin", june_1_10h)) (Some "PNG") None)
  = initial_state.
Proof.
  apply (logged_out_runs_change_nothing (host := utc_host)).
  reflexivity.
Defined.

(** *** Runs that reach the end of the script *)

Lemma completes_all (P : state -> Prop) blocks :
  (forall block st,
     In block blocks -> P st -> exists st', block st = Some st' /\ P st') ->
  forall st, P st -> completes blocks st.
Proof.
  induction blocks as [|block blocks IH]; intros H st Hst; [exact I|].
  cbn [completes].
  destruct (H block st (or_introl eq_refl) Hst) as (st' & -> & Hst').
  apply IH; [|exact Hst'].
  intros b s Hb. apply H. now right.
Qed.

Section Completion.
Context {host : Host}.

Lemma reminders_table_some d patient :
  reachable d -> exists cells, reminders_table d patient = Some cells.
Proof.
  intros R. apply reachable_invariant in R.
  pose proof (inv_reminder_local d R) as U. rewrite Forall_forall in U.
  unfold reminders_table, list_reminders.
  destruct (parse_rows_all Some
              (fun r => (rem_id r, rem_medication r, rem_time r))
              (fun _ _ => True)
              (reminders_in_order d patient)) as (cells & E & _).
  { intros r Hr. apply in_reminders_in_order in Hr.
    destruct Hr as [Hr _]. destruct (U r Hr) as (ist & V & T & Et).
    exists (rem_time r), ist. cbn [snd]. split; [reflexivity|].
    split; [rewrite Et; now apply fromisoformat_isoformat|exact I]. }
  now exists cells.
Qed.

Lemma block_returns (i : inputs) block s d :
  valid_inputs i -> localizable i -> drawable i -> page_invariant d ->
  In block (main_interface i) -> exists st', block (s, d) = Some st'.
Proof.
  intros [VA _] ID DR P Hin. cbn [main_interface In] in Hin.
  destruct Hin as [<-|[<-|[<-|[<-|[<-|[<-|[<-|[<-|[]]]]]]]]].
  - unfold chat_tab. destruct (prompt i) as [p|]; [|eauto].
    destruct (truthy p); [|eauto].
    destruct (healthcare_chatbot_reply p) as (text & -> & _).
    unfold ret. eauto.
  - unfold appointment_form. unfold localizable in ID.
    destruct (appointment i) as [[doc dt]|]; [|eauto].
    destruct ID as [N Rg]. rewrite (localize_naive dt VA N Rg).
    unfold ret. eauto.
  - unfold appointments_list.
    destruct (list_appointments d (username s)); [eauto|].
    destruct (appointments_table_cells d (username s) P)
      as (cells & -> & _).
    destruct (appointment_id_to_delete i) as [id|]; [|eauto].
    destruct (id =? 0); eauto.
  - unfold reminders_list.
    destruct (reminders_table_some d (username s) (proj1 P)) as [cells ->].
    eauto.
  - unfold delete_reminder_button.
    destruct (reminder_id_to_delete i) as [id|]; [|eauto].
    destruct (id =? 0); eauto.
  - unfold reminder_form. destruct (reminder i) as [[med dt]|]; eauto.
  - unfold picture_upload. unfold drawable in DR.
    destruct (uploaded_file i) as [pic|]; [|eauto].
    destruct (st_image pic); [eauto|now destruct DR].
  - unfold profile_form. destruct (profile i); eauto.
Qed.

(** The picture of a profile the page has stored is drawn. *)
Lemma display_returns s d :
  page_invariant d -> profile_picture_display (s, d) = Some (s, d).
Proof.
  intros (_ & _ & FP). rewrite Forall_forall in FP.
  unfold profile_picture_display, get_profile_picture, profile_of.
  destruct (find (fun r => String.eqb (prof_username r) (username s))
              (rows (profiles d))) as [row|] eqn:F; [|reflexivity].
  apply find_some in F. destruct F as [Hin _].
  specialize (FP row Hin).
  destruct (prof_picture row) as [picture|]; [|reflexivity].
  destruct (String.eqb picture ""); [reflexivity|].
  destruct (st_image picture); [reflexivity|now destruct FP].
Qed.

(** X23. A run reaches the end of the script.  After any runs of a session
    on a fresh database whose two forms carry values the [datetime]
    constructor accepts, a run with such values, an appointment time
    whose UTC value is in the calendar and an upload that [st.image] can
    draw is not ended by an exception: the stored picture is drawn above
    the tabs, and [healthcare_chatbot], [localize], [fromisoformat] and
    [st.image], the calls of the tabs that could raise outside a [try],
    all return, each on the database the block before it left. *)
Theorem runs_reach_the_end (runs : list inputs) (i : inputs) :
  Forall valid_inputs runs ->
  valid_inputs i -> localizable i -> drawable i ->
  reaches_the_end (after_runs runs) i.
Proof.
  intros VR V ID DR. pose proof (after_runs_kept runs VR) as P.
  unfold reaches_the_end.
  destruct (after_runs runs) as [s d]. cbn [snd] in P.
  destruct (sidebar (auth i) (s, d)) as [s1 d1] eqn:S.
  pose proof (sidebar_keeps (auth i) s d s1 d1 S P) as P1.
  rewrite (display_returns s1 d1 P1). intros _.
  apply (completes_all (fun st' => page_invariant (snd st'))); [|exact P1].
  intros block [s2 d2] Hin P2. cbn [snd] in P2.
  destruct (block_returns i block s2 d2 V ID DR P2 Hin) as ([s3 d3] & E).
  exists (s3, d3). split; [exact E|]. cbn [snd].
  exact (block_keeps i block s2 d2 s3 d3 V Hin E P2).
Qed.

End Completion.

(** A file that is not an image ends the run at the upload: the profile
    of the same run is not saved, and the booking made before the upload
    stays. *)
Example a_run_that_ends_early :
  let i := mk_inputs None None
             (Some ("Dr. Smith (Cardiology)", june_1_10h))
             None None None (Some "GIF")
             (Some (mk_profile_fields "Asha" 30 "" "" "" "O+" 160 55)) in
  let st := (mk_session true "asha" [], empty_db) in
  valid_inputs i /\ localizable i
  /\ ~ reaches_the_end (host := utc_host) st i
  /\ script (host := utc_host) st i
     = (mk_session true "asha" [],
        insert_appointment empty_db "asha" "Dr. Smith (Cardiology)"
          "2025-06-01T04:30:00+00:00").
Proof.
  cbv zeta. split; [split; [reflexivity|exact I]|].
  split; [split; [reflexivity|vm_compute; discriminate]|]. split.
  - vm_compute. intros H. exact (H eq_refl).
  - vm_compute. reflexivity.
Qed.

Lemma runs_reach_the_end_witness :
  Forall valid_inputs
    [mk_inputs (Some (SignUp "salt" "a@example.org" "asha" "secret"))
       None None None None None (Some "PNG") None]
  /\ reaches_the_end (host := utc_host)
       (after_runs (host := utc_host)
          [mk_inputs (Some (SignUp "salt" "a@example.org" "asha" "secret"))
             None None None None None (Some "PNG") None])
       (mk_inputs None (Some "I have a headache")
          (Some ("Dr. Smith (Cardiology)", june_1_10h)) (Some 2) None
          (Some ("Aspirin", june_1_10h)) (Some "PNG") None).
Proof.
  assert (V : Forall valid_inputs
    [mk_inputs (Some (SignUp "salt" "a@example.org" "asha" "secret"))
       None None None None None (Some "PNG") None]).
  { constructor; [|constructor]. split; exact I. }
  split; [exact V|].
  apply (runs_reach_the_end (host := utc_host) _ _ V).
  - split; reflexivity.
  - split; [reflexivity|]. vm_compute. discriminate.
  - vm_compute. discriminate.
Defined.

End PageFacts.
